(** * ds_utils / ml.py: cross-validation wrappers, neighbour regression and
      tabular auto-models, embedded for verification.

    Conventions of the embedding.
    - A finite float64 is an exact rational ([Qc]); [NaN] is the one
      non-finite value that is represented (pandas' missing marker, and the
      result of a division by zero).  The definitions over [Qc] do not
      round: the theorems about them say which computation is applied to
      which data, never that two different computations give the same
      float.  Where that question arises, module [Binary64] evaluates the
      computation with IEEE 754 binary64 operations.  The one rounding the
      definitions over [Qc] do make is the cast of an integer column to
      floats ([round_binary64]).
    - A Python exception is a value of [exn]; a method that may raise returns
      a [result].
    - Python objects that are mutated in place (estimators, DataFrames) live
      in a store indexed by locations; a method is a function of the store.
    - Console output ([print]) is not modelled.
    - Library functions whose body is not part of ml.py (splitters,
      [kneighbors], estimators' [fit]/[predict], metric formulas, the random
      train/test split, square root, [log1p]) are parameters of the
      development. *)

From stdpp Require Import base numbers list sorting strings gmap pretty.
From Stdlib Require Import QArith Qcanon.
From Stdlib Require PrimFloat.

Local Open Scope Qc_scope.

(** ** Exceptions and results *)

Inductive exn :=
  | UnboundLocalError
  | IndexError
  | ValueError
  | KeyError
  | AttributeError
  | TypeError.

Inductive result (A : Type) :=
  | Ok (a : A)
  | Raise (e : exn).
Arguments Ok {A} a.
Arguments Raise {A} e.

Global Instance exn_eq_dec : EqDecision exn.
Proof. solve_decision. Defined.
Global Instance result_eq_dec `{EqDecision A} : EqDecision (result A).
Proof. solve_decision. Defined.

Global Instance result_ret : MRet result := λ A a, Ok a.
Global Instance result_bind : MBind result := λ A B k m,
  match m with
  | Ok a => k a
  | Raise e => Raise e
  end.
Global Instance result_fmap : FMap result := λ A B f m,
  match m with
  | Ok a => Ok (f a)
  | Raise e => Raise e
  end.

Definition of_option {A} (e : exn) (o : option A) : result A :=
  match o with
  | Some a => Ok a
  | None => Raise e
  end.

Fixpoint rmapM {A B} (f : A → result B) (l : list A) : result (list B) :=
  match l with
  | [] => Ok []
  | a :: l => b ← f a; bs ← rmapM f l; Ok (b :: bs)
  end.

Definition is_Ok {A} (r : result A) : Prop := ∃ a, r = Ok a.

(** [a[ind]] / [a.iloc[ind]] for a list of positions: [IndexError] when one
    is out of range. *)
Definition take_rows {A} (a : list A) (ind : list nat) : result (list A) :=
  rmapM (λ i, of_option IndexError (a !! i)) ind.

(** ** Floats *)

Abbreviation float := (option Qc).
Abbreviation NaN := (@None Qc) (only parsing).
Abbreviation Fin := (@Some Qc) (only parsing).
Abbreviation matrix A := (list (list A)).

Definition Qc_of_nat (n : nat) : Qc := Qc_of_Z (Z.of_nat n).

(** A numpy array of floats with zero, one or two dimensions. *)
Inductive ndarray :=
  | A0 (x : float)
  | A1 (v : list float)
  | A2 (m : matrix float).

Global Instance ndarray_eq_dec : EqDecision ndarray.
Proof. solve_decision. Defined.

(** Float division: a zero divisor gives a non-finite value. *)
Definition fdiv (a b : Qc) : float :=
  if decide (b = 0) then NaN else Fin (a / b).

(** ** The numpy reductions used by ml.py, on one-dimensional data *)

Module Np.

Definition sum (l : list Qc) : Qc := foldr Qcplus 0 l.

(** [np.mean]: the empty mean is [nan]. *)
Definition mean (l : list Qc) : float := fdiv (sum l) (Qc_of_nat (length l)).

Definition sort (l : list Qc) : list Qc := merge_sort Qcle l.

(** [np.median]: the middle element of the sorted data, or the mean of the
    two middle elements when the length is even; [nan] on empty data. *)
Definition median (l : list Qc) : float :=
  let s := sort l in
  let n := length l in
  if Nat.even n
  then a ← s !! (n / 2 - 1)%nat; b ← s !! (n / 2)%nat; Fin ((a + b) / 2)
  else s !! (n / 2)%nat.

(** Insertion of an index into a list of indices ordered by their keys.
    Indices are inserted from the last to the first, so an index goes in
    front of every index with an equal key: equal keys keep their order. *)
Fixpoint arg_insert (key : nat → Qc) (i : nat) (l : list nat) : list nat :=
  match l with
  | [] => [i]
  | j :: l' =>
      if decide (key i ≤ key j) then i :: l else j :: arg_insert key i l'
  end.

(** [np.argsort] of a one-dimensional array: the indices that sort it. *)
Definition argsort (l : list Qc) : list nat :=
  let key i := default 0 (l !! i) in
  foldr (arg_insert key) [] (seq 0 (length l)).

End Np.

(** ** KNNRegressor: the [predict] override of [KNeighborsRegressor] *)

Module KNNRegressor.

(** The [weights] constructor argument of the library class. *)
Inductive weights_param :=
  | WNone
  | WUniform
  | WDistance
  | WCallable (f : matrix Qc → matrix Qc).

(** The stored training targets [_y]: one- or two-dimensional. *)
Inductive targets :=
  | Y1 (v : list Qc)
  | Y2 (ncols : nat) (rows : matrix Qc).

(** What [predict] returns: [y_pred], or the triple
    [(y_pred, nearest_matched_index, neigh_ind)]. *)
Inductive output :=
  | Pred (y_pred : ndarray)
  | PredMatch (y_pred : ndarray) (nearest_matched_index : matrix nat)
      (neigh_ind : matrix nat).

Global Instance output_eq_dec : EqDecision output.
Proof. solve_decision. Defined.

(** A fitted regressor.  [kneighbors] is the library's neighbour query: for
    each query row, the distances to and the training positions of its
    [n_neighbors] nearest training points, nearest first. *)
Record t (X : Type) := {
  n_neighbors : nat;
  weights : weights_param;
  _y : targets;
  kneighbors : X → result (matrix Qc * matrix nat)
}.
Arguments n_neighbors {X} _.
Arguments weights {X} _.
Arguments _y {X} _.
Arguments kneighbors {X} _ _.

(** [sklearn.neighbors._base._get_weights], as the library defines it:
    no weights for [None] and ['uniform']; for ['distance'] the inverse
    distances, except that a row with a zero distance weighs its
    zero-distance points 1 and the others 0; a callable is applied to the
    distances. *)
Definition distance_row (d : list Qc) : list Qc :=
  if decide (0 ∈ d)
  then (λ x, if decide (x = 0) then 1 else 0) <$> d
  else (λ x, 1 / x) <$> d.

Definition _get_weights (dist : matrix Qc) (w : weights_param)
    : option (matrix Qc) :=
  match w with
  | WNone | WUniform => None
  | WDistance => Some (distance_row <$> dist)
  | WCallable f => Some (f dist)
  end.

Definition ndim (y : targets) : nat :=
  match y with Y1 _ => 1 | Y2 _ _ => 2 end.

(** [_y.reshape((-1, 1))] when [_y] is one-dimensional: the two-dimensional
    view as (number of columns, rows). *)
Definition as_2d (y : targets) : nat * matrix Qc :=
  match y with
  | Y1 v => (1%nat, (λ x, [x]) <$> v)
  | Y2 c rows => (c, rows)
  end.

(** Column [j] of a block of target rows. *)
Definition column (j : nat) (block : matrix Qc) : list Qc :=
  (λ r, default 0 (r !! j)) <$> block.

(** A reduction over axis 1 of [_y[neigh_ind]]: for each query, for each
    output column, the reduction of that column over the neighbours. *)
Definition reduce_axis1 (f : list Qc → float) (ncols : nat)
    (d : list (matrix Qc)) : matrix float :=
  (λ block, (λ j, f (column j block)) <$> seq 0 ncols) <$> d.

Definition same_shape {A B} (a : matrix A) (b : matrix B) : bool :=
  bool_decide (length <$> a = length <$> b).

(** The distance-weighted rows: for each query and output column,
    [sum(_y[neigh_ind, j] * weights) / sum(weights)], on rationals (see
    [Binary64.weighted_average] for the rounded computation). *)
Definition weighted_rows (ncols : nat) (d : list (matrix Qc))
    (w : matrix Qc) : matrix float :=
  zip_with (λ block wi,
    (λ j, fdiv (Np.sum (zip_with Qcmult (column j block) wi)) (Np.sum wi))
      <$> seq 0 ncols) d w.

Section predict.
Context {X : Type}.
(** The library's input validation: the array, or an exception. *)
Variable check_array : X → result X.

Definition predict (self : t X) (x : X)
    (return_match_index : bool) (pred_calc : string) : result output :=
  x ← check_array x;
  '(neigh_dist, neigh_ind) ← kneighbors self x;
  let weights := _get_weights neigh_dist (weights self) in
  let '(ncols, rows) := as_2d (_y self) in
  (* [y_pred] is [None] while the local variable is unbound *)
  y_pred ← match weights with
    | None =>
        if decide (pred_calc = "mean") then
          d ← rmapM (take_rows rows) neigh_ind;
          Ok (Some (reduce_axis1 Np.mean ncols d))
        else if decide (pred_calc = "median") then
          d ← rmapM (take_rows rows) neigh_ind;
          Ok (Some (reduce_axis1 Np.median ncols d))
        else Ok None
    | Some w =>
        d ← rmapM (take_rows rows) neigh_ind;
        if same_shape w neigh_ind
        then Ok (Some (weighted_rows ncols d w))
        else Raise ValueError
    end;
  y_pred ← (if decide (ndim (_y self) = 1%nat) then
      m ← of_option UnboundLocalError y_pred;
      Ok (Some (A1 (concat m)))
    else Ok (A2 <$> y_pred));
  if return_match_index then
    d ← rmapM (take_rows rows) neigh_ind;
    let middle_idx := (n_neighbors self / 2)%nat in
    median_idx ← rmapM (λ block,
      Np.argsort <$> of_option IndexError (block !! middle_idx)) d;
    nearest_index ← rmapM (λ '(ni, mi), take_rows ni mi) (zip neigh_ind median_idx);
    y_pred ← of_option UnboundLocalError y_pred;
    Ok (PredMatch y_pred nearest_index neigh_ind)
  else
    y_pred ← of_option UnboundLocalError y_pred;
    Ok (Pred y_pred).
End predict.

(** *** What the override is specified to compute *)

(** The number of training samples and the target of sample [i] in output
    column [j]. *)
Definition n_samples (y : targets) : nat :=
  match y with Y1 v => length v | Y2 _ rows => length rows end.

Definition target_at (y : targets) (i j : nat) : option Qc :=
  match y with
  | Y1 v => if decide (j = 0%nat) then v !! i else None
  | Y2 _ rows => r ← rows !! i; r !! j
  end.

(** Two-dimensional targets are rectangular. *)
Definition wf_targets (y : targets) : Prop :=
  match y with
  | Y1 _ => True
  | Y2 c rows => Forall (λ r, length r = c) rows
  end.

(** The targets, in output column [j], of the neighbours [ni]. *)
Definition neighbour_targets (y : targets) (ni : list nat) (j : nat) : list Qc :=
  omap (λ i, target_at y i j) ni.

(** The array holding [f dist_i ind_i j] for every query [i] and output
    column [j], shaped like the targets. *)
Definition per_query (f : list Qc → list nat → nat → float) (y : targets)
    (dist : matrix Qc) (ind : matrix nat) : ndarray :=
  match y with
  | Y1 _ => A1 (zip_with (λ di ni, f di ni 0%nat) dist ind)
  | Y2 c _ => A2 (zip_with (λ di ni, f di ni <$> seq 0 c) dist ind)
  end.

(** The weighted average of the neighbours' targets. *)
Definition weighted_average (y : targets) (w : list Qc) (ni : list nat) (j : nat) : float :=
  fdiv (Np.sum (zip_with Qcmult (neighbour_targets y ni j) w)) (Np.sum w).

(** The neighbour whose target is the positional median of the targets. *)
Definition median_neighbour (y : targets) (ni : list nat) : option nat :=
  let ts := neighbour_targets y ni 0 in
  p ← Np.argsort ts !! (length ts / 2)%nat; ni !! p.

End KNNRegressor.

(** ** The distance-weighted average in binary64

    The distance-weighted branch of [KNNRegressor.predict] for one query
    and one output column, in the arithmetic the code runs in: IEEE 754
    binary64, every operation rounded to the nearest value.  It decides
    what the exact model cannot: whether two computations that agree on the
    rationals agree on floats. *)

Module Binary64.
Import PrimFloat.
Local Open Scope float_scope.

(** [np.sum] of fewer than eight terms: they are added one by one, from
    the first, to the initial value 0. *)
Definition sum (l : list float) : float := foldl add 0 l.

(** The number of terms as a float. *)
Fixpoint of_nat (n : nat) : float :=
  match n with
  | O => 0
  | S n => of_nat n + 1
  end.

(** [np.mean]: the sum divided by the number of terms. *)
Definition mean (l : list float) : float := sum l / of_nat (length l).

Definition is_inf (x : float) : bool := (x =? infinity) || (x =? neg_infinity).

(** [_get_weights] with ['distance'], on the distances of one query: the
    inverse distances; where one of them is infinite, the infinite ones
    weigh 1 and the others 0. *)
Definition distance_row (d : list float) : list float :=
  let w := (λ x, 1 / x) <$> d in
  if existsb is_inf w then (λ x, if is_inf x then 1 else 0) <$> w else w.

(** The weight every neighbour gets when all are at the distance [d]. *)
Definition equal_weight (d : float) : float :=
  if is_inf (1 / d) then 1 else 1 / d.

(** [np.sum(_y[neigh_ind, j] * weights) / np.sum(weights)] for one query:
    [ys] are the targets of its neighbours, [ws] their weights. *)
Definition weighted_average (ys ws : list float) : float :=
  sum (zip_with mul ys ws) / sum ws.

End Binary64.

(** ** Specifications of the reductions *)

(** [m] is the unweighted mean of the non-empty [l]. *)
Definition is_mean (l : list Qc) (m : Qc) : Prop :=
  l ≠ [] ∧ m * Qc_of_nat (length l) = Np.sum l.

(** [m] is the median of the non-empty [l]: the middle of the sorted values,
    or halfway between the two middle values. *)
Definition is_median (l : list Qc) (m : Qc) : Prop :=
  ∃ s, s ≡ₚ l ∧ Sorted Qcle s ∧
    ((Nat.Odd (length l) ∧ s !! (length l / 2)%nat = Some m) ∨
     (Nat.Even (length l) ∧ ∃ a b, s !! (length l / 2 - 1)%nat = Some a ∧
        s !! (length l / 2)%nat = Some b ∧ l ≠ [] ∧ m = (a + b) / 2)).

(** ** The object store

    Estimators and DataFrames are Python objects mutated in place and may be
    referenced from several places, so they live in a store.  A method is a
    computation over a state that holds the store; an exception leaves the
    state as it was when raised. *)

Abbreviation loc := nat.

Definition M (S A : Type) : Type := S → S * result A.

Global Instance M_ret S : MRet (M S) := λ A a s, (s, Ok a).
Global Instance M_bind S : MBind (M S) := λ A B k m s,
  match m s with
  | (s', Ok a) => k a s'
  | (s', Raise e) => (s', Raise e)
  end.

Definition get {S} : M S S := λ s, (s, Ok s).
Definition put {S} (s : S) : M S unit := λ _, (s, Ok ()).
Definition modify {S} (f : S → S) : M S unit := λ s, (f s, Ok ()).
Definition raise {S A} (e : exn) : M S A := λ s, (s, Raise e).
Definition lift {S A} (r : result A) : M S A := λ s, (s, r).

(** [for a in l: body(a)] *)
Fixpoint forM {S A} (l : list A) (body : A → M S unit) : M S unit :=
  match l with
  | [] => mret ()
  | a :: l => body a;; forM l body
  end.

(** A loop whose body updates local variables [b]. *)
Fixpoint foldM {S A B} (body : B → A → M S B) (b : B) (l : list A) : M S B :=
  match l with
  | [] => mret b
  | a :: l => b' ← body b a; foldM body b' l
  end.

(** [enumerate] *)
Definition enumerate {A} (l : list A) : list (nat * A) := zip (seq 0 (length l)) l.

(** ** pandas: the DataFrame operations used by ml.py *)

Module Pd.

Inductive cell :=
  | CInt (z : Z)
  | CFloat (x : float)
  | CStr (s : string)
  | CRef (l : loc)
  | CTuple (t : list float).

Global Instance cell_eq_dec : EqDecision cell.
Proof. solve_decision. Defined.

(** A Series: its index labels and its values. *)
Record Series := {
  s_index : list cell;
  s_values : list cell
}.

(** A DataFrame: its index labels and its columns in order, every column as
    long as the index. *)
Record DataFrame := {
  df_index : list cell;
  df_columns : list (string * list cell)
}.

Definition RangeIndex (n : nat) : list cell := (λ i, CInt (Z.of_nat i)) <$> seq 0 n.

Definition column_names (df : DataFrame) : list string := fst <$> df_columns df.

(** [pd.DataFrame(columns)] from equally long columns. *)
Definition from_columns (cols : list (string * list cell)) : result DataFrame :=
  let n := default 0%nat (length <$> (snd <$> head cols)) in
  if decide (Forall (λ c, length c.2 = n) cols)
  then Ok {| df_index := RangeIndex n; df_columns := cols |}
  else Raise ValueError.

Fixpoint lookup_col (name : string) (cols : list (string * list cell))
    : option (list cell) :=
  match cols with
  | [] => None
  | c :: cols => if decide (c.1 = name) then Some c.2 else lookup_col name cols
  end.

(** [df[name]] *)
Definition getitem (name : string) (df : DataFrame) : result (list cell) :=
  of_option KeyError (lookup_col name (df_columns df)).

(** [df[name] = values]: replaces the column where it stands, or appends it. *)
Fixpoint set_col (name : string) (v : list cell) (cols : list (string * list cell))
    : list (string * list cell) :=
  match cols with
  | [] => [(name, v)]
  | c :: cols => if decide (c.1 = name) then (name, v) :: cols else c :: set_col name v cols
  end.

Definition setitem (name : string) (v : list cell) (df : DataFrame) : result DataFrame :=
  if decide (length v = length (df_index df))
  then Ok {| df_index := df_index df; df_columns := set_col name v (df_columns df) |}
  else Raise ValueError.

(** [df.drop(name, axis=1)] / [df.drop(columns=name)] *)
Definition drop (name : string) (df : DataFrame) : result DataFrame :=
  if decide (name ∈ column_names df)
  then Ok {| df_index := df_index df;
             df_columns := filter (λ c, c.1 ≠ name) (df_columns df) |}
  else Raise KeyError.

(** [df.set_index(name)] *)
Definition set_index (name : string) (df : DataFrame) : result DataFrame :=
  v ← getitem name df;
  Ok {| df_index := v; df_columns := filter (λ c, c.1 ≠ name) (df_columns df) |}.

(** [pd.concat([a, b], axis=1)] of two frames with the same index. *)
Definition concat_columns (a b : DataFrame) : result DataFrame :=
  if decide (df_index a = df_index b)
  then Ok {| df_index := df_index a; df_columns := df_columns a ++ df_columns b |}
  else Raise ValueError.

(** [pd.concat([a, b])]: the rows of [b] under those of [a]; a column that
    one frame lacks is filled with [NaN] there. *)
Definition col_or_nan (name : string) (df : DataFrame) : list cell :=
  default (replicate (length (df_index df)) (CFloat NaN))
          (lookup_col name (df_columns df)).

Definition concat_rows (a b : DataFrame) : DataFrame :=
  let names := column_names a ++ filter (λ n, n ∉ column_names a) (column_names b) in
  {| df_index := df_index a ++ df_index b;
     df_columns := (λ n, (n, col_or_nan n a ++ col_or_nan n b)) <$> names |}.

(** [df.iloc[positions]] *)
Definition iloc (pos : list nat) (df : DataFrame) : result DataFrame :=
  idx ← rmapM (λ i, of_option IndexError (df_index df !! i)) pos;
  cols ← rmapM (λ c : string * list cell,
            v ← rmapM (λ i, of_option IndexError (c.2 !! i)) pos; Ok (c.1, v))
          (df_columns df);
  Ok {| df_index := idx; df_columns := cols |}.

Definition to_float (c : cell) : result float :=
  match c with
  | CInt z => Ok (Fin (Qc_of_Z z))
  | CFloat x => Ok x
  | _ => Raise TypeError
  end.

(** The finite values of a numeric column (reductions skip [NaN]). *)
Definition finite_values (v : list cell) : result (list Qc) :=
  xs ← rmapM to_float v; Ok (omap id (xs : list float)).

(** [astype(int)] on one value: truncation toward zero; [NaN] cannot be cast. *)
Definition to_int (c : cell) : result cell :=
  x ← to_float c;
  match x with
  | Some q => Ok (CInt (Z.quot (Qnum (this q)) (Z.pos (Qden (this q)))))
  | None => Raise ValueError
  end.

End Pd.

(** ** Interfaces of the wrapped library *)

(** Keyword arguments handed to an estimator's [fit]. *)
Record fit_kwargs (Row : Type) := {
  kw_sample_weight : option (list float);
  kw_eval_set : option (list Row * list float)
}.
Arguments kw_sample_weight {Row} _.
Arguments kw_eval_set {Row} _.

Definition no_kwargs {Row} : fit_kwargs Row :=
  {| kw_sample_weight := None; kw_eval_set := None |}.

(** An estimator class: [fit] takes the object's state to its fitted state
    (the object is updated in place), [predict] reads it. *)
Class Estimator (Est Row : Type) := {
  est_fit : Est → list Row → list float → fit_kwargs Row → result Est;
  est_predict : Est → list Row → result ndarray
}.

(** The formulas of the three regression metrics, on validated data. *)
Class Metrics := {
  r2_formula : list Qc → list Qc → float;
  rmse_formula : list Qc → list Qc → float;
  mape_formula : list Qc → list Qc → float
}.

(** Float functions with no rational counterpart. *)
Class Numeric := {
  sqrt : Qc → Qc;
  log1p : Qc → float
}.

(** The cross-validation splitters. *)
Inductive splitter (Custom : Type) :=
  | KFold (n_splits : Z) (shuffle : bool) (random_state : option Z)
  | GroupKFold (n_splits : Z)
  | StratifiedKFold (n_splits : Z)
  | TimeSeriesSplit (n_splits : Z)
  | CustomSplitter (c : Custom).
Arguments KFold {Custom} _ _ _.
Arguments GroupKFold {Custom} _.
Arguments StratifiedKFold {Custom} _.
Arguments TimeSeriesSplit {Custom} _.
Arguments CustomSplitter {Custom} _.

(** [splitter.split(X, y, groups)]: the (train positions, test positions) of
    every fold; [pd.cut(y, bins, labels=False)]: the bin of every target. *)
Class Splitting (Row G Custom : Type) := {
  split : splitter Custom → list Row → option (list Z) → option (list G)
          → result (list (list nat * list nat));
  pd_cut : list float → nat → result (list Z)
}.

(** ** sklearn.metrics: input validation, then the formula *)

Definition flatten_outputs (a : ndarray) : result (list float) :=
  match a with
  | A0 _ => Raise TypeError
  | A1 v => Ok v
  | A2 m => if decide (Forall (λ r, length r = 1%nat) m) then Ok (concat m)
            else Raise ValueError
  end.

(** Both arrays must have the same, non-zero number of samples, one output,
    and only finite values. *)
Definition check_reg_targets (y_true : list float) (y_pred : ndarray)
    : result (list Qc * list Qc) :=
  p ← flatten_outputs y_pred;
  if decide (length y_true = length p ∧ y_true ≠ []) then
    match mapM id y_true, mapM id p with
    | Some t, Some p => Ok (t, p)
    | _, _ => Raise ValueError
    end
  else Raise ValueError.

Definition r2_score {metric_ops : Metrics} (y_true : list float) (y_pred : ndarray) : result float :=
  '(t, p) ← check_reg_targets y_true y_pred; Ok (r2_formula t p).
Definition root_mean_squared_error {metric_ops : Metrics} (y_true : list float) (y_pred : ndarray)
    : result float :=
  '(t, p) ← check_reg_targets y_true y_pred; Ok (rmse_formula t p).
Definition mean_absolute_percentage_error {metric_ops : Metrics} (y_true : list float)
    (y_pred : ndarray) : result float :=
  '(t, p) ← check_reg_targets y_true y_pred; Ok (mape_formula t p).

(** ** numpy on arrays *)

(** [a.squeeze()]: the axes of length one are removed. *)
Definition squeeze (a : ndarray) : ndarray :=
  match a with
  | A0 x => A0 x
  | A1 [x] => A0 x
  | A1 v => A1 v
  | A2 [[x]] => A0 x
  | A2 [r] => A1 r
  | A2 m => if decide (Forall (λ r, length r = 1%nat) m) then A1 (concat m) else A2 m
  end.

(** The values [v] written at the positions [pos], one after the other. *)
Definition write_vals (s : list float) (pos : list nat) (v : list float) : list float :=
  foldl (λ s ix, <[ix.1:=ix.2]> s) s (zip pos v).

(** [series.iloc[positions] = value] *)
Definition iloc_set (s : list float) (pos : list nat) (value : ndarray)
    : result (list float) :=
  if decide (Forall (λ i, i < length s)%nat pos) then
    match value with
    | A0 x => Ok (foldl (λ s i, <[i:=x]> s) s pos)
    | A1 v =>
        if decide (length v = length pos)
        then Ok (write_vals s pos v)
        else Raise ValueError
    | A2 _ => Raise ValueError
    end
  else Raise IndexError.

(** The median of floats: [nan] as soon as one value is [nan]. *)
Definition fmedian (l : list float) : float := xs ← mapM id l; Np.median xs.

Definition transpose {A} (n : nat) (rows : matrix A) : matrix A :=
  (λ j, omap (λ r, r !! j) rows) <$> seq 0 n.

(** [np.median(arrays, axis=0)] for a list of equally shaped arrays. *)
Definition median_axis0 (ys : list ndarray) : result ndarray :=
  match ys with
  | [] => Ok (A0 NaN)
  | A0 _ :: _ =>
      xs ← rmapM (λ a, match a with A0 x => Ok x | _ => Raise ValueError end) ys;
      Ok (A0 (fmedian xs))
  | A1 v :: _ =>
      rows ← rmapM (λ a, match a with
                         | A1 w => if decide (length w = length v) then Ok w
                                   else Raise ValueError
                         | _ => Raise ValueError
                         end) ys;
      Ok (A1 (fmedian <$> transpose (length v) rows))
  | A2 m :: _ =>
      ms ← rmapM (λ a, match a with
                       | A2 w => if decide (length <$> w = length <$> m) then Ok w
                                 else Raise ValueError
                       | _ => Raise ValueError
                       end) ys;
      Ok (A2 (imap (λ i r, fmedian <$> transpose (length r)
                             (omap (λ w : matrix float, w !! i) ms)) m))
  end.

(** ** The cross-validators *)

(** A stored object: an estimator or a DataFrame. *)
Inductive obj (Est : Type) :=
  | OEst (e : Est)
  | OFrame (df : Pd.DataFrame).
Arguments OEst {Est} e.
Arguments OFrame {Est} df.

Abbreviation heap Est := (gmap loc (obj Est)).

(** The state of a method call: the instance and the store. *)
Abbreviation state Est Self := (Self * heap Est)%type.

Section CVCommon.
Context {Row Est : Type}.
Context {est_ops : Estimator Est Row} {metric_ops : Metrics} {numeric_ops : Numeric}.

Abbreviation St Self := (state Est Self).

Section store.
Context {Self : Type}.

Definition get_self : M (St Self) Self := λ s, (s, Ok s.1).
Definition set_self (f : Self → Self) : M (St Self) unit := λ s, ((f s.1, s.2), Ok ()).

(** A new object at a location not in use. *)
Definition new (o : obj Est) : M (St Self) loc := λ s,
  let l := fresh (dom s.2) in ((s.1, <[l:=o]> s.2), Ok l).

Definition load_est (l : loc) : M (St Self) Est := λ s,
  (s, match s.2 !! l with Some (OEst e) => Ok e | _ => Raise AttributeError end).
Definition load_frame (l : loc) : M (St Self) Pd.DataFrame := λ s,
  (s, match s.2 !! l with Some (OFrame df) => Ok df | _ => Raise AttributeError end).
Definition store (l : loc) (o : obj Est) : M (St Self) unit := λ s,
  ((s.1, <[l:=o]> s.2), Ok ()).

(** [copy.deepcopy(reg)]: an independent estimator object in the same state. *)
Definition deepcopy (l : loc) : M (St Self) loc := e ← load_est l; new (OEst e).

(** [reg.fit(X, y, **kw)]: the object at [l] becomes fitted, in place. *)
Definition fit_in_place (l : loc) (X : list Row) (y : list float)
    (kw : fit_kwargs Row) : M (St Self) unit :=
  e ← load_est l; e' ← lift (est_fit e X y kw); store l (OEst e').

Definition predict_with (l : loc) (X : list Row) : M (St Self) ndarray :=
  e ← load_est l; lift (est_predict e X).

End store.

Definition metrics_triple : Type := float * float * float.

(** [_reg_metrics] and [_get_reg_metrics], shared by both cross-validators. *)
Definition _reg_metrics (y : list float) (y_pred : ndarray) : result metrics_triple :=
  r2 ← r2_score y y_pred;
  rmse ← root_mean_squared_error y y_pred;
  mape ← mean_absolute_percentage_error y y_pred;
  Ok (r2, rmse, mape).

Definition _get_reg_metrics {Self} (reg : loc) (X : list Row) (y : list float)
    : M (St Self) (metrics_triple * ndarray) :=
  y_pred ← predict_with reg X;
  m ← lift (_reg_metrics y y_pred);
  mret (m, y_pred).

(** The three metric columns built from the list of metric tuples. *)
Definition metrics_frame (ms : list metrics_triple) : result Pd.DataFrame :=
  Pd.from_columns
    [("r2_score", (λ m : metrics_triple, Pd.CFloat m.1.1) <$> ms);
     ("rmse", (λ m : metrics_triple, Pd.CFloat m.1.2) <$> ms);
     ("mape", (λ m : metrics_triple, Pd.CFloat m.2) <$> ms)].

Definition tuple_cell (m : metrics_triple) : Pd.cell := Pd.CTuple [m.1.1; m.1.2; m.2].

(** [df.mean()] and [df.std()]: one value per column, [NaN]s skipped; the
    standard deviation divides by [n - 1]. *)
Definition col_mean (v : list Pd.cell) : result Pd.cell :=
  xs ← Pd.finite_values v; Ok (Pd.CFloat (Np.mean xs)).

Definition col_std (v : list Pd.cell) : result Pd.cell :=
  xs ← Pd.finite_values v;
  Ok (Pd.CFloat (
    m ← Np.mean xs;
    var ← fdiv (Np.sum ((λ x, (x - m) * (x - m)) <$> xs))
               (Qc_of_nat (length xs - 1));
    Fin (sqrt var))).

(** [df.mean().rename(label)], [df.std().rename(label)]: a Series named
    [label] with one value per column of [df]. *)
Definition reduce_columns (reduce : list Pd.cell → result Pd.cell)
    (df : Pd.DataFrame) : result (list (string * Pd.cell)) :=
  rmapM (λ c : string * list Pd.cell, v ← reduce c.2; Ok (c.1, v)) (Pd.df_columns df).

(** [_append_df(df, new_row)]: [pd.concat([df, pd.DataFrame([new_row])])],
    the Series becoming one row labelled by its name. *)
Definition _append_df (df : Pd.DataFrame) (label : string)
    (new_row : list (string * Pd.cell)) : Pd.DataFrame :=
  Pd.concat_rows df
    {| Pd.df_index := [Pd.CStr label];
       Pd.df_columns := (λ c : string * Pd.cell, (c.1, [c.2])) <$> new_row |}.

(** What one fold of a fit leaves behind: the clone of the base estimator,
    the state it was fitted to, its (finite) predictions for the test rows
    and the fold's metrics. *)
Record fold_out := {
  fo_reg : loc;
  fo_est : Est;
  fo_pred : list Qc;
  fo_metrics : metrics_triple
}.

(** The first lines of both [get_metrics_summary] methods: the fold rows
    without the estimators, indexed by fold, then the rows of the column
    means and of the column standard deviations, both computed on the fold
    rows. *)
Definition summary_rows (metrics : Pd.DataFrame) : result Pd.DataFrame :=
  metrics ← Pd.drop "reg" metrics;
  metrics ← Pd.set_index "fold" metrics;
  metrics_mean ← reduce_columns col_mean metrics;
  metrics_std ← reduce_columns col_std metrics;
  let metrics := _append_df metrics "mean" metrics_mean in
  let metrics := _append_df metrics "std" metrics_std in
  Ok metrics.

End CVCommon.

(** *** RegressorCV *)

Module RegressorCV.
Section RegressorCV.
Context {Row Est G Custom : Type}.
Context {est_ops : Estimator Est Row} {metric_ops : Metrics} {numeric_ops : Numeric}
  {split_ops : Splitting Row G Custom}.

Abbreviation St Self := (state Est Self).

Inductive cv_param :=
  | CvInt (n : Z)
  | CvSplitter (s : splitter Custom).

(** [cv_results_]: the dict of three lists filled by [fit], then the
    DataFrame made of it. *)
Inductive cv_results :=
  | CvDict (fold : list nat) (reg : list loc) (metrics : list metrics_triple)
  | CvFrame (df : loc).

Record t := {
  cv : cv_param;
  base_reg : loc;
  verbose : bool;
  groups : option (list G);
  n_bins_stratify : option nat;
  _kf : splitter Custom;
  cv_results_ : cv_results;
  oof_train_ : option (list float);
  oof_score_ : option float;
  oof_mape_ : option float;
  oof_rmse_ : option float;
  metrics_ : option loc
}.

Definition __init__ (base_reg : loc) (cv : cv_param) (groups : option (list G))
    (verbose : bool) (n_bins_stratify : option nat) : t :=
  {| cv := cv; base_reg := base_reg; verbose := verbose; groups := groups;
     n_bins_stratify := n_bins_stratify;
     _kf := match cv with
            | CvInt n =>
                if groups is Some _ then GroupKFold n
                else if n_bins_stratify is Some _ then StratifiedKFold n
                else KFold n true (Some 42%Z)
            | CvSplitter s => s
            end;
     cv_results_ := CvDict [] [] [];
     oof_train_ := None; oof_score_ := None; oof_mape_ := None; oof_rmse_ := None;
     metrics_ := None |}.

Definition set_oof_train (v : option (list float)) (self : t) : t :=
  {| cv := cv self; base_reg := base_reg self; verbose := verbose self;
     groups := groups self; n_bins_stratify := n_bins_stratify self; _kf := _kf self;
     cv_results_ := cv_results_ self; oof_train_ := v;
     oof_score_ := oof_score_ self; oof_mape_ := oof_mape_ self;
     oof_rmse_ := oof_rmse_ self; metrics_ := metrics_ self |}.

Definition set_cv_results (r : cv_results) (self : t) : t :=
  {| cv := cv self; base_reg := base_reg self; verbose := verbose self;
     groups := groups self; n_bins_stratify := n_bins_stratify self; _kf := _kf self;
     cv_results_ := r; oof_train_ := oof_train_ self;
     oof_score_ := oof_score_ self; oof_mape_ := oof_mape_ self;
     oof_rmse_ := oof_rmse_ self; metrics_ := metrics_ self |}.

Definition set_oof_metrics (score mape rmse : float) (self : t) : t :=
  {| cv := cv self; base_reg := base_reg self; verbose := verbose self;
     groups := groups self; n_bins_stratify := n_bins_stratify self; _kf := _kf self;
     cv_results_ := cv_results_ self; oof_train_ := oof_train_ self;
     oof_score_ := Some score; oof_mape_ := Some mape;
     oof_rmse_ := Some rmse; metrics_ := metrics_ self |}.

Definition set_metrics (m : loc) (self : t) : t :=
  {| cv := cv self; base_reg := base_reg self; verbose := verbose self;
     groups := groups self; n_bins_stratify := n_bins_stratify self; _kf := _kf self;
     cv_results_ := cv_results_ self; oof_train_ := oof_train_ self;
     oof_score_ := oof_score_ self; oof_mape_ := oof_mape_ self;
     oof_rmse_ := oof_rmse_ self; metrics_ := Some m |}.

(** [self.oof_train_.iloc[test_index] = y_pred] *)
Definition write_oof (test_index : list nat) (y_pred : ndarray)
    : M (St t) unit :=
  self ← get_self;
  oof ← lift (of_option AttributeError (oof_train_ self));
  oof ← lift (iloc_set oof test_index y_pred);
  set_self (set_oof_train (Some oof)).

(** [self.cv_results_[...].append(...)], three times. *)
Definition append_results (fold_n : nat) (reg : loc) (metrics : metrics_triple)
    : M (St t) unit :=
  self ← get_self;
  match cv_results_ self with
  | CvDict f r m => set_self (set_cv_results (CvDict (f ++ [fold_n]) (r ++ [reg]) (m ++ [metrics])))
  | CvFrame _ => raise AttributeError
  end.

Definition _convert_report_to_df : M (St t) unit :=
  self ← get_self;
  match cv_results_ self with
  | CvDict f r ms =>
      df ← lift (Pd.from_columns
                   [("fold", (λ i, Pd.CInt (Z.of_nat i)) <$> f);
                    ("reg", Pd.CRef <$> r);
                    ("metrics", tuple_cell <$> ms)]);
      m ← lift (metrics_frame ms);
      df ← lift (Pd.concat_columns df m);
      df ← lift (Pd.drop "metrics" df);
      l ← new (OFrame df);
      set_self (set_cv_results (CvFrame l))
  | CvFrame _ => raise AttributeError
  end.

Definition get_metrics_summary : M (St t) loc :=
  self ← get_self;
  match cv_results_ self with
  | CvDict _ _ _ => raise AttributeError
  | CvFrame l =>
      metrics ← load_frame l;
      metrics ← lift (summary_rows metrics);
      new (OFrame metrics)
  end.

(** One iteration of the loop of [fit]. *)
Definition fit_fold (X : list Row) (y : list float) (kwargs : fit_kwargs Row)
    (it : nat * (list nat * list nat)) : M (St t) unit :=
  let '(fold_n, (train_index, test_index)) := it in
  self ← get_self;
  X_train ← lift (take_rows X train_index);
  X_test ← lift (take_rows X test_index);
  y_train ← lift (take_rows y train_index);
  y_test ← lift (take_rows y test_index);
  (if verbose self then
     if n_bins_stratify self is Some _ then
       (* [y_bin] is bound in [fit] only when [groups] is [None] *)
       if groups self is Some _ then raise UnboundLocalError else mret ()
     else lift (pd_cut y_train 10);; lift (pd_cut y_test 10);; mret ()
   else mret ());;
  reg ← deepcopy (base_reg self);
  fit_in_place reg X_train y_train kwargs;;
  '(metrics, y_pred) ← _get_reg_metrics reg X_test y_test;
  (if y_pred is A1 _ then write_oof test_index y_pred else mret ());;
  (if y_pred is A2 _ then write_oof test_index (squeeze y_pred) else mret ());;
  append_results fold_n reg metrics.

(** The folds [fit] iterates over: group-aware, stratified on the binned
    target, or plain. *)
Definition kf_split (self : t) (X : list Row) (y : list float)
    : result (list (list nat * list nat)) :=
  match groups self with
  | Some g => split (_kf self) X None (Some g)
  | None =>
      match n_bins_stratify self with
      | Some bins => y_bin ← pd_cut y bins; split (_kf self) X (Some y_bin) None
      | None => split (_kf self) X None None
      end
  end.

Definition fit (X : list Row) (y : list float) (kwargs : fit_kwargs Row)
    : M (St t) unit :=
  set_self (set_oof_train (Some (replicate (length y) NaN)));;
  self ← get_self;
  kf_split ← lift (kf_split self X y);
  forM (enumerate kf_split) (fit_fold X y kwargs);;
  _convert_report_to_df;;
  self ← get_self;
  oof ← lift (of_option AttributeError (oof_train_ self));
  score ← lift (r2_score y (A1 oof));
  mape ← lift (mean_absolute_percentage_error y (A1 oof));
  rmse ← lift (root_mean_squared_error y (A1 oof));
  set_self (set_oof_metrics score mape rmse);;
  m ← get_metrics_summary;
  set_self (set_metrics m).

Definition predict (X : list Row) : M (St t) ndarray :=
  self ← get_self;
  match cv_results_ self with
  | CvDict _ _ _ => raise AttributeError
  | CvFrame l =>
      df ← load_frame l;
      regs ← lift (Pd.getitem "reg" df);
      y_preds ← foldr (λ c rest,
                   match c with
                   | Pd.CRef reg => p ← predict_with reg X; ps ← rest; mret (p :: ps)
                   | _ => raise AttributeError
                   end) (mret []) regs;
      lift (median_axis0 y_preds)
  end.

(** *** Describing a completed fit *)

(** The constructor arguments, which [fit] never changes. *)
Definition config (self : t) :=
  (cv self, base_reg self, verbose self, groups self, n_bins_stratify self, _kf self).

(** In the store [h], [out] is what the fold [fold] leaves behind when the
    base estimator is in state [e0]: a clone fitted on the training rows,
    whose predictions for the test rows are [fo_pred out]. *)
Definition fold_fitted (X : list Row) (y : list float) (kwargs : fit_kwargs Row)
    (e0 : Est) (h : heap Est) (fold : list nat * list nat) (out : fold_out) : Prop :=
  ∃ X_train X_test y_train y_test y_pred,
    take_rows X fold.1 = Ok X_train ∧ take_rows X fold.2 = Ok X_test ∧
    take_rows y fold.1 = Ok y_train ∧ take_rows y fold.2 = Ok y_test ∧
    est_fit e0 X_train y_train kwargs = Ok (fo_est out) ∧
    h !! fo_reg out = Some (OEst (fo_est out)) ∧
    est_predict (fo_est out) X_test = Ok y_pred ∧
    flatten_outputs y_pred = Ok (Some <$> fo_pred out) ∧
    length (fo_pred out) = length fold.2 ∧
    _reg_metrics y_test y_pred = Ok (fo_metrics out).

(** The out-of-fold vector after the folds wrote their predictions, fold by
    fold, into [oof]. *)
Definition oof_after (oof : list float) (folds : list (list nat * list nat))
    (outs : list (@fold_out Est)) : list float :=
  foldl (λ s fo, write_vals s ((fo.1).2) (Some <$> fo_pred fo.2)) oof (zip folds outs).

(** The test sets of the folds partition the sample positions [0..n-1]. *)
Definition folds_partition (n : nat) (folds : list (list nat * list nat)) : Prop :=
  concat (snd <$> folds) ≡ₚ seq 0 n.

End RegressorCV.
End RegressorCV.

(** *** RegressorTimeSeriesCV *)

Module RegressorTimeSeriesCV.
Section RegressorTimeSeriesCV.
Context {Row Est G Custom : Type}.
Context {est_ops : Estimator Est Row} {metric_ops : Metrics} {numeric_ops : Numeric}
  {split_ops : Splitting Row G Custom}.

Abbreviation St Self := (state Est Self).

(** One entry of the list [cv_results_] filled by [fit]. *)
Record fold_result := {
  fold : nat;
  reg : loc;
  train_size : nat;
  test_size : nat;
  train_start_index : nat;
  train_end_index : nat;
  test_start_index : nat;
  test_end_index : nat;
  metrics : metrics_triple
}.

Inductive cv_results :=
  | CvList (l : list fold_result)
  | CvFrame (df : loc).

Record t := {
  cv : Z;
  base_reg : loc;
  verbose : bool;
  catboost_use_eval_set : bool;
  _tss : splitter Custom;
  cv_results_ : cv_results;
  metrics_ : option loc;
  y_test_last_fold_ : option (list float);
  y_pred_last_fold_ : option ndarray
}.

Definition __init__ (base_reg : loc) (cv : Z) (verbose catboost_use_eval_set : bool) : t :=
  {| cv := cv; base_reg := base_reg; verbose := verbose;
     catboost_use_eval_set := catboost_use_eval_set;
     _tss := TimeSeriesSplit cv;
     cv_results_ := CvList [];
     metrics_ := None; y_test_last_fold_ := None; y_pred_last_fold_ := None |}.

Definition set_cv_results (r : cv_results) (self : t) : t :=
  {| cv := cv self; base_reg := base_reg self; verbose := verbose self;
     catboost_use_eval_set := catboost_use_eval_set self; _tss := _tss self;
     cv_results_ := r; metrics_ := metrics_ self;
     y_test_last_fold_ := y_test_last_fold_ self;
     y_pred_last_fold_ := y_pred_last_fold_ self |}.

Definition set_last_fold (y_test : list float) (y_pred : ndarray) (self : t) : t :=
  {| cv := cv self; base_reg := base_reg self; verbose := verbose self;
     catboost_use_eval_set := catboost_use_eval_set self; _tss := _tss self;
     cv_results_ := cv_results_ self; metrics_ := metrics_ self;
     y_test_last_fold_ := Some y_test;
     y_pred_last_fold_ := Some y_pred |}.

Definition set_metrics (m : loc) (self : t) : t :=
  {| cv := cv self; base_reg := base_reg self; verbose := verbose self;
     catboost_use_eval_set := catboost_use_eval_set self; _tss := _tss self;
     cv_results_ := cv_results_ self; metrics_ := Some m;
     y_test_last_fold_ := y_test_last_fold_ self;
     y_pred_last_fold_ := y_pred_last_fold_ self |}.

Definition int_cell (n : nat) : Pd.cell := Pd.CInt (Z.of_nat n).

Definition _convert_report_to_df : M (St t) unit :=
  self ← get_self;
  match cv_results_ self with
  | CvList [] | CvFrame _ => raise AttributeError
  | CvList rs =>
      df ← lift (Pd.from_columns
                   [("fold", int_cell ∘ fold <$> rs);
                    ("reg", Pd.CRef ∘ reg <$> rs);
                    ("train_size", int_cell ∘ train_size <$> rs);
                    ("test_size", int_cell ∘ test_size <$> rs);
                    ("train_start_index", int_cell ∘ train_start_index <$> rs);
                    ("train_end_index", int_cell ∘ train_end_index <$> rs);
                    ("test_start_index", int_cell ∘ test_start_index <$> rs);
                    ("test_end_index", int_cell ∘ test_end_index <$> rs);
                    ("metrics", tuple_cell ∘ metrics <$> rs)]);
      m ← lift (metrics_frame (metrics <$> rs));
      df ← lift (Pd.concat_columns df m);
      df ← lift (Pd.drop "metrics" df);
      l ← new (OFrame df);
      set_self (set_cv_results (CvFrame l))
  end.

Definition int_cols : list string :=
  ["train_size"; "test_size"; "train_start_index"; "train_end_index";
   "test_start_index"; "test_end_index"].

(** [df[cols].astype(int)] assigned back to [df[cols]]. *)
Definition astype_int (cols : list string) (df : Pd.DataFrame) : result Pd.DataFrame :=
  cast ← rmapM (λ c, v ← Pd.getitem c df; v ← rmapM Pd.to_int v; Ok (c, v)) cols;
  foldl (λ r (c : string * list Pd.cell), df ← r; Pd.setitem c.1 c.2 df) (Ok df) cast.

(** [metrics[int_cols] = metrics[int_cols].astype(int)], on the object [l]. *)
Definition cast_int_cols (l : loc) : M (St t) unit :=
  df ← load_frame l;
  df ← lift (astype_int int_cols df);
  store l (OFrame df).

Definition get_metrics_summary : M (St t) loc :=
  self ← get_self;
  match cv_results_ self with
  | CvList _ => raise AttributeError
  | CvFrame l =>
      metrics ← load_frame l;
      metrics ← lift (summary_rows metrics);
      metrics ← new (OFrame metrics);
      cast_int_cols metrics;;
      mret metrics
  end.

(** One iteration of the loop of [fit]; the result is the pair of locals
    [(y_test, y_pred)] that outlives the loop. *)
Definition fit_fold (X : list Row) (y : list float) (sample_weight : option (list float))
    (prev : option (list float * ndarray)) (it : nat * (list nat * list nat))
    : M (St t) (option (list float * ndarray)) :=
  let '(fold_n, (train_index, test_index)) := it in
  self ← get_self;
  X_train ← lift (take_rows X train_index);
  X_test ← lift (take_rows X test_index);
  y_train ← lift (take_rows y train_index);
  y_test ← lift (take_rows y test_index);
  sample_weight_train ← lift (
    match sample_weight with
    | Some w => Some <$> take_rows w train_index
    | None => Ok None
    end);
  reg ← deepcopy (base_reg self);
  fit_in_place reg X_train y_train
    {| kw_sample_weight := sample_weight_train;
       kw_eval_set := if catboost_use_eval_set self then Some (X_test, y_test) else None |};;
  '(metrics, y_pred) ← _get_reg_metrics reg X_test y_test;
  train_start ← lift (of_option IndexError (head train_index));
  train_end ← lift (of_option IndexError (last train_index));
  test_start ← lift (of_option IndexError (head test_index));
  test_end ← lift (of_option IndexError (last test_index));
  self ← get_self;
  match cv_results_ self with
  | CvList rs =>
      set_self (set_cv_results (CvList (rs ++ [
        {| fold := fold_n; reg := reg;
           train_size := length train_index; test_size := length test_index;
           train_start_index := train_start; train_end_index := train_end;
           test_start_index := test_start; test_end_index := test_end;
           metrics := metrics |}])))
  | CvFrame _ => raise AttributeError
  end;;
  mret (Some (y_test, y_pred)).

Definition fit (X : list Row) (y : list float) (sample_weight : option (list float))
    : M (St t) unit :=
  self ← get_self;
  ts_split ← lift (split (_tss self) X None None);
  locals ← foldM (fit_fold X y sample_weight) None (enumerate ts_split);
  '(y_test, y_pred) ← lift (of_option UnboundLocalError locals);
  set_self (set_last_fold y_test y_pred);;
  (* the base regressor itself, on the full data *)
  fit_in_place (base_reg self) X y
    {| kw_sample_weight := sample_weight;
       kw_eval_set := if catboost_use_eval_set self then Some (X, y) else None |};;
  _convert_report_to_df;;
  m ← get_metrics_summary;
  set_self (set_metrics m).

Definition predict (X : list Row) : M (St t) ndarray :=
  self ← get_self;
  predict_with (base_reg self) X.

(** *** Describing a completed fit *)

(** The constructor arguments, which [fit] never changes. *)
Definition config (self : t) :=
  (cv self, base_reg self, verbose self, catboost_use_eval_set self, _tss self).

(** The keyword arguments of the final [fit] of the base estimator. *)
Definition full_fit_kwargs (self : t) (X : list Row) (y : list float)
    (sample_weight : option (list float)) : fit_kwargs Row :=
  {| kw_sample_weight := sample_weight;
     kw_eval_set := if catboost_use_eval_set self then Some (X, y) else None |}.

(** In the store [h], [out] is what the fold [fold] leaves behind when the
    base estimator is in state [e0]: a clone fitted on the training window
    and scored on the test window. *)
Definition fold_fitted (X : list Row) (y : list float)
    (sample_weight : option (list float)) (use_eval_set : bool)
    (e0 : Est) (h : heap Est) (fold : list nat * list nat) (out : @fold_out Est) : Prop :=
  ∃ X_train X_test y_train y_test sample_weight_train y_pred,
    take_rows X fold.1 = Ok X_train ∧ take_rows X fold.2 = Ok X_test ∧
    take_rows y fold.1 = Ok y_train ∧ take_rows y fold.2 = Ok y_test ∧
    match sample_weight with
    | Some w => Some <$> take_rows w fold.1
    | None => Ok None
    end = Ok sample_weight_train ∧
    est_fit e0 X_train y_train
      {| kw_sample_weight := sample_weight_train;
         kw_eval_set := if use_eval_set then Some (X_test, y_test) else None |}
      = Ok (fo_est out) ∧
    h !! fo_reg out = Some (OEst (fo_est out)) ∧
    est_predict (fo_est out) X_test = Ok y_pred ∧
    flatten_outputs y_pred = Ok (Some <$> fo_pred out) ∧
    _reg_metrics y_test y_pred = Ok (fo_metrics out).

End RegressorTimeSeriesCV.
End RegressorTimeSeriesCV.

(** ** AutoRegressor and AutoClassifier: the constructors *)

(** [train_test_split(data, random_state=seed)]: the library's random split
    of the row positions into a training and a test part. *)
Class TrainTestSplit := {
  train_test_positions : nat → Z → result (list nat * list nat)
}.

(** The fitted [StandardScaler] of one column. *)
Module StandardScaler.
Section StandardScaler.
Context {numeric_ops : Numeric}.

Record t := {
  mean_ : float;
  scale_ : float
}.

(** The cast of an [int64] value to [float64]: the nearest value with a
    significand of 53 bits, a tie going to the even one.  Integers up to
    [2^53] in size are kept. *)
Definition round_binary64 (z : Z) : Z :=
  let a := Z.abs z in
  let drop := (Z.log2 a - 52)%Z in
  if decide (drop ≤ 0)%Z then z
  else
    let q := Z.shiftr a drop in
    let r := (a - Z.shiftl q drop)%Z in
    let half := Z.shiftl 1 (drop - 1) in
    let q' := if decide (r < half)%Z then q
              else if decide (half < r)%Z then (q + 1)%Z
              else if Z.even q then q else (q + 1)%Z in
    (Z.sgn z * Z.shiftl q' drop)%Z.

(** The values of a numeric column as floats; other contents cannot be
    scaled. *)
Definition numeric_values (v : list Pd.cell) : result (list float) :=
  rmapM (λ c, match c with
              | Pd.CInt z => Ok (Fin (Qc_of_Z (round_binary64 z)))
              | Pd.CFloat x => Ok x
              | _ => Raise ValueError
              end) v.

(** [fit]: mean and population standard deviation of the values that are
    not [NaN]; a zero deviation is replaced by one. *)
Definition fit (v : list float) : result t :=
  if decide (v = []) then Raise ValueError
  else
    let xs := omap id v in
    let mean := Np.mean xs in
    let scale :=
      m ← mean;
      var ← fdiv (Np.sum ((λ x, (x - m) * (x - m)) <$> xs)) (Qc_of_nat (length xs));
      let s := sqrt var in
      Fin (if decide (s = 0) then 1 else s) in
    Ok {| mean_ := mean; scale_ := scale |}.

(** [transform] and [inverse_transform] validate their input as [fit]
    does: an array without samples is refused. *)
Definition transform (sc : t) (v : list float) : result (list float) :=
  if decide (v = []) then Raise ValueError
  else Ok ((λ x, x ← x; m ← mean_ sc; s ← scale_ sc; fdiv (x - m) s) <$> v).

Definition inverse_transform (sc : t) (v : list float) : result (list float) :=
  if decide (v = []) then Raise ValueError
  else Ok ((λ x, x ← x; m ← mean_ sc; s ← scale_ sc; Fin (x * s + m)) <$> v).

End StandardScaler.
End StandardScaler.

(** *** What target scaling is specified to compute *)

(** [var] is the population variance of the non-empty [l] around [m]. *)
Definition is_variance (l : list Qc) (m var : Qc) : Prop :=
  l ≠ [] ∧ var * Qc_of_nat (length l) = Np.sum ((λ x, (x - m) * (x - m)) <$> l).

(** One value standardized with the mean [m] and the deviation [s], and one
    standardized value taken back; [NaN] stays [NaN]. *)
Definition standardize (m s : Qc) (y : float) : float := (λ y, (y - m) / s) <$> y.
Definition descale (m s : Qc) (x : float) : float := (λ x, x * s + m) <$> x.

(** The preprocessing pipeline and the estimator, as configured objects. *)
Inductive transformer :=
  | KNNImputer (n_neighbors : nat)
  | SimpleImputer (strategy : string)
  | OneHotEncoder (min_frequency : option Qc)
  | StandardScalerStep.

Definition pipeline : Type := list (string * transformer).

Record ColumnTransformer := {
  ct_cat : pipeline * list string;
  ct_num : pipeline * list string
}.

(** The [estimator] argument: a name or an estimator object. *)
Inductive estimator_param :=
  | EstName (s : string)
  | EstObject (l : loc).

Inductive estimator_model :=
  | RandomForestRegressor (random_state : Z)
  | CatBoostRegressor (cat_features : option (list nat))
  | LinearRegression
  | CatBoostClassifier
  | Given (e : estimator_param).

(** The model pipeline: the preprocessor, then the estimator. *)
Record model_pipeline := {
  preprocessor : ColumnTransformer;
  final_estimator : estimator_model
}.

(** The store of DataFrame objects. *)
Abbreviation frames := (gmap loc Pd.DataFrame).

Section Frames.
Context {numeric_ops : Numeric} {tts_ops : TrainTestSplit}.

Definition new_frame (df : Pd.DataFrame) : M frames loc := λ h,
  let l := fresh (dom h) in (<[l:=df]> h, Ok l).
Definition load (l : loc) : M frames Pd.DataFrame := λ h,
  (h, of_option AttributeError (h !! l)).
Definition update (l : loc) (f : Pd.DataFrame → result Pd.DataFrame)
    : M frames unit := λ h,
  match h !! l with
  | Some df =>
      match f df with
      | Ok df' => (<[l:=df']> h, Ok ())
      | Raise e => (h, Raise e)
      end
  | None => (h, Raise AttributeError)
  end.

(** [df.copy()] of an argument that may be [None]. *)
Definition copy (arg : option loc) : M frames loc :=
  l ← lift (of_option AttributeError arg); df ← load l; new_frame df.

(** [df['target'] = f(df[target_col])] then
    [df.drop(columns=target_col, inplace=True)], on the object [l]. *)
Definition rename_target (l : loc) (target_col : string)
    (f : list Pd.cell → result (list Pd.cell)) : M frames unit :=
  update l (λ df, v ← Pd.getitem target_col df; v ← f v; Pd.setitem "target" v df);;
  update l (Pd.drop target_col).

(** [np.log1p] applied to every value of the column. *)
Definition apply_log1p (v : list Pd.cell) : result (list Pd.cell) :=
  rmapM (λ c, x ← Pd.to_float c; Ok (Pd.CFloat (x ≫= log1p))) v.

(** The first block of both constructors: the instance's own [data],
    [train] and [test] frames, made from [data] when it is given and from
    [train] and [test] otherwise, the target column renamed to ['target']. *)
Definition load_frames (target_col : string) (data train test : option loc)
    (random_st : Z) (log_target : bool) : M frames (loc * loc * loc) :=
  if data is Some _ then
    self_data ← copy data;
    rename_target self_data target_col (if log_target then apply_log1p else Ok);;
    df ← load self_data;
    '(tr, te) ← lift (train_test_positions (length (Pd.df_index df)) random_st);
    tr ← lift (Pd.iloc tr df);
    te ← lift (Pd.iloc te df);
    self_train ← new_frame tr;
    self_test ← new_frame te;
    mret (self_data, self_train, self_test)
  else
    self_train ← copy train;
    rename_target self_train target_col Ok;;
    self_test ← copy test;
    rename_target self_test target_col Ok;;
    tr ← lift (of_option AttributeError train);
    te ← lift (of_option AttributeError test);
    tr ← load tr;
    te ← load te;
    self_data ← new_frame (Pd.concat_rows tr te);
    mret (self_data, self_train, self_test).

(** The scaling of the ['target'] column of the frame [l] by [f]. *)
Definition scale_column (l : loc)
    (f : list float → result (StandardScaler.t * list float))
    : M frames StandardScaler.t :=
  df ← load l;
  v ← lift (Pd.getitem "target" df);
  v ← lift (StandardScaler.numeric_values v);
  '(sc, v') ← lift (f v);
  update l (Pd.setitem "target" (Pd.CFloat <$> v'));;
  mret sc.

(** The target scaling block of [AutoRegressor.__init__]: the scaler is
    fitted on the training targets and applied to both frames. *)
Definition scale_targets (scale_target : bool) (self_train self_test : loc)
    : M frames (option StandardScaler.t) :=
  if scale_target then
    sc ← scale_column self_train
           (λ v, sc ← StandardScaler.fit v;
                 v' ← StandardScaler.transform sc v; Ok (sc, v'));
    scale_column self_test (λ v, v' ← StandardScaler.transform sc v; Ok (sc, v'));;
    mret (Some sc)
  else mret None.

End Frames.

(** Run from a store that extends [h0], the computation [m] ends in a store
    that extends [h0], and its result satisfies [Q]. *)
Definition keeps (h0 : frames) {A} (m : M frames A) (Q : A → Prop) : Prop :=
  ∀ h, h0 ⊆ h → h0 ⊆ (m h).1 ∧ ∀ a, (m h).2 = Ok a → Q a.

Module AutoRegressor.
Section AutoRegressor.
Context {numeric_ops : Numeric} {tts_ops : TrainTestSplit}.

Record t := {
  num_cols : list string;
  cat_cols : list string;
  estimator : estimator_param;
  target_col : string;
  imputer_strategy : string;
  use_catboost_native_cat_features : bool;
  ohe_min_freq : Qc;
  scale_numeric_data : bool;
  scale_categoric_data : bool;
  data : loc;
  train : loc;
  test : loc;
  target_scaler : option StandardScaler.t;
  num_out_transformer : transformer;
  prep : ColumnTransformer;
  reg : estimator_model;
  model : model_pipeline
}.

(** [get_pipeline_preprocessor]: the imputer attribute is only set for the
    two known strategies, and read right after. *)
Definition get_pipeline_preprocessor (imputer_strategy : string)
    (use_catboost_native_cat_features scale_categoric_data scale_numeric_data : bool)
    (ohe_min_freq : Qc) (cat_cols num_cols : list string)
    : result (transformer * ColumnTransformer) :=
  num_out_transformer ← (
    if decide (imputer_strategy = "knn") then Ok (KNNImputer 3)
    else if decide (imputer_strategy = "simple") then Ok (SimpleImputer "median")
    else Raise AttributeError);
  let cat_pipe :=
    if use_catboost_native_cat_features then [("imputer", SimpleImputer "constant")]
    else if scale_categoric_data then
      [("imputer", SimpleImputer "constant");
       ("one_hot", OneHotEncoder (Some ohe_min_freq));
       ("scaler", StandardScalerStep)]
    else
      [("imputer", SimpleImputer "constant");
       ("one_hot", OneHotEncoder (Some ohe_min_freq))] in
  let num_pipe :=
    if scale_numeric_data
    then [("imputer", num_out_transformer); ("scaler", StandardScalerStep)]
    else [("imputer", num_out_transformer)] in
  Ok (num_out_transformer,
      {| ct_cat := (cat_pipe, cat_cols); ct_num := (num_pipe, num_cols) |}).

Definition get_model_pipeline (preprocessor : ColumnTransformer) (reg : estimator_model)
    : model_pipeline :=
  {| preprocessor := preprocessor; final_estimator := reg |}.

Definition __init__ (num_cols cat_cols : list string) (target_col : string)
    (data train test : option loc) (random_st : Z) (log_target : bool)
    (estimator : estimator_param) (imputer_strategy : string)
    (use_catboost_native_cat_features : bool) (ohe_min_freq : Qc)
    (scale_numeric_data scale_categoric_data scale_target : bool) : M frames t :=
  '(self_data, self_train, self_test) ←
    load_frames target_col data train test random_st log_target;
  target_scaler ← scale_targets scale_target self_train self_test;
  '(num_out_transformer, prep) ← lift (
    get_pipeline_preprocessor imputer_strategy use_catboost_native_cat_features
      scale_categoric_data scale_numeric_data ohe_min_freq cat_cols num_cols);
  let reg :=
    match estimator with
    | EstName s =>
        if decide (s = "random_forest") then RandomForestRegressor random_st
        else if decide (s = "catboost") then
          if use_catboost_native_cat_features
          then CatBoostRegressor (Some (seq 0 (length cat_cols)))
          else CatBoostRegressor None
        else LinearRegression
    | EstObject _ => Given estimator
    end in
  mret {| num_cols := num_cols; cat_cols := cat_cols; estimator := estimator;
          target_col := target_col; imputer_strategy := imputer_strategy;
          use_catboost_native_cat_features := use_catboost_native_cat_features;
          ohe_min_freq := ohe_min_freq; scale_numeric_data := scale_numeric_data;
          scale_categoric_data := scale_categoric_data;
          data := self_data; train := self_train; test := self_test;
          target_scaler := target_scaler;
          num_out_transformer := num_out_transformer; prep := prep; reg := reg;
          model := get_model_pipeline prep reg |}.

End AutoRegressor.
End AutoRegressor.

Module AutoClassifier.
Section AutoClassifier.
Context {numeric_ops : Numeric} {tts_ops : TrainTestSplit}.

Record t := {
  num_cols : list string;
  cat_cols : list string;
  estimator : estimator_model;
  target_col : string;
  imputer_strategy : string;
  data : loc;
  train : loc;
  test : loc;
  num_out_transformer : transformer;
  model : model_pipeline
}.

Definition get_pipeline_preprocessor (imputer_strategy : string)
    (cat_cols num_cols : list string) : result (transformer * ColumnTransformer) :=
  num_out_transformer ← (
    if decide (imputer_strategy = "knn") then Ok (KNNImputer 3)
    else if decide (imputer_strategy = "simple") then Ok (SimpleImputer "median")
    else Raise AttributeError);
  Ok (num_out_transformer,
      {| ct_cat := ([("imputer", SimpleImputer "constant"); ("one_hot", OneHotEncoder None)],
                    cat_cols);
         ct_num := ([("imputer", num_out_transformer)], num_cols) |}).

Definition __init__ (num_cols cat_cols : list string) (target_col : string)
    (data train test : option loc) (random_st : Z) (log_target : bool)
    (estimator : estimator_param) (imputer_strategy : string) : M frames t :=
  '(self_data, self_train, self_test) ←
    load_frames target_col data train test random_st log_target;
  '(num_out_transformer, prep) ← lift (
    get_pipeline_preprocessor imputer_strategy cat_cols num_cols);
  let estimator :=
    match estimator with
    | EstName s => if decide (s = "catboost") then CatBoostClassifier else Given estimator
    | EstObject _ => Given estimator
    end in
  mret {| num_cols := num_cols; cat_cols := cat_cols; estimator := estimator;
          target_col := target_col; imputer_strategy := imputer_strategy;
          data := self_data; train := self_train; test := self_test;
          num_out_transformer := num_out_transformer;
          model := {| preprocessor := prep; final_estimator := estimator |} |}.

End AutoClassifier.
End AutoClassifier.

(** ** Concrete instances *)

Module Examples.

Definition q (n : Z) : Qc := Qc_of_Z n.

(** Three training targets, and one query whose neighbours are, nearest
    first, the training points 0, 1 and 2 at the distances [dist]. *)
Definition knn (w : KNNRegressor.weights_param) (dist : list Qc) : KNNRegressor.t unit :=
  {| KNNRegressor.n_neighbors := 3;
     KNNRegressor.weights := w;
     KNNRegressor._y := KNNRegressor.Y1 [q 10; q 30; q 20];
     KNNRegressor.kneighbors := λ _, Ok ([dist], [[0; 1; 2]]%nat) |}.

(** Stand-ins for the float functions: a square root that is exact on the
    squares of rationals, and a [log1p] that is exact at 0. *)
Definition example_numeric : Numeric :=
  {| sqrt x := Q2Qc (Z.sqrt (Qnum (this x)) # Pos.sqrt (Qden (this x)));
     log1p x := if decide (x = 0) then Fin 0
                else if decide (x ≤ -1) then NaN else Fin x |}.

(** A split without shuffling: the last quarter of the rows, rounded up, is
    the test part. *)
Definition example_train_test_split : TrainTestSplit :=
  {| train_test_positions n _ :=
       if decide (n = 0%nat) then Raise ValueError
       else let n_test := ((n + 3) / 4)%nat in
            Ok (seq 0 (n - n_test), seq (n - n_test) n_test) |}.

(** A caller's store: a training frame at location 0 and a test frame at
    location 1, with a feature column and the target column ['price']. *)
Definition caller_frames : frames :=
  {[ 0%nat := {| Pd.df_index := Pd.RangeIndex 2;
                 Pd.df_columns := [("rooms", [Pd.CInt 2; Pd.CInt 4]);
                                   ("price", [Pd.CInt 10; Pd.CInt 30])] |};
     1%nat := {| Pd.df_index := Pd.RangeIndex 2;
                 Pd.df_columns := [("rooms", [Pd.CInt 3; Pd.CInt 5]);
                                   ("price", [Pd.CInt 20; Pd.CInt 40])] |} ]}.

(** [AutoRegressor([rooms], [], 'price', train=..., test=...,
    scale_target=True)] on that store. *)
Definition auto_regressor_run : frames * result AutoRegressor.t :=
  AutoRegressor.__init__ (numeric_ops := example_numeric)
    (tts_ops := example_train_test_split)
    ["rooms"] [] "price" None (Some 0%nat) (Some 1%nat) 42 false
    (EstName "linear") "simple" false (Examples.q 1) false false true caller_frames.

(** An estimator that predicts the mean of its training targets: its state
    is the fitted mean, or nothing before [fit]. *)
Definition mean_regressor : Estimator (option Qc) Qc :=
  {| est_fit _ _ y _ :=
       match mapM id y ≫= Np.mean with
       | Some m => Ok (Some m)
       | None => Raise ValueError
       end;
     est_predict e X :=
       match e with
       | Some m => Ok (A1 (replicate (length X) (Fin m)))
       | None => Raise AttributeError
       end |}.

Definition sum_sq (a b : list Qc) : Qc :=
  Np.sum (zip_with (λ x y, (x - y) * (x - y)) a b).

(** The usual formulas, with the stand-in square root. *)
Definition example_metrics : Metrics :=
  {| r2_formula t p :=
       m ← Np.mean t;
       r ← fdiv (sum_sq t p) (sum_sq t (replicate (length t) m));
       Fin (1 - r);
     rmse_formula t p :=
       mse ← fdiv (sum_sq t p) (Qc_of_nat (length t));
       Fin (sqrt (Numeric := example_numeric) mse);
     mape_formula t p :=
       errs ← mapM id (zip_with (λ x y, fdiv (if decide (x ≤ y) then y - x else x - y)
                                          (if decide (0 ≤ x) then x else - x)) t p);
       Np.mean errs |}.

(** Splitters without randomness: a k-fold split that sends sample [i] to
    the test set of fold [i mod k], and the expanding windows of the
    time-series split. *)
Definition example_folds (n_samples : nat) (s : splitter unit)
    : result (list (list nat * list nat)) :=
  let idx := seq 0 n_samples in
  match s with
  | TimeSeriesSplit n =>
      let n := Z.to_nat n in
      let test_size := (n_samples / (n + 1))%nat in
      if decide (n < 2 ∨ test_size = 0)%nat then Raise ValueError
      else Ok ((λ j, let start := (n_samples - (n - j) * test_size)%nat in
                     (seq 0 start, seq start test_size)) <$> seq 0 n)
  | KFold n _ _ | GroupKFold n | StratifiedKFold n =>
      let n := Z.to_nat n in
      if decide (n < 2 ∨ n_samples < n)%nat then Raise ValueError
      else Ok ((λ j, (filter (λ i, i mod n ≠ j)%nat idx,
                      filter (λ i, i mod n = j)%nat idx)) <$> seq 0 n)
  | CustomSplitter _ => Raise TypeError
  end.

Definition example_splitting : Splitting Qc unit unit :=
  {| split s X _ _ := example_folds (length X) s;
     pd_cut y _ := Ok ((λ _, 0%Z) <$> y) |}.

(** Six samples with one feature; the caller's estimator object is at
    location 0 of the store. *)
Definition cv_X : list Qc := [q 1; q 2; q 3; q 4; q 5; q 6].
Definition cv_y : list float := [Fin (q 1); Fin (q 2); Fin (q 9); Fin (q 1); Fin (q 2); Fin (q 9)].
Definition cv_store : heap (option Qc) := {[ 0%nat := OEst None ]}.

(** [RegressorCV(base_reg, cv=3).fit(X, y)] *)
Definition cv_instance : RegressorCV.t (G := unit) (Custom := unit) :=
  RegressorCV.__init__ 0%nat (RegressorCV.CvInt 3) None false None.

Definition cv_run : state (option Qc) RegressorCV.t * result unit :=
  RegressorCV.fit (est_ops := mean_regressor) (metric_ops := example_metrics)
    (numeric_ops := example_numeric) (split_ops := example_splitting)
    cv_X cv_y no_kwargs (cv_instance, cv_store).

(** [RegressorTimeSeriesCV(base_reg, cv=2).fit(X, y)] *)
Definition ts_instance : RegressorTimeSeriesCV.t (Custom := unit) :=
  RegressorTimeSeriesCV.__init__ 0%nat 2 false false.

Definition ts_run : state (option Qc) RegressorTimeSeriesCV.t * result unit :=
  RegressorTimeSeriesCV.fit (est_ops := mean_regressor) (metric_ops := example_metrics)
    (numeric_ops := example_numeric) (split_ops := example_splitting)
    cv_X cv_y None (ts_instance, cv_store).

End Examples.

(** ** Invariants of a method call *)

(** Run from a state that satisfies [P], the computation [m] ends, whether
    it returns or raises, in a state that satisfies [P]; a value it returns
    satisfies [Q]. *)
Definition preserves {S A} (P : S → Prop) (m : M S A) (Q : A → Prop) : Prop :=
  ∀ s, P s → P (m s).1 ∧ ∀ a, (m s).2 = Ok a → Q a.

(** The invariant of the store lemmas: the store extends [h0] and the
    instance satisfies [I]. *)
Definition store_inv {Est Self} (h0 : heap Est) (I : Self → Prop)
    : state Est Self → Prop :=
  λ s, h0 ⊆ s.2 ∧ I s.1.

(** ** What the summary tables are specified to hold *)

(** The sample standard deviation ([ddof=1]) of the finite values. *)
Definition sample_std {numeric_ops : Numeric} (xs : list Qc) : float :=
  m ← Np.mean xs;
  var ← fdiv (Np.sum ((λ x, (x - m) * (x - m)) <$> xs)) (Qc_of_nat (length xs - 1));
  Fin (sqrt var).

(** A metric column of the summary: the fold values, then their mean and
    their standard deviation, [NaN]s skipped. *)
Definition summary_column {numeric_ops : Numeric} (xs : list float) : list Pd.cell :=
  (Pd.CFloat <$> xs) ++
  [Pd.CFloat (Np.mean (omap id xs)); Pd.CFloat (sample_std (omap id xs))].

(** The frame of fold results of [RegressorCV]: one row per fold, with the
    fold number, the fitted clone and the three metrics of the fold. *)
Definition cv_results_frame (regs : list loc) (ms : list metrics_triple) : Pd.DataFrame :=
  {| Pd.df_index := Pd.RangeIndex (length regs);
     Pd.df_columns :=
       [("fold", (λ i, Pd.CInt (Z.of_nat i)) <$> seq 0 (length regs));
        ("reg", Pd.CRef <$> regs);
        ("r2_score", (λ m : metrics_triple, Pd.CFloat m.1.1) <$> ms);
        ("rmse", (λ m : metrics_triple, Pd.CFloat m.1.2) <$> ms);
        ("mape", (λ m : metrics_triple, Pd.CFloat m.2) <$> ms)] |}.

(** The summary of the fold metrics [ms]: the fold rows, then the rows
    ['mean'] and ['std']. *)
Definition cv_summary_frame {numeric_ops : Numeric} (ms : list metrics_triple)
    : Pd.DataFrame :=
  {| Pd.df_index := ((λ i, Pd.CInt (Z.of_nat i)) <$> seq 0 (length ms)) ++
                    [Pd.CStr "mean"; Pd.CStr "std"];
     Pd.df_columns :=
       [("r2_score", summary_column ((λ m : metrics_triple, m.1.1) <$> ms));
        ("rmse", summary_column ((λ m : metrics_triple, m.1.2) <$> ms));
        ("mape", summary_column ((λ m : metrics_triple, m.2) <$> ms))] |}.


(** ** Python strings: the operations of [_proc_output_names]

    A string is its sequence of bytes.  Searching for, slicing off and
    replacing an ASCII prefix gives the same result on the bytes of a UTF-8
    string as on its characters. *)

Module Str.

(** [old in s] *)
Fixpoint contains (old s : string) : bool :=
  String.prefix old s ||
  match s with
  | EmptyString => false
  | String _ s' => contains old s'
  end.

(** [s[:n]] *)
Definition slice_to (n : nat) (s : string) : string := String.substring 0 n s.

(** [s.replace(old, new)] for a non-empty [old]: the occurrences of [old],
    found from left to right without overlap, are replaced by [new];
    [skip] counts the characters of a replaced occurrence still to pass. *)
Fixpoint replace_go (old new : string) (skip : nat) (s : string) : string :=
  match s with
  | EmptyString => EmptyString
  | String c s' =>
      match skip with
      | S k => replace_go old new k s'
      | O =>
          if String.prefix old s
          then new +:+ replace_go old new (String.length old - 1) s'
          else String c (replace_go old new 0 s')
      end
  end.

(** With an empty [old], [new] goes in front of every character and at the
    end. *)
Fixpoint intersperse (new s : string) : string :=
  match s with
  | EmptyString => new
  | String c s' => new +:+ String c (intersperse new s')
  end.

Definition replace (old new s : string) : string :=
  if decide (old = EmptyString) then intersperse new s else replace_go old new 0 s.

End Str.

(** ** AutoRegressor and AutoClassifier: the reporting methods *)

(** What [_proc_output_names] reads from the fitted model pipeline: the
    [get_feature_names_out()] of the one-hot encoder of the categorical
    branch and the [feature_names_in_] of the imputer of the numeric branch.
    Either read may raise. *)
Record fitted_names := {
  one_hot_feature_names_out : result (list string);
  imputer_feature_names_in : result (list string)
}.

(** The attributes [_proc_output_names] sets on the instance. *)
Record out_names := {
  cat_out_names_ : option (list string);
  num_out_names_ : option (list string)
}.

Definition set_cat_out_names (v : list string) (s : out_names) : out_names :=
  {| cat_out_names_ := Some v; num_out_names_ := num_out_names_ s |}.
Definition set_num_out_names (v : list string) (s : out_names) : out_names :=
  {| cat_out_names_ := cat_out_names_ s; num_out_names_ := Some v |}.

(** The inner loop for one categorical column: every name that starts with
    [prefix] has all its occurrences of [prefix] replaced by the name of
    the column. *)
Definition rename_prefix (i : nat) (cat : string) (names : list string) : list string :=
  let prefix := "x" +:+ pretty i in
  (λ name,
     if Str.contains prefix (Str.slice_to (String.length prefix) name)
     then Str.replace prefix cat name
     else name) <$> names.

(** The two nested loops over [enumerate(self.cat_cols)] and the names. *)
Definition rename_one_hot (cat_cols names : list string) : list string :=
  foldl (λ names ic, rename_prefix ic.1 ic.2 names) names (enumerate cat_cols).

(** The last lines of [_proc_output_names], common to both classes; the
    model pipeline has the attribute [transformers_] only once fitted. *)
Definition num_output_names (fitted : option fitted_names) (cat_out : list string)
    : M out_names (list string) :=
  ft ← lift (of_option AttributeError fitted);
  num ← lift (imputer_feature_names_in ft);
  modify (set_num_out_names num);;
  mret (cat_out ++ num).

Definition one_hot_output_names (cat_cols : list string) (fitted : option fitted_names)
    : M out_names (list string) :=
  ft ← lift (of_option AttributeError fitted);
  names ← lift (one_hot_feature_names_out ft);
  let names := rename_one_hot cat_cols names in
  modify (set_cat_out_names names);;
  mret names.

Module AutoRegressorReports.

Definition _proc_output_names (self : AutoRegressor.t) (fitted : option fitted_names)
    : M out_names (list string) :=
  cat_out ← (if AutoRegressor.use_catboost_native_cat_features self then
               modify (set_cat_out_names (AutoRegressor.cat_cols self));;
               mret (AutoRegressor.cat_cols self)
             else one_hot_output_names (AutoRegressor.cat_cols self) fitted);
  num_output_names fitted cat_out.

End AutoRegressorReports.

Module AutoClassifierReports.

Definition _proc_output_names (self : AutoClassifier.t) (fitted : option fitted_names)
    : M out_names (list string) :=
  cat_out ← one_hot_output_names (AutoClassifier.cat_cols self) fitted;
  num_output_names fitted cat_out.

End AutoClassifierReports.

(** The name one one-hot output name ends up with. *)
Definition rename_name (cat_cols : list string) (name : string) : string :=
  foldl (λ name ic,
           let prefix := "x" +:+ pretty ic.1 in
           if Str.contains prefix (Str.slice_to (String.length prefix) name)
           then Str.replace prefix ic.2 name
           else name) name (enumerate cat_cols).

(** [sort_values(ascending=False)]: the order the library gives the rows,
    as the positions of the rows of the unsorted table. *)
Class Sorting := {
  argsort_descending : list float → list nat
}.

(** The plots and the rank test of [test_binary_column]. *)
Class Stats := {
  histplot : Pd.DataFrame → string → string → result unit;
  boxplot : Pd.DataFrame → string → string → result unit;
  mannwhitneyu : list Pd.cell → list Pd.cell → result (float * float)
}.

(** [series == 1], on one value. *)
Definition eq_one (c : Pd.cell) : bool :=
  match c with
  | Pd.CInt z => bool_decide (z = 1%Z)
  | Pd.CFloat (Some x) => bool_decide (x = 1)
  | _ => false
  end.

(** [values[mask]] *)
Definition select {A} (mask : list bool) (v : list A) : list A :=
  snd <$> filter (λ bv : bool * A, bv.1 = true) (zip mask v).

(** [test_binary_column], of both classes: [data] is the frame [self.data]. *)
Definition test_binary_column {stat_ops : Stats} (data : loc) (binary_column : string)
    : M frames float :=
  df ← load data;
  col ← lift (Pd.getitem binary_column df);
  let filter_feature := eq_one <$> col in
  target ← lift (Pd.getitem "target" df);
  let with_feature := select filter_feature target in
  target ← lift (Pd.getitem "target" df);
  let without_feature := select (negb <$> filter_feature) target in
  lift (histplot df "target" binary_column);;
  lift (boxplot df binary_column "target");;
  '(U1, p) ← lift (mannwhitneyu with_feature without_feature);
  mret p.

(** The model pipeline of the library: [fit] gives its fitted state. *)
Class PipelineOps (Fitted : Type) := {
  pipeline_fit : model_pipeline → Pd.DataFrame → list Pd.cell → result Fitted;
  pipeline_score : Fitted → Pd.DataFrame → list Pd.cell → result float;
  pipeline_predict : Fitted → Pd.DataFrame → result ndarray;
  classification_report : list Pd.cell → ndarray → result string
}.

(** What [fit_report] sets: the fitted state of [self.model] and
    [self.y_pred]. *)
Record report_state (Fitted : Type) := {
  fitted_model : option Fitted;
  y_pred : option ndarray
}.
Arguments fitted_model {Fitted} _.
Arguments y_pred {Fitted} _.

Definition set_fitted_model {Fitted} (m : Fitted) (s : report_state Fitted)
    : report_state Fitted :=
  {| fitted_model := Some m; y_pred := y_pred s |}.
Definition set_y_pred {Fitted} (v : ndarray) (s : report_state Fitted)
    : report_state Fitted :=
  {| fitted_model := fitted_model s; y_pred := Some v |}.

(** [df.name]: attribute access to a column. *)
Definition getattr (name : string) (df : Pd.DataFrame) : result (list Pd.cell) :=
  of_option AttributeError (Pd.lookup_col name (Pd.df_columns df)).

Module AutoRegressorMethods.
Section AutoRegressorMethods.
Context {metric_ops : Metrics} {sort_ops : Sorting}.
Context {Fitted : Type} {pipeline_ops : PipelineOps Fitted}.

(** [fit_report], in the store [h] of frames, which it only reads. *)
Definition fit_report (h : frames) (self : AutoRegressor.t)
    : M (report_state Fitted) unit :=
  train ← lift (of_option AttributeError (h !! AutoRegressor.train self));
  y ← lift (getattr "target" train);
  m ← lift (pipeline_fit (AutoRegressor.model self) train y);
  modify (set_fitted_model m);;
  test ← lift (of_option AttributeError (h !! AutoRegressor.test self));
  y_test ← lift (getattr "target" test);
  score ← lift (pipeline_score m test y_test);
  y_pred ← lift (pipeline_predict m test);
  modify (set_y_pred y_pred);;
  y_test ← lift (getattr "target" test);
  y_true ← lift (StandardScaler.numeric_values y_test);
  rmse ← lift (root_mean_squared_error y_true y_pred);
  y_test ← lift (getattr "target" test);
  y_true ← lift (StandardScaler.numeric_values y_test);
  mape ← lift (mean_absolute_percentage_error y_true y_pred);
  mret ().

(** [self.estimator == name] *)
Definition estimator_is (e : estimator_param) (name : string) : bool :=
  match e with
  | EstName s => bool_decide (s = name)
  | EstObject _ => false
  end.

(** [get_coefficients]; [feature_importances_] is the read of that
    attribute of [self.reg].  The class has no attribute [clf]. *)
Definition get_coefficients (self : AutoRegressor.t) (fitted : option fitted_names)
    (feature_importances_ : result (list float))
    : M out_names (option Pd.DataFrame) :=
  if estimator_is (AutoRegressor.estimator self) "linear" then
    output_names ← AutoRegressorReports._proc_output_names self fitted;
    raise AttributeError
  else if estimator_is (AutoRegressor.estimator self) "random_forest" ||
          estimator_is (AutoRegressor.estimator self) "catboost" then
    output_names ← AutoRegressorReports._proc_output_names self fitted;
    importance ← lift feature_importances_;
    feat_imp ← lift (Pd.from_columns
                       [("features", Pd.CStr <$> output_names);
                        ("importance", Pd.CFloat <$> importance)]);
    feat_imp ← lift (Pd.iloc (argsort_descending importance) feat_imp);
    mret (Some feat_imp)
  else mret None.

End AutoRegressorMethods.
End AutoRegressorMethods.

Module AutoClassifierMethods.
Section AutoClassifierMethods.
Context {sort_ops : Sorting}.
Context {Fitted : Type} {pipeline_ops : PipelineOps Fitted}.

Definition fit_report (h : frames) (self : AutoClassifier.t)
    : M (report_state Fitted) unit :=
  train ← lift (of_option AttributeError (h !! AutoClassifier.train self));
  y ← lift (getattr "target" train);
  m ← lift (pipeline_fit (AutoClassifier.model self) train y);
  modify (set_fitted_model m);;
  test ← lift (of_option AttributeError (h !! AutoClassifier.test self));
  y_test ← lift (getattr "target" test);
  score ← lift (pipeline_score m test y_test);
  y_pred ← lift (pipeline_predict m test);
  modify (set_y_pred y_pred);;
  y_test ← lift (getattr "target" test);
  report ← lift (classification_report y_test y_pred);
  mret ().

(** [self.estimator == name]: [self.estimator] is a name only when the
    constructor left the argument in place. *)
Definition estimator_is (e : estimator_model) (name : string) : bool :=
  match e with
  | Given (EstName s) => bool_decide (s = name)
  | _ => false
  end.

(** [self.estimator.feature_importances_]: a name, being a [str], has no
    such attribute. *)
Definition feature_importances_of (e : estimator_model)
    (feature_importances_ : result (list float)) : result (list float) :=
  match e with
  | Given (EstName _) => Raise AttributeError
  | _ => feature_importances_
  end.

Definition get_coefficients (self : AutoClassifier.t) (fitted : option fitted_names)
    (feature_importances_ : result (list float))
    : M out_names (option Pd.DataFrame) :=
  if estimator_is (AutoClassifier.estimator self) "linear" then
    output_names ← AutoClassifierReports._proc_output_names self fitted;
    raise AttributeError
  else if estimator_is (AutoClassifier.estimator self) "random_forest" ||
          estimator_is (AutoClassifier.estimator self) "catboost" then
    output_names ← AutoClassifierReports._proc_output_names self fitted;
    importance ← lift (feature_importances_of (AutoClassifier.estimator self)
                         feature_importances_);
    feat_imp ← lift (Pd.from_columns
                       [("features", Pd.CStr <$> output_names);
                        ("importance", Pd.CFloat <$> importance)]);
    feat_imp ← lift (Pd.iloc (argsort_descending importance) feat_imp);
    mret (Some feat_imp)
  else mret None.

End AutoClassifierMethods.
End AutoClassifierMethods.

(** ** Concrete instances for the reporting methods *)

Module MoreExamples.

(** A caller's training and test frames with two categorical columns, a
    numeric column and the target column ['price'], at the locations 0 and
    1 of the store. *)
Definition city_train : Pd.DataFrame :=
  {| Pd.df_index := Pd.RangeIndex 2;
     Pd.df_columns := [("city", [Pd.CStr "rome"; Pd.CStr "oslo"]);
                       ("color", [Pd.CStr "red"; Pd.CStr "blue"]);
                       ("rooms", [Pd.CInt 2; Pd.CInt 4]);
                       ("price", [Pd.CInt 10; Pd.CInt 30])] |}.

Definition city_test : Pd.DataFrame :=
  {| Pd.df_index := Pd.RangeIndex 2;
     Pd.df_columns := [("city", [Pd.CStr "oslo"; Pd.CStr "rome"]);
                       ("color", [Pd.CStr "blue"; Pd.CStr "red"]);
                       ("rooms", [Pd.CInt 3; Pd.CInt 5]);
                       ("price", [Pd.CInt 20; Pd.CInt 40])] |}.

Definition city_frames : frames := {[ 0%nat := city_train; 1%nat := city_test ]}.

(** The names a model pipeline fitted on these frames reports. *)
Definition city_names : fitted_names :=
  {| one_hot_feature_names_out := Ok ["x0_oslo"; "x0_rome"; "x1_blue"; "x1_red"];
     imputer_feature_names_in := Ok ["rooms"] |}.

Definition no_names : out_names := {| cat_out_names_ := None; num_out_names_ := None |}.

(** [AutoClassifier([rooms], [city, color], 'price', train=..., test=...,
    estimator=est)] on that store. *)
Definition auto_classifier_run (est : string) : frames * result AutoClassifier.t :=
  AutoClassifier.__init__ (numeric_ops := Examples.example_numeric)
    (tts_ops := Examples.example_train_test_split)
    ["rooms"] ["city"; "color"] "price" None (Some 0%nat) (Some 1%nat) 42 false
    (EstName est) "simple" city_frames.

(** [AutoRegressor([rooms], [city, color], 'price', train=..., test=...,
    estimator=est, use_catboost_native_cat_features=native)] on that
    store. *)
Definition auto_regressor_city_run (est : string) (native : bool)
    : frames * result AutoRegressor.t :=
  AutoRegressor.__init__ (numeric_ops := Examples.example_numeric)
    (tts_ops := Examples.example_train_test_split)
    ["rooms"] ["city"; "color"] "price" None (Some 0%nat) (Some 1%nat) 42 false
    (EstName est) "simple" native (Examples.q 1) false false false city_frames.

(** A caller's store whose target column is already called ['target']. *)
Definition target_frames : frames :=
  {[ 0%nat := {| Pd.df_index := Pd.RangeIndex 2;
                 Pd.df_columns := [("rooms", [Pd.CInt 2; Pd.CInt 4]);
                                   ("target", [Pd.CInt 10; Pd.CInt 30])] |};
     1%nat := {| Pd.df_index := Pd.RangeIndex 2;
                 Pd.df_columns := [("rooms", [Pd.CInt 3; Pd.CInt 5]);
                                   ("target", [Pd.CInt 20; Pd.CInt 40])] |} ]}.

Definition auto_classifier_target_run : frames * result AutoClassifier.t :=
  AutoClassifier.__init__ (numeric_ops := Examples.example_numeric)
    (tts_ops := Examples.example_train_test_split)
    ["rooms"] [] "target" None (Some 0%nat) (Some 1%nat) 42 false
    (EstName "catboost") "simple" target_frames.

Definition auto_regressor_target_run : frames * result AutoRegressor.t :=
  AutoRegressor.__init__ (numeric_ops := Examples.example_numeric)
    (tts_ops := Examples.example_train_test_split)
    ["rooms"] [] "target" None (Some 0%nat) (Some 1%nat) 42 false
    (EstName "catboost") "simple" false (Examples.q 1) false false false target_frames.

(** Eleven categorical columns, for the two-digit prefix [x10]. *)
Definition eleven_columns : list string :=
  ["a"; "b"; "c"; "d"; "e"; "f"; "g"; "h"; "i"; "j"; "k"].

(** Stand-ins for the plots and the rank test, the sort and the model
    pipeline: none of them is reached where they are used. *)
Definition example_stats : Stats :=
  {| histplot _ _ _ := Ok (); boxplot _ _ _ := Ok ();
     mannwhitneyu _ _ := Ok (Fin 0, Fin 1) |}.

Definition example_sorting : Sorting := {| argsort_descending v := seq 0 (length v) |}.

Definition example_pipeline : PipelineOps unit :=
  {| pipeline_fit _ _ _ := Ok ();
     pipeline_score _ _ _ := Ok (Fin 1);
     pipeline_predict _ df := Ok (A1 (replicate (length (Pd.df_index df)) (Fin 0)));
     classification_report _ _ := Ok "" |}.

End MoreExamples.

(** * Verification *)

(** ** Results and list helpers *)

Lemma rmapM_of_option {A B} (e : exn) (f : A → option B) (l : list A) :
  rmapM (λ x, of_option e (f x)) l = of_option e (mapM f l).
Proof.
  induction l as [|x l IH]; [done|]. simpl. rewrite IH.
  destruct (f x); [|done]. simpl. by destruct (mapM f l).
Qed.

Lemma rmapM_Ok_Forall2 {A B} (f : A → result B) (l : list A) (k : list B) :
  rmapM f l = Ok k ↔ Forall2 (λ a b, f a = Ok b) l k.
Proof.
  revert k. induction l as [|x l IH]; intros k; simpl.
  - split; [intros [= <-]; constructor | by inversion 1].
  - destruct (f x) as [b|e] eqn:Hx; simpl.
    + destruct (rmapM f l) as [bs|e] eqn:Hl; simpl.
      * split.
        -- intros [= <-]. constructor; [done|]. by apply IH.
        -- inversion 1 as [|???? Hb Hbs]; subst. apply IH in Hbs.
           congruence.
      * split; [done|]. inversion 1 as [|???? Hb Hbs]; subst.
        apply IH in Hbs. done.
    + split; [done|]. inversion 1; congruence.
Qed.

Lemma take_rows_ok {A} (a : list A) (ind : list nat) :
  Forall (λ i, i < length a)%nat ind → is_Ok (take_rows a ind).
Proof.
  induction 1 as [|i ind Hi _ [b IH]]; [by eexists|].
  unfold take_rows in *. simpl. destruct (lookup_lt_is_Some_2 a i Hi) as [x ->].
  simpl. rewrite IH. by eexists.
Qed.

(** ** The reductions meet their specifications *)

Module NpFacts.

Lemma sum_app l1 l2 : Np.sum (l1 ++ l2) = Np.sum l1 + Np.sum l2.
Proof.
  induction l1 as [|x l1 IH]; simpl.
  - by rewrite Qcplus_0_l.
  - unfold Np.sum in *. simpl. rewrite IH. by rewrite Qcplus_assoc.
Qed.

Lemma Qc_of_nat_neq_0 n : (0 < n)%nat → Qc_of_nat n ≠ 0.
Proof.
  intros Hn Heq. unfold Qc_of_nat, Qc_of_Z in Heq.
  apply (f_equal this) in Heq. simpl in Heq.
  inversion Heq. lia.
Qed.

Lemma Qc_of_nat_S n : Qc_of_nat (S n) = Qc_of_nat n + 1.
Proof.
  apply Qc_is_canon. unfold Qc_of_nat, Qc_of_Z. simpl.
  rewrite Qred_correct. unfold Qeq, Qplus. simpl. lia.
Qed.

Lemma fdiv_Some a b : b ≠ 0 → fdiv a b = Some (a / b).
Proof. intros. unfold fdiv. by rewrite decide_False. Qed.

Lemma mean_spec l : l ≠ [] → ∃ m, Np.mean l = Some m ∧ is_mean l m.
Proof.
  intros Hl. unfold Np.mean.
  assert (Qc_of_nat (length l) ≠ 0) as Hn.
  { apply Qc_of_nat_neq_0. destruct l; [done | simpl; lia]. }
  rewrite fdiv_Some by done. eexists; split; [done|]. split; [done|].
  field. done.
Qed.

Lemma sort_length l : length (Np.sort l) = length l.
Proof. unfold Np.sort. by rewrite merge_sort_Permutation. Qed.

Lemma median_spec l : l ≠ [] → ∃ m, Np.median l = Some m ∧ is_median l m.
Proof.
  intros Hl. unfold Np.median.
  assert (0 < length l)%nat as Hlen by (destruct l; [done | simpl; lia]).
  assert (length l / 2 < length l)%nat as Hmid by (apply Nat.div_lt; lia).
  destruct (lookup_lt_is_Some_2 (Np.sort l) (length l / 2)%nat) as [b Hb].
  { by rewrite sort_length. }
  destruct (lookup_lt_is_Some_2 (Np.sort l) (length l / 2 - 1)%nat) as [a Ha].
  { rewrite sort_length. lia. }
  cbv zeta. rewrite Ha, Hb.
  destruct (Nat.even (length l)) eqn:He.
  - simpl. eexists; split; [done|]. exists (Np.sort l). split; [apply merge_sort_Permutation|].
    split; [apply Sorted_merge_sort; apply _|].
    right. split; [by apply Nat.even_spec|]. eauto 6.
  - eexists; split; [done|]. exists (Np.sort l). split; [apply merge_sort_Permutation|].
    split; [apply Sorted_merge_sort; apply _|].
    left. split; [|done]. apply Nat.odd_spec. by rewrite <-Nat.negb_even, He.
Qed.

End NpFacts.

(** ** KNNRegressor.predict *)

Module KNNFacts.
Import KNNRegressor NpFacts.

Lemma column_take_rows y ni block j :
  wf_targets y → (j < (as_2d y).1)%nat → take_rows (as_2d y).2 ni = Ok block →
  column j block = neighbour_targets y ni j.
Proof.
  intros Hwf Hj. revert block. induction ni as [|i ni IH]; intros block Hb.
  - by injection Hb as <-.
  - unfold take_rows in Hb. simpl in Hb.
    destruct ((as_2d y).2 !! i) as [r|] eqn:Hr; [|done]. simpl in Hb.
    destruct (rmapM _ ni) as [b|] eqn:Hni; [|done]. injection Hb as <-.
    assert (target_at y i j = Some (default 0 (r !! j))) as Ht.
    { destruct y as [v|c rows]; simpl in *.
      - assert (j = 0)%nat as -> by lia. rewrite decide_True by done.
        rewrite list_lookup_fmap in Hr. destruct (v !! i); [|done].
        by injection Hr as <-.
      - rewrite Hr. simpl. rewrite Forall_lookup in Hwf.
        specialize (Hwf _ _ Hr).
        destruct (lookup_lt_is_Some_2 r j) as [x ->]; [lia | done]. }
    unfold neighbour_targets. simpl. rewrite Ht. simpl. f_equal.
    by apply IH.
Qed.

Lemma as_2d_length y : length (as_2d y).2 = n_samples y.
Proof. destruct y; simpl; [by rewrite length_fmap | done]. Qed.

(** The blocks [_y[neigh_ind]] exist when the positions are in range, and
    their columns are the neighbours' targets. *)
Lemma blocks_spec y ind :
  wf_targets y → Forall (Forall (λ i, i < n_samples y)%nat) ind →
  ∃ d, rmapM (take_rows (as_2d y).2) ind = Ok d ∧
       Forall2 (λ block ni, ∀ j, (j < (as_2d y).1)%nat →
                  column j block = neighbour_targets y ni j) d ind.
Proof.
  intros Hwf. induction 1 as [|ni ind Hni _ (d & Hd & IH)].
  - exists []. split; [done | constructor].
  - destruct (take_rows_ok (as_2d y).2 ni) as [block Hb].
    { by rewrite as_2d_length. }
    exists (block :: d). simpl. rewrite Hb, Hd. split; [done|].
    constructor; [|done]. intros j Hj. by apply column_take_rows.
Qed.

Lemma seq_fmap_ext {A} (f g : nat → A) n :
  (∀ j, (j < n)%nat → f j = g j) → f <$> seq 0 n = g <$> seq 0 n.
Proof.
  intros H. apply list_fmap_ext. intros i j Hj. apply H.
  apply lookup_seq in Hj. lia.
Qed.

Lemma zip_blocks {A B} (c : nat) (g : list Qc → A → nat → B) y d ind (xs : list A) :
  Forall2 (λ block ni, ∀ j, (j < c)%nat →
             column j block = neighbour_targets y ni j) d ind →
  length xs = length ind →
  zip_with (λ block x, (λ j, g (column j block) x j) <$> seq 0 c) d xs =
  zip_with (λ x ni, (λ j, g (neighbour_targets y ni j) x j) <$> seq 0 c) xs ind.
Proof.
  intros H. revert xs. induction H as [|block ni d ind Hb _ IH]; intros [|x xs] Hl;
    try done.
  simpl. rewrite IH by (simpl in Hl; lia). f_equal.
  apply seq_fmap_ext. intros j Hj. by rewrite Hb.
Qed.

Section predict_facts.
Context {X : Type} (check_array : X → result X).

Lemma concat_singletons {A B} (f : A → B) (l : list A) :
  concat ((λ a, [f a]) <$> l) = f <$> l.
Proof. induction l as [|a l IH]; csimpl; [done | by f_equal]. Qed.

Lemma zip_with_ignore_l {A B C} (f : B → C) (l : list A) (k : list B) :
  length l = length k → zip_with (λ _ b, f b) l k = f <$> k.
Proof.
  revert l. induction k as [|b k IH]; intros [|a l] Hl; try done.
  simpl in *. rewrite IH by lia. done.
Qed.

(** The uniform branch, for any reduction [f] of the neighbours' targets. *)
Lemma predict_uniform_reduce (self : t X) x x' dist ind (f : list Qc → float)
    (pred_calc : string) :
  (weights self = WNone ∨ weights self = WUniform) →
  wf_targets (_y self) →
  check_array x = Ok x' →
  kneighbors self x' = Ok (dist, ind) →
  length dist = length ind →
  Forall (Forall (λ i, i < n_samples (_y self))%nat) ind →
  (pred_calc = "mean" ∧ f = Np.mean ∨ pred_calc = "median" ∧ f = Np.median) →
  predict check_array self x false pred_calc =
    Ok (Pred (per_query (λ _ ni j, f (neighbour_targets (_y self) ni j))
                (_y self) dist ind)).
Proof.
  intros Hw Hwf Hx Hk Hlen Hin Hf. unfold predict.
  rewrite Hx. simpl. rewrite Hk. simpl.
  assert (_get_weights dist (weights self) = None) as ->.
  { by destruct Hw as [-> | ->]. }
  destruct (blocks_spec _ _ Hwf Hin) as (d & Hd & Hcols).
  destruct (as_2d (_y self)) as [ncols rows] eqn:H2d. simpl in Hd, Hcols.
  assert (reduce_axis1 f ncols d =
          (λ ni, (λ j, f (neighbour_targets (_y self) ni j)) <$> seq 0 ncols) <$> ind)
    as Hred.
  { unfold reduce_axis1. clear -Hcols. induction Hcols as [|b ni d ind Hb _ IH]; [done|].
    csimpl. rewrite IH. f_equal. apply seq_fmap_ext. intros j Hj. by rewrite Hb. }
  assert ((if decide (pred_calc = "mean")
           then d ← rmapM (take_rows rows) ind; Ok (Some (reduce_axis1 Np.mean ncols d))
           else if decide (pred_calc = "median")
           then d ← rmapM (take_rows rows) ind; Ok (Some (reduce_axis1 Np.median ncols d))
           else Ok None) = Ok (Some (reduce_axis1 f ncols d))) as ->.
  { destruct Hf as [[-> ->] | [-> ->]]; simpl; by rewrite Hd. }
  simpl. rewrite Hred.
  destruct (_y self) as [v|c rws] eqn:Hy; simpl in *.
  - injection H2d as <- <-. simpl. do 3 f_equal.
    rewrite concat_singletons. by rewrite zip_with_ignore_l.
  - injection H2d as <- <-. do 3 f_equal.
    by rewrite zip_with_ignore_l.
Qed.

Lemma neighbour_targets_length y ni j :
  wf_targets y → (j < (as_2d y).1)%nat → Forall (λ i, i < n_samples y)%nat ni →
  length (neighbour_targets y ni j) = length ni.
Proof.
  intros Hwf Hj Hin. destruct (take_rows_ok (as_2d y).2 ni) as [b Hb].
  { by rewrite as_2d_length. }
  rewrite <-(column_take_rows _ _ _ _ Hwf Hj Hb). unfold column.
  rewrite length_fmap. apply rmapM_Ok_Forall2 in Hb.
  symmetry. by eapply Forall2_length.
Qed.

(** C3: with uniform weighting, [predict] with [pred_calc='mean'] returns for
    every query the unweighted mean of the targets of its nearest neighbours,
    and with [pred_calc='median'] their median. *)
Theorem predict_uniform_mean_median (self : t X) x x' dist ind :
  (weights self = WNone ∨ weights self = WUniform) →
  wf_targets (_y self) →
  check_array x = Ok x' →
  kneighbors self x' = Ok (dist, ind) →
  length dist = length ind →
  Forall (λ ni, ni ≠ [] ∧ Forall (λ i, i < n_samples (_y self))%nat ni) ind →
  predict check_array self x false "mean" =
    Ok (Pred (per_query (λ _ ni j, Np.mean (neighbour_targets (_y self) ni j))
                (_y self) dist ind)) ∧
  predict check_array self x false "median" =
    Ok (Pred (per_query (λ _ ni j, Np.median (neighbour_targets (_y self) ni j))
                (_y self) dist ind)) ∧
  ∀ ni j, ni ∈ ind → (j < (as_2d (_y self)).1)%nat →
    length (neighbour_targets (_y self) ni j) = length ni ∧
    ∃ m md,
      Np.mean (neighbour_targets (_y self) ni j) = Some m ∧
      is_mean (neighbour_targets (_y self) ni j) m ∧
      Np.median (neighbour_targets (_y self) ni j) = Some md ∧
      is_median (neighbour_targets (_y self) ni j) md.
Proof.
  intros Hw Hwf Hx Hk Hlen Hind.
  assert (Forall (Forall (λ i, i < n_samples (_y self))%nat) ind) as Hin.
  { eapply Forall_impl; [exact Hind | by intros ? [_ ?]]. }
  split; [|split].
  - eapply predict_uniform_reduce; eauto.
  - eapply predict_uniform_reduce; eauto.
  - intros ni j Hni Hj. rewrite Forall_forall in Hind.
    destruct (Hind _ Hni) as [Hne Hr].
    pose proof (neighbour_targets_length _ _ _ Hwf Hj Hr) as Hl.
    split; [done|].
    assert (neighbour_targets (_y self) ni j ≠ []) as Hne'.
    { intros Heq. rewrite Heq in Hl. destruct ni; done. }
    destruct (mean_spec _ Hne') as (m & Hm & Hms).
    destruct (median_spec _ Hne') as (md & Hmd & Hmds).
    by exists m, md.
Qed.

(** C9: with uniform weighting and a [pred_calc] other than ['mean'] and
    ['median'], [y_pred] is never assigned and [predict] raises, whatever the
    other arguments; when the neighbour query succeeds and no match index is
    asked for, or the targets are one-dimensional, the exception is the
    unbound local variable. *)
Theorem predict_uniform_other_pred_calc_raises (self : t X) x
    (return_match_index : bool) (pred_calc : string) :
  (weights self = WNone ∨ weights self = WUniform) →
  pred_calc ≠ "mean" → pred_calc ≠ "median" →
  (∃ e, predict check_array self x return_match_index pred_calc = Raise e) ∧
  (∀ x' r, check_array x = Ok x' → kneighbors self x' = Ok r →
     ndim (_y self) = 1%nat ∨ return_match_index = false →
     predict check_array self x return_match_index pred_calc = Raise UnboundLocalError).
Proof.
  intros Hw Hmean Hmedian.
  assert (∀ dist, _get_weights dist (weights self) = None) as Hnone.
  { intros dist. by destruct Hw as [-> | ->]. }
  split.
  - unfold predict. destruct (check_array x) as [x'|e]; simpl; [|by eexists].
    destruct (kneighbors self x') as [[dist ind]|e]; simpl; [|by eexists].
    rewrite Hnone. destruct (as_2d (_y self)) as [ncols rows].
    rewrite !decide_False by done. simpl.
    destruct (decide (ndim (_y self) = 1%nat)); simpl; [by eexists|].
    destruct return_match_index; [|by eexists].
    destruct (rmapM (take_rows rows) ind) as [d|e]; simpl; [|by eexists].
    destruct (rmapM _ d) as [mi|e]; simpl; [|by eexists].
    destruct (rmapM _ (zip ind mi)) as [nearest|e]; simpl; by eexists.
  - intros x' [dist ind] Hx Hk Hcase. unfold predict. rewrite Hx. simpl.
    rewrite Hk. simpl. rewrite Hnone. destruct (as_2d (_y self)) as [ncols rows].
    rewrite !decide_False by done. simpl.
    destruct Hcase as [H1 | ->].
    + by rewrite decide_True.
    + by destruct (decide (ndim (_y self) = 1%nat)).
Qed.

Lemma Qc_of_nat_0 : Qc_of_nat 0 = 0.
Proof. by apply Qc_is_canon. Qed.

Lemma sum_replicate n (w : Qc) : Np.sum (replicate n w) = Qc_of_nat n * w.
Proof.
  induction n as [|n IH].
  - rewrite Qc_of_nat_0. simpl. unfold Np.sum. simpl. ring.
  - rewrite Qc_of_nat_S. simpl. unfold Np.sum in *. simpl. rewrite IH. ring.
Qed.

Lemma sum_scale (ts : list Qc) (w : Qc) :
  Np.sum (zip_with Qcmult ts (replicate (length ts) w)) = w * Np.sum ts.
Proof.
  induction ts as [|a ts IH]; simpl.
  - unfold Np.sum. simpl. ring.
  - unfold Np.sum in *. simpl. rewrite IH. ring.
Qed.

Lemma fmap_constant {A B} (f : A → B) (l : list A) (c : A) :
  Forall (λ x, x = c) l → f <$> l = replicate (length l) (f c).
Proof. induction 1 as [|x l -> _ IH]; csimpl; [done | by rewrite IH]. Qed.

(** Equal distances give equal weights. *)
Lemma distance_row_weights_equal (di : list Qc) (c : Qc) :
  Forall (λ x, x = c) di →
  distance_row di = replicate (length di) (if decide (c = 0) then 1 else 1 / c).
Proof.
  intros Hc. unfold distance_row. destruct (decide (c = 0)) as [-> | Hne].
  - case_decide as Hin.
    + rewrite (fmap_constant _ _ 0) by done. by rewrite decide_True.
    + destruct di as [|x di]; [done|]. exfalso. inversion Hc; subst.
      apply Hin. left.
  - rewrite decide_False.
    + by apply fmap_constant.
    + intros Hin. rewrite Forall_forall in Hc. by apply Hc in Hin.
Qed.

Lemma existsb_replicate {A} (f : A → bool) (k : nat) (a : A) :
  existsb f (replicate (S k) a) = f a.
Proof.
  induction k as [|k IH]; simpl in *; [by rewrite orb_false_r|].
  rewrite IH. by destruct (f a).
Qed.

(** In binary64 too. *)
Lemma binary64_distance_row_equal (d : PrimFloat.float) (k : nat) :
  Binary64.distance_row (replicate k d) =
    replicate k (Binary64.equal_weight d).
Proof.
  unfold Binary64.distance_row, Binary64.equal_weight. rewrite fmap_replicate.
  destruct k as [|k]; [done|]. rewrite existsb_replicate.
  destruct (Binary64.is_inf _) eqn:Hinf; [|done].
  rewrite fmap_replicate. by rewrite Hinf.
Qed.

(** C4 (amended): the distance-weighted branch returns, for every query and
    output column, the sum of the weighted neighbour targets divided by the
    sum of the weights; where the distances of a query are all equal, its
    weights are all equal: the inverse of the distance, or 1 when the
    distance is zero.  The weights are equal in binary64 as well.  That the
    weighted output then is the unweighted mean holds for rationals only,
    see [equal_distances_not_the_mean]. *)
Theorem predict_distance_weighted (self : t X) x x' dist ind (pred_calc : string) :
  weights self = WDistance →
  wf_targets (_y self) →
  check_array x = Ok x' →
  kneighbors self x' = Ok (dist, ind) →
  Forall2 (λ di ni, length di = length ni) dist ind →
  Forall (Forall (λ i, i < n_samples (_y self))%nat) ind →
  predict check_array self x false pred_calc =
    Ok (Pred (per_query
                (λ di ni j, weighted_average (_y self) (distance_row di) ni j)
                (_y self) dist ind)) ∧
  (∀ di ni c, (di, ni) ∈ zip dist ind → Forall (λ d, d = c) di →
     distance_row di = replicate (length ni) (if decide (c = 0) then 1 else 1 / c)) ∧
  ∀ (d : PrimFloat.float) (k : nat),
    Binary64.distance_row (replicate k d) = replicate k (Binary64.equal_weight d).
Proof.
  intros Hw Hwf Hx Hk Hshape Hin. split_and!.
  - unfold predict. rewrite Hx. simpl. rewrite Hk. simpl. rewrite Hw. simpl.
    destruct (blocks_spec _ _ Hwf Hin) as (d & Hd & Hcols).
    destruct (as_2d (_y self)) as [ncols rows] eqn:H2d. simpl in Hd, Hcols.
    rewrite Hd. simpl.
    assert (same_shape (distance_row <$> dist) ind = true) as ->.
    { apply bool_decide_eq_true. clear -Hshape.
      induction Hshape as [|di ni dist ind Hl _ IH]; [done|]. csimpl.
      rewrite IH. f_equal. rewrite <-Hl. unfold distance_row.
      case_decide; by rewrite length_fmap. }
    simpl.
    assert (weighted_rows ncols d (distance_row <$> dist) =
            zip_with (λ di ni, (λ j, weighted_average (_y self) (distance_row di) ni j)
                                 <$> seq 0 ncols) dist ind) as Hrows.
    { unfold weighted_rows, weighted_average.
      rewrite (zip_blocks ncols
                 (λ col wi _, fdiv (Np.sum (zip_with Qcmult col wi)) (Np.sum wi))
                 (_y self) d ind (distance_row <$> dist) Hcols).
      - by rewrite zip_with_fmap_l.
      - rewrite length_fmap. by eapply Forall2_length. }
    rewrite Hrows.
    destruct (_y self) as [v|c rws] eqn:Hy; simpl in *.
    + injection H2d as <- <-. simpl. do 3 f_equal.
      clear. revert ind. induction dist as [|di dist IH]; intros [|ni ind]; csimpl;
        try done. by rewrite IH.
    + by injection H2d as <- <-.
  - intros di ni c Hzip Hc.
    assert (length di = length ni) as <-.
    { apply list_elem_of_lookup in Hzip as [i Hi].
      apply lookup_zip_with_Some in Hi as (di' & ni' & [= <- <-] & Hdi & Hni).
      exact (Forall2_lookup_lr _ _ _ _ _ _ Hshape Hdi Hni). }
    by apply distance_row_weights_equal.
  - intros d k. apply binary64_distance_row_equal.
Qed.

(** With one-dimensional targets the match index of every query is its
    nearest neighbour, whatever the targets are. *)
Lemma predict_match_index_1d (self : t X) x x' dist ind v (pred_calc : string) :
  _y self = Y1 v →
  (weights self = WNone ∨ weights self = WUniform) →
  (pred_calc = "mean" ∨ pred_calc = "median") →
  check_array x = Ok x' →
  kneighbors self x' = Ok (dist, ind) →
  Forall (λ ni, (n_neighbors self / 2 < length ni)%nat ∧
                Forall (λ i, i < length v)%nat ni) ind →
  ∃ y_pred, predict check_array self x true pred_calc =
              Ok (PredMatch y_pred (take 1 <$> ind) ind).
Proof.
  intros Hy Hw Hpc Hx Hk Hind. unfold predict.
  rewrite Hx. cbn [mbind result_bind]. rewrite Hk. cbn [mbind result_bind].
  assert (_get_weights dist (weights self) = None) as ->.
  { by destruct Hw as [-> | ->]. }
  rewrite Hy. cbn [as_2d ndim].
  set (rows := (λ x : Qc, [x]) <$> v).
  assert (∃ d, rmapM (take_rows rows) ind = Ok d ∧
               rmapM (λ block, Np.argsort <$>
                        of_option IndexError (block !! (n_neighbors self / 2)%nat)) d
                 = Ok (replicate (length ind) [0%nat])) as (d & Hd & Hmi).
  { clear -Hind. induction Hind as [|ni ind [Hmid Hr] _ (d & Hd & IH)].
    - by exists [].
    - destruct (take_rows_ok rows ni) as [block Hb].
      { unfold rows. by rewrite length_fmap. }
      exists (block :: d). cbn [rmapM length replicate]. rewrite Hb, Hd, IH.
      split; [done|].
      apply rmapM_Ok_Forall2 in Hb.
      destruct (lookup_lt_is_Some_2 ni _ Hmid) as [i Hi].
      destruct (Forall2_lookup_l _ _ _ _ _ Hb Hi) as (r & -> & Hr').
      unfold rows in Hr'. rewrite list_lookup_fmap in Hr'.
      destruct (v !! i); [|done]. simpl in Hr'. by injection Hr' as <-. }
  assert (rmapM (λ '(ni, mi), take_rows ni mi) (zip ind (replicate (length ind) [0%nat]))
          = Ok (take 1 <$> ind)) as Hnearest.
  { clear -Hind. induction Hind as [|ni ind [Hmid Hr] _ IH]; [done|].
    csimpl. rewrite IH. destruct ni as [|i ni]; [simpl in Hmid; lia|]. done. }
  destruct Hpc as [-> | ->].
  - rewrite decide_True by done. fold rows. rewrite Hd. cbn [mbind result_bind].
    rewrite decide_True by done. cbn [of_option mbind result_bind].
    rewrite Hmi. cbn [mbind result_bind]. rewrite Hnearest. by eexists.
  - rewrite decide_False by done. rewrite decide_True by done.
    fold rows. rewrite Hd. cbn [mbind result_bind].
    rewrite decide_True by done. cbn [of_option mbind result_bind].
    rewrite Hmi. cbn [mbind result_bind]. rewrite Hnearest. by eexists.
Qed.
End predict_facts.

(** C5 (the code departs from it): on one-dimensional targets the match
    index returned for the query is its nearest neighbour, training point 0
    with target 10, while the neighbour whose target is the positional median
    of the three targets 10, 30, 20 is training point 2. *)
Theorem match_index_is_nearest_not_median :
  predict Ok (Examples.knn WUniform [Examples.q 1; Examples.q 2; Examples.q 4])
      () true "median" =
    Ok (PredMatch (A1 [Some (Examples.q 20)]) [[0%nat]] [[0; 1; 2]%nat]) ∧
  median_neighbour (Y1 [Examples.q 10; Examples.q 30; Examples.q 20]) [0; 1; 2]%nat
    = Some 2%nat.
Proof. split; apply (bool_decide_unpack _); vm_compute; exact I. Qed.

Lemma predict_uniform_mean_median_witness :
  predict Ok (Examples.knn WUniform [Examples.q 1; Examples.q 2; Examples.q 4])
      () false "mean" = Ok (Pred (A1 [Some (Examples.q 20)])) ∧
  predict Ok (Examples.knn WUniform [Examples.q 1; Examples.q 2; Examples.q 4])
      () false "median" = Ok (Pred (A1 [Some (Examples.q 20)])).
Proof.
  destruct (predict_uniform_mean_median Ok
              (Examples.knn WUniform [Examples.q 1; Examples.q 2; Examples.q 4]) () ()
              [[Examples.q 1; Examples.q 2; Examples.q 4]] [[0; 1; 2]]%nat)
    as (Hmean & Hmedian & _).
  - by right.
  - exact I.
  - reflexivity.
  - reflexivity.
  - reflexivity.
  - apply (bool_decide_unpack _); vm_compute; exact I.
  - rewrite Hmean, Hmedian.
    split; apply (bool_decide_unpack _); vm_compute; exact I.
Defined.

Lemma predict_uniform_other_pred_calc_raises_witness :
  predict Ok (Examples.knn WUniform [Examples.q 1; Examples.q 2; Examples.q 4])
      () false "mode" = Raise UnboundLocalError.
Proof.
  destruct (predict_uniform_other_pred_calc_raises Ok
              (Examples.knn WUniform [Examples.q 1; Examples.q 2; Examples.q 4])
              () false "mode") as [_ Hraise].
  - by right.
  - apply (bool_decide_unpack _); vm_compute; exact I.
  - apply (bool_decide_unpack _); vm_compute; exact I.
  - apply (Hraise () ([[Examples.q 1; Examples.q 2; Examples.q 4]], [[0; 1; 2]]%nat));
      [reflexivity | reflexivity | by left].
Defined.

Lemma predict_distance_weighted_witness :
  predict Ok (Examples.knn WDistance [Examples.q 5; Examples.q 5; Examples.q 5])
      () false "mean" =
    Ok (Pred (A1 [weighted_average (Y1 [Examples.q 10; Examples.q 30; Examples.q 20])
                    (distance_row [Examples.q 5; Examples.q 5; Examples.q 5])
                    [0; 1; 2]%nat 0])) ∧
  distance_row [Examples.q 5; Examples.q 5; Examples.q 5] =
    replicate 3 (1 / Examples.q 5).
Proof.
  destruct (predict_distance_weighted Ok
              (Examples.knn WDistance [Examples.q 5; Examples.q 5; Examples.q 5]) () ()
              [[Examples.q 5; Examples.q 5; Examples.q 5]] [[0; 1; 2]]%nat "mean")
    as (Hpred & Hequal & _).
  - reflexivity.
  - exact I.
  - reflexivity.
  - reflexivity.
  - apply (bool_decide_unpack _); vm_compute; exact I.
  - apply (bool_decide_unpack _); vm_compute; exact I.
  - split; [exact Hpred|].
    rewrite (Hequal [Examples.q 5; Examples.q 5; Examples.q 5] [0; 1; 2]%nat
               (Examples.q 5)).
    + by rewrite decide_False.
    + apply (bool_decide_unpack _); vm_compute; exact I.
    + by repeat constructor.
Defined.

End KNNFacts.

(** ** Equal distances in binary64 *)

Module Binary64Facts.
Import PrimFloat.
Local Open Scope float_scope.

(** C4 (what fails): three neighbours with the targets 10, 30 and 20, all at
    the distance 5, get the equal weights 1/5; the weighted average computed
    as the code computes it, in binary64, is 19.999999999999996, while the
    mean of the targets is 20. *)
Lemma equal_distances_not_the_mean :
  Binary64.distance_row [5; 5; 5] = [1 / 5; 1 / 5; 1 / 5] ∧
  Binary64.weighted_average [10; 30; 20] (Binary64.distance_row [5; 5; 5])
    = 0x1.3ffffffffffffp+4 ∧
  Binary64.mean [10; 30; 20] = 20 ∧
  (Binary64.weighted_average [10; 30; 20] (Binary64.distance_row [5; 5; 5])
     <? Binary64.mean [10; 30; 20]) = true.
Proof. split_and!; vm_compute; reflexivity. Qed.

End Binary64Facts.

(** ** Running a method step by step *)

Lemma bind_Ok {S A B} (m : M S A) (k : A → M S B) s s' b :
  (m ≫= k) s = (s', Ok b) → ∃ a s1, m s = (s1, Ok a) ∧ k a s1 = (s', Ok b).
Proof.
  unfold mbind, M_bind. destruct (m s) as [s1 [a|e]]; [|done]. by exists a, s1.
Qed.


Lemma lift_Ok {S A} (r : result A) (s s' : S) a :
  lift r s = (s', Ok a) → s' = s ∧ r = Ok a.
Proof. unfold lift. by intros [= <- ->]. Qed.

Lemma ret_Ok {S A} (x a : A) (s s' : S) :
  mret (M := M S) x s = (s', Ok a) → s' = s ∧ a = x.
Proof. by intros [= <- <-]. Qed.

Lemma rbind_Ok {A B} (m : result A) (k : A → result B) b :
  m ≫= k = Ok b → ∃ a, m = Ok a ∧ k a = Ok b.
Proof. destruct m as [a|e]; [|done]. by exists a. Qed.

(** ** The constructors of AutoRegressor and AutoClassifier *)

Module AutoFacts.
Section AutoFacts.
Context {numeric_ops : Numeric} {tts_ops : TrainTestSplit}.

Lemma new_frame_Ok df (h h' : frames) l :
  new_frame df h = (h', Ok l) → (l ∉ dom h) ∧ h' = <[l:=df]> h.
Proof. unfold new_frame. intros [= <- <-]. split; [apply is_fresh | done]. Qed.

Lemma load_Ok l (h h' : frames) df :
  load l h = (h', Ok df) → h' = h ∧ h !! l = Some df.
Proof. unfold load. destruct (h !! l); simpl; [by intros [= <- <-] | done]. Qed.

Lemma update_Ok l f (h h' : frames) u :
  update l f h = (h', Ok u) →
  ∃ df df', h !! l = Some df ∧ f df = Ok df' ∧ h' = <[l:=df']> h.
Proof.
  unfold update. destruct (h !! l) as [df|]; [|done].
  destruct (f df) as [df'|] eqn:Hf; [|done]. intros [= <- _]. by exists df, df'.
Qed.

Lemma copy_Ok arg (h h' : frames) l :
  copy arg h = (h', Ok l) →
  ∃ src df, arg = Some src ∧ h !! src = Some df ∧ (l ∉ dom h) ∧ h' = <[l:=df]> h.
Proof.
  unfold copy. intros (src & h1 & [-> Hsrc]%lift_Ok & Hr)%bind_Ok.
  apply bind_Ok in Hr as (df & h2 & [-> Hdf]%load_Ok & [Hl ->]%new_frame_Ok).
  destruct arg as [a|]; [|done]. injection Hsrc as ->. by exists src, df.
Qed.

Lemma rename_target_Ok l target_col f (h h' : frames) u :
  rename_target l target_col f h = (h', Ok u) →
  ∃ df v v' df1 df2,
    h !! l = Some df ∧ Pd.getitem target_col df = Ok v ∧ f v = Ok v' ∧
    Pd.setitem "target" v' df = Ok df1 ∧ Pd.drop target_col df1 = Ok df2 ∧
    h' = <[l:=df2]> h.
Proof.
  unfold rename_target.
  intros ([] & h1 & (df & df1 & Hl & Hf & ->)%update_Ok & Hr)%bind_Ok.
  apply update_Ok in Hr as (df1' & df2 & Hl1 & Hdrop & ->).
  rewrite lookup_insert_eq in Hl1. injection Hl1 as <-.
  apply rbind_Ok in Hf as (v & Hv & Hf). apply rbind_Ok in Hf as (v' & Hv' & Hset).
  exists df, v, v', df1, df2. by rewrite insert_insert_eq.
Qed.

(** The frames made by [load_frames] are distinct objects of the store. *)
Lemma load_frames_distinct target_col data train test random_st log_target
    (h h1 : frames) d tr te :
  load_frames target_col data train test random_st log_target h = (h1, Ok (d, tr, te)) →
  tr ≠ te ∧ is_Some (h1 !! tr) ∧ is_Some (h1 !! te).
Proof.
  unfold load_frames. destruct data as [src|]; intros Hr.
  - apply bind_Ok in Hr as (sd & h2 & _ & Hr).
    apply bind_Ok in Hr as ([] & h3 & _ & Hr).
    apply bind_Ok in Hr as (df & h4 & _ & Hr).
    apply bind_Ok in Hr as ([ptr pte] & h5 & _ & Hr).
    apply bind_Ok in Hr as (dtr & h6 & _ & Hr).
    apply bind_Ok in Hr as (dte & h7 & _ & Hr).
    apply bind_Ok in Hr as (str & h8 & [Htr ->]%new_frame_Ok & Hr).
    apply bind_Ok in Hr as (ste & h9 & [Hte ->]%new_frame_Ok & Hr).
    apply ret_Ok in Hr as [-> [= -> -> ->]].
    assert (str ≠ ste) as Hne.
    { intros ->. apply Hte. rewrite dom_insert. set_solver. }
    split; [done|]. split.
    + rewrite lookup_insert_ne by done. rewrite lookup_insert_eq. by eexists.
    + rewrite lookup_insert_eq. by eexists.
  - apply bind_Ok in Hr as (str & h2 & (s1 & d1 & _ & _ & Htr & ->)%copy_Ok & Hr).
    apply bind_Ok in Hr as ([] & h3 & (? & ? & ? & ? & d2 & _ & _ & _ & _ & _ & ->)%rename_target_Ok & Hr).
    apply bind_Ok in Hr as (ste & h4 & (s2 & d3 & _ & _ & Hte & ->)%copy_Ok & Hr).
    apply bind_Ok in Hr as ([] & h5 & (? & ? & ? & ? & d4 & _ & _ & _ & _ & _ & ->)%rename_target_Ok & Hr).
    apply bind_Ok in Hr as (ptr & h6 & [-> _]%lift_Ok & Hr).
    apply bind_Ok in Hr as (pte & h7 & [-> _]%lift_Ok & Hr).
    apply bind_Ok in Hr as (dtr & h8 & [-> _]%load_Ok & Hr).
    apply bind_Ok in Hr as (dte & h9 & [-> _]%load_Ok & Hr).
    apply bind_Ok in Hr as (sd & h10 & [Hd ->]%new_frame_Ok & Hr).
    apply ret_Ok in Hr as [-> [= -> -> ->]].
    assert (str ≠ ste) as Hne.
    { intros ->. apply Hte. rewrite !dom_insert. set_solver. }
    assert (sd ≠ str ∧ sd ≠ ste) as [Hn1 Hn2].
    { split; intros ->; apply Hd; rewrite !dom_insert; set_solver. }
    split; [done|]. split.
    + rewrite lookup_insert_ne by done. rewrite lookup_insert_ne by done.
      rewrite lookup_insert_ne by done. rewrite lookup_insert_eq. by eexists.
    + rewrite lookup_insert_ne by done. rewrite lookup_insert_eq. by eexists.
Qed.

Lemma keeps_bind h0 {A B} (m : M frames A) (k : A → M frames B) Q R :
  keeps h0 m Q → (∀ a, Q a → keeps h0 (k a) R) → keeps h0 (m ≫= k) R.
Proof.
  intros Hm Hk h Hh. destruct (Hm h Hh) as [Hsub HQ].
  unfold mbind, M_bind. destruct (m h) as [h1 [a|e]]; simpl in *.
  - by apply Hk; [apply HQ|].
  - by split.
Qed.

Lemma keeps_weaken h0 {A} (m : M frames A) (Q R : A → Prop) :
  keeps h0 m Q → (∀ a, Q a → R a) → keeps h0 m R.
Proof. intros Hm HQR h Hh. destruct (Hm h Hh). naive_solver. Qed.

Lemma keeps_ret h0 {A} (a : A) (Q : A → Prop) : Q a → keeps h0 (mret a) Q.
Proof. intros HQ h Hh. split; [done|]. by intros ? [= <-]. Qed.

Lemma keeps_lift h0 {A} (r : result A) : keeps h0 (lift r) (λ _, True).
Proof. by intros h Hh. Qed.

Lemma keeps_load h0 l : keeps h0 (load l) (λ _, True).
Proof. by intros h Hh. Qed.

Lemma keeps_new_frame h0 df : keeps h0 (new_frame df) (λ l, l ∉ dom h0).
Proof.
  intros h Hh. simpl. pose proof (is_fresh (dom h)) as Hfresh. split.
  - etrans; [exact Hh|]. apply insert_subseteq. by apply not_elem_of_dom.
  - intros a [= <-]. intros Hin. apply Hfresh. by eapply subseteq_dom.
Qed.

Lemma keeps_update h0 l f : l ∉ dom h0 → keeps h0 (update l f) (λ _, True).
Proof.
  intros Hl h Hh. unfold update. destruct (h !! l) as [df|] eqn:Hdf; [|done].
  destruct (f df) as [df'|e]; [|done]. simpl. split; [|done].
  apply insert_subseteq_r; [|done]. by apply not_elem_of_dom.
Qed.

Lemma keeps_copy h0 arg : keeps h0 (copy arg) (λ l, l ∉ dom h0).
Proof.
  unfold copy. eapply keeps_bind; [apply keeps_lift|]. intros l _.
  eapply keeps_bind; [apply keeps_load|]. intros df _. apply keeps_new_frame.
Qed.

Lemma keeps_rename_target h0 l target_col f :
  l ∉ dom h0 → keeps h0 (rename_target l target_col f) (λ _, True).
Proof.
  intros Hl. unfold rename_target.
  eapply keeps_bind; [by apply keeps_update|]. intros _ _. by apply keeps_update.
Qed.

Lemma keeps_load_frames h0 target_col data train test random_st log_target :
  keeps h0 (load_frames target_col data train test random_st log_target)
    (λ r, (snd (fst r) ∉ dom h0) ∧ (snd r ∉ dom h0)).
Proof.
  unfold load_frames. destruct data as [d|].
  - eapply keeps_bind; [apply keeps_copy|]. intros self_data Hd.
    eapply keeps_bind; [by apply keeps_rename_target|]. intros _ _.
    eapply keeps_bind; [apply keeps_load|]. intros df _.
    eapply keeps_bind; [apply keeps_lift|]. intros [tr te] _.
    eapply keeps_bind; [apply keeps_lift|]. intros dtr _.
    eapply keeps_bind; [apply keeps_lift|]. intros dte _.
    eapply keeps_bind; [apply keeps_new_frame|]. intros self_train Htr.
    eapply keeps_bind; [apply keeps_new_frame|]. intros self_test Hte.
    by apply keeps_ret.
  - eapply keeps_bind; [apply keeps_copy|]. intros self_train Htr.
    eapply keeps_bind; [by apply keeps_rename_target|]. intros _ _.
    eapply keeps_bind; [apply keeps_copy|]. intros self_test Hte.
    eapply keeps_bind; [by apply keeps_rename_target|]. intros _ _.
    eapply keeps_bind; [apply keeps_lift|]. intros tr _.
    eapply keeps_bind; [apply keeps_lift|]. intros te _.
    eapply keeps_bind; [apply keeps_load|]. intros dtr _.
    eapply keeps_bind; [apply keeps_load|]. intros dte _.
    eapply keeps_bind; [apply keeps_new_frame|]. intros self_data Hd.
    by apply keeps_ret.
Qed.

Lemma keeps_scale_column h0 l f :
  l ∉ dom h0 → keeps h0 (scale_column l f) (λ _, True).
Proof.
  intros Hl. unfold scale_column.
  eapply keeps_bind; [apply keeps_load|]. intros df _.
  eapply keeps_bind; [apply keeps_lift|]. intros v _.
  eapply keeps_bind; [apply keeps_lift|]. intros v' _.
  eapply keeps_bind; [apply keeps_lift|]. intros [sc v''] _.
  eapply keeps_bind; [by apply keeps_update|]. intros _ _.
  by apply keeps_ret.
Qed.

Lemma keeps_scale_targets h0 scale_target tr te :
  tr ∉ dom h0 → te ∉ dom h0 →
  keeps h0 (scale_targets scale_target tr te) (λ _, True).
Proof.
  intros Htr Hte. unfold scale_targets. destruct scale_target.
  - eapply keeps_bind; [by apply keeps_scale_column|]. intros sc _.
    eapply keeps_bind; [by apply keeps_scale_column|]. intros _ _.
    by apply keeps_ret.
  - by apply keeps_ret.
Qed.

(** C10: constructing an [AutoRegressor] or an [AutoClassifier] leaves every
    DataFrame that exists before the call, the caller's [data], [train] and
    [test] among them, as it was, whether the constructor returns or raises:
    renaming, dropping, the log transform and the scaling act on objects
    made during the call. *)
Theorem constructors_leave_frames_unchanged (h : frames)
    (num_cols cat_cols : list string) (target_col : string)
    (data train test : option loc) (random_st : Z) (log_target : bool)
    (estimator : estimator_param) (imputer_strategy : string)
    (use_catboost_native_cat_features : bool) (ohe_min_freq : Qc)
    (scale_numeric_data scale_categoric_data scale_target : bool) :
  (∀ l df, h !! l = Some df →
     (AutoRegressor.__init__ num_cols cat_cols target_col data train test random_st
        log_target estimator imputer_strategy use_catboost_native_cat_features
        ohe_min_freq scale_numeric_data scale_categoric_data scale_target h).1 !! l
       = Some df) ∧
  (∀ l df, h !! l = Some df →
     (AutoClassifier.__init__ num_cols cat_cols target_col data train test random_st
        log_target estimator imputer_strategy h).1 !! l = Some df).
Proof.
  split; intros l df Hl.
  - assert (keeps h
      (AutoRegressor.__init__ num_cols cat_cols target_col data train test random_st
        log_target estimator imputer_strategy use_catboost_native_cat_features
        ohe_min_freq scale_numeric_data scale_categoric_data scale_target)
      (λ _, True)) as Hkeeps.
    { unfold AutoRegressor.__init__.
      eapply keeps_bind; [apply keeps_load_frames|].
      intros [[d tr] te] [Htr Hte]. simpl in Htr, Hte.
      eapply keeps_bind; [by apply keeps_scale_targets|]. intros sc _.
      eapply keeps_bind; [apply keeps_lift|]. intros [nt prep] _.
      by apply keeps_ret. }
    destruct (Hkeeps h) as [Hsub _]; [done|].
    by eapply lookup_weaken.
  - assert (keeps h
      (AutoClassifier.__init__ num_cols cat_cols target_col data train test random_st
        log_target estimator imputer_strategy) (λ _, True)) as Hkeeps.
    { unfold AutoClassifier.__init__.
      eapply keeps_bind; [apply keeps_load_frames|].
      intros [[d tr] te] _.
      eapply keeps_bind; [apply keeps_lift|]. intros [nt prep] _.
      by apply keeps_ret. }
    destruct (Hkeeps h) as [Hsub _]; [done|].
    by eapply lookup_weaken.
Qed.

Lemma lookup_set_col name v cols : Pd.lookup_col name (Pd.set_col name v cols) = Some v.
Proof.
  induction cols as [|c cols IH]; simpl.
  - by rewrite decide_True.
  - destruct (decide (c.1 = name)); simpl.
    + by rewrite decide_True.
    + by rewrite decide_False.
Qed.

Lemma getitem_setitem name v df df' :
  Pd.setitem name v df = Ok df' → Pd.getitem name df' = Ok v.
Proof.
  unfold Pd.setitem, Pd.getitem. case_decide; [|done]. intros [= <-]. simpl.
  by rewrite lookup_set_col.
Qed.

(** A scaler fitted on data with a value that is not [NaN] has a mean and a
    non-zero scale. *)
Lemma fit_finite v sc m :
  StandardScaler.fit v = Ok sc → StandardScaler.mean_ sc = Some m →
  ∃ s, StandardScaler.scale_ sc = Some s ∧ s ≠ 0.
Proof.
  unfold StandardScaler.fit. case_decide; [done|]. intros [= <-]. simpl.
  intros Hm. rewrite Hm. simpl.
  assert (omap id v ≠ []) as Hne.
  { intros Heq. rewrite Heq in Hm. done. }
  rewrite NpFacts.fdiv_Some.
  - simpl. eexists; split; [done|]. by case_decide.
  - apply NpFacts.Qc_of_nat_neq_0. destruct (omap id v); [done | simpl; lia].
Qed.

Lemma scale_column_Ok l f (h h' : frames) sc :
  scale_column l f h = (h', Ok sc) →
  ∃ df c v v' df',
    h !! l = Some df ∧ Pd.getitem "target" df = Ok c ∧
    StandardScaler.numeric_values c = Ok v ∧ f v = Ok (sc, v') ∧
    Pd.getitem "target" df' = Ok (Pd.CFloat <$> v') ∧ h' = <[l:=df']> h.
Proof.
  unfold scale_column. intros Hr.
  apply bind_Ok in Hr as (df & h1 & [-> Hl]%load_Ok & Hr).
  apply bind_Ok in Hr as (c & h2 & [-> Hc]%lift_Ok & Hr).
  apply bind_Ok in Hr as (v & h3 & [-> Hv]%lift_Ok & Hr).
  apply bind_Ok in Hr as ([sc' v'] & h4 & [-> Hf]%lift_Ok & Hr).
  apply bind_Ok in Hr as ([] & h5 & (df0 & df' & Hl' & Hset & ->)%update_Ok & Hr).
  apply ret_Ok in Hr as [-> ->]. rewrite Hl in Hl'. injection Hl' as <-.
  exists df, c, v, v', df'. split_and!; try done. by eapply getitem_setitem.
Qed.

Lemma fit_mean v sc x :
  StandardScaler.fit v = Ok sc → Some x ∈ v → is_Some (StandardScaler.mean_ sc).
Proof.
  unfold StandardScaler.fit. case_decide; [done|]. intros [= <-] Hx. simpl.
  assert (x ∈ omap id v) as Hin.
  { apply list_elem_of_omap. by exists (Some x). }
  unfold Np.mean. rewrite NpFacts.fdiv_Some; [by eexists|].
  apply NpFacts.Qc_of_nat_neq_0. destruct (omap id v); [by inversion Hin | simpl; lia].
Qed.

(** The statistics a fitted scaler holds as soon as one value is a number:
    the mean and the population deviation of the values that are numbers,
    a zero deviation replaced by one. *)
Lemma fit_statistics v sc x :
  StandardScaler.fit v = Ok sc → Some x ∈ v →
  ∃ m var,
    is_mean (omap id v) m ∧ is_variance (omap id v) m var ∧
    StandardScaler.mean_ sc = Some m ∧
    StandardScaler.scale_ sc = Some (if decide (sqrt var = 0) then 1 else sqrt var).
Proof.
  unfold StandardScaler.fit. case_decide; [done|]. intros [= <-] Hx. simpl.
  assert (omap id v ≠ []) as Hne.
  { intros Heq. assert (x ∈ omap id v) as Hin.
    { apply list_elem_of_omap. by exists (Some x). }
    rewrite Heq in Hin. by inversion Hin. }
  destruct (NpFacts.mean_spec _ Hne) as (m & Hm & Hmean).
  assert (Qc_of_nat (length (omap id v)) ≠ 0) as Hn.
  { apply NpFacts.Qc_of_nat_neq_0. destruct (omap id v); [done | simpl; lia]. }
  rewrite Hm. simpl. rewrite NpFacts.fdiv_Some by done. simpl.
  eexists m, _. split_and!; [done| |done|done].
  split; [done|]. field. done.
Qed.

Lemma transform_Ok sc v m s :
  v ≠ [] → StandardScaler.mean_ sc = Some m → StandardScaler.scale_ sc = Some s →
  s ≠ 0 → StandardScaler.transform sc v = Ok (standardize m s <$> v).
Proof.
  intros Hv Hm Hs Hs0. unfold StandardScaler.transform.
  rewrite decide_False by done. f_equal. apply list_fmap_ext.
  intros _ [y|] _; [|done]. simpl. rewrite Hm, Hs. simpl.
  by rewrite NpFacts.fdiv_Some.
Qed.

Lemma inverse_transform_Ok sc v m s :
  v ≠ [] → StandardScaler.mean_ sc = Some m → StandardScaler.scale_ sc = Some s →
  StandardScaler.inverse_transform sc v = Ok (descale m s <$> v).
Proof.
  intros Hv Hm Hs. unfold StandardScaler.inverse_transform.
  rewrite decide_False by done. f_equal. apply list_fmap_ext.
  intros _ [y|] _; [|done]. simpl. by rewrite Hm, Hs.
Qed.

Lemma transform_nonempty sc v v' : StandardScaler.transform sc v = Ok v' → v ≠ [].
Proof. unfold StandardScaler.transform. by case_decide. Qed.

(** C8: an [AutoRegressor] constructed with [scale_target=True] keeps a
    scaler on the instance, and neither its training nor its test targets
    are empty.  As soon as one training target is a number, the scaler holds
    the mean [m] of the training targets that are numbers and their
    population deviation [s] (the square root of their variance, or one when
    that is zero), the ['target'] columns of the [train] and [test] frames
    hold [(y - m) / s] for every target [y] they held before, and the
    scaler's [inverse_transform] is [x * s + m] on every value, with the
    same [m] and [s]. *)
Theorem scale_target_standardizes (h h' : frames) (self : AutoRegressor.t)
    (num_cols cat_cols : list string) (target_col : string)
    (data train test : option loc) (random_st : Z) (log_target : bool)
    (estimator : estimator_param) (imputer_strategy : string)
    (use_catboost_native_cat_features : bool) (ohe_min_freq : Qc)
    (scale_numeric_data scale_categoric_data : bool) :
  AutoRegressor.__init__ num_cols cat_cols target_col data train test random_st
    log_target estimator imputer_strategy use_catboost_native_cat_features
    ohe_min_freq scale_numeric_data scale_categoric_data true h = (h', Ok self) →
  ∃ h1 sc dtr dte ctr cte vtr vte dtr' dte',
    load_frames target_col data train test random_st log_target h =
      (h1, Ok (AutoRegressor.data self, AutoRegressor.train self, AutoRegressor.test self)) ∧
    h1 !! AutoRegressor.train self = Some dtr ∧
    Pd.getitem "target" dtr = Ok ctr ∧ StandardScaler.numeric_values ctr = Ok vtr ∧
    h1 !! AutoRegressor.test self = Some dte ∧
    Pd.getitem "target" dte = Ok cte ∧ StandardScaler.numeric_values cte = Ok vte ∧
    vtr ≠ [] ∧ vte ≠ [] ∧
    AutoRegressor.target_scaler self = Some sc ∧
    h' !! AutoRegressor.train self = Some dtr' ∧
    h' !! AutoRegressor.test self = Some dte' ∧
    ∀ x, Some x ∈ vtr →
      ∃ m var s,
        is_mean (omap id vtr) m ∧ is_variance (omap id vtr) m var ∧
        s = (if decide (sqrt var = 0) then 1 else sqrt var) ∧ s ≠ 0 ∧
        StandardScaler.mean_ sc = Some m ∧ StandardScaler.scale_ sc = Some s ∧
        Pd.getitem "target" dtr' = Ok (Pd.CFloat <$> (standardize m s <$> vtr)) ∧
        Pd.getitem "target" dte' = Ok (Pd.CFloat <$> (standardize m s <$> vte)) ∧
        ∀ u, u ≠ [] →
          StandardScaler.inverse_transform sc u = Ok (descale m s <$> u).
Proof.
  unfold AutoRegressor.__init__. intros Hr.
  apply bind_Ok in Hr as ([[d tr] te] & h1 & Hload & Hr).
  apply bind_Ok in Hr as (osc & h2 & Hscale & Hr).
  apply bind_Ok in Hr as ([nt prep] & h3 & [-> Hprep]%lift_Ok & Hr).
  apply ret_Ok in Hr as [-> ->]. simpl.
  destruct (load_frames_distinct _ _ _ _ _ _ _ _ _ _ _ Hload) as (Hne & _ & _).
  unfold scale_targets in Hscale.
  apply bind_Ok in Hscale as (sc & h4 & Htr & Hscale).
  apply bind_Ok in Hscale as (sc' & h5 & Hte & Hscale).
  apply ret_Ok in Hscale as [-> ->].
  apply scale_column_Ok in Htr as (dtr & ctr & vtr & vtr' & dtr' & Hl & Hc & Hv & Hf & Hg & ->).
  apply scale_column_Ok in Hte as (dte & cte & vte & vte' & dte' & Hl' & Hc' & Hv' & Hf' & Hg' & ->).
  apply rbind_Ok in Hf as (sc0 & Hfit & Hf).
  apply rbind_Ok in Hf as (w & Htrans & [= -> <-]).
  apply rbind_Ok in Hf' as (w' & Htrans' & [= <- <-]).
  rewrite lookup_insert_ne in Hl' by done.
  pose proof (transform_nonempty _ _ _ Htrans) as Hvtr.
  pose proof (transform_nonempty _ _ _ Htrans') as Hvte.
  exists h1, sc, dtr, dte, ctr, cte, vtr, vte, dtr', dte'.
  split_and!; try done.
  - rewrite lookup_insert_ne by done. by rewrite lookup_insert_eq.
  - by rewrite lookup_insert_eq.
  - intros x Hx.
    destruct (fit_statistics _ _ _ Hfit Hx) as (m & var & Hmean & Hvar & Hm & Hs).
    set (s := if decide (sqrt var = 0) then 1 else sqrt var) in *.
    assert (s ≠ 0) as Hs0 by (unfold s; by case_decide).
    rewrite (transform_Ok _ _ _ _ Hvtr Hm Hs Hs0) in Htrans. injection Htrans as <-.
    rewrite (transform_Ok _ _ _ _ Hvte Hm Hs Hs0) in Htrans'. injection Htrans' as <-.
    exists m, var, s. split_and!; try done.
    intros u Hu. by apply inverse_transform_Ok.
Qed.

Lemma lookup_col_filter name n cols :
  name ≠ n →
  Pd.lookup_col name (filter (λ c : string * list Pd.cell, c.1 ≠ n) cols) =
    Pd.lookup_col name cols.
Proof.
  intros Hne. induction cols as [|c cols IH]; [done|].
  rewrite filter_cons. simpl. destruct (decide (c.1 ≠ n)) as [Hc|Hc]; simpl.
  - by rewrite IH.
  - rewrite IH. rewrite decide_False; [done|]. intros Heq. apply Hc. congruence.
Qed.

(** With [train] and [test] given, the ['target'] column of the instance's
    frames is the caller's target column. *)
Lemma load_frames_target target_col tr0 te0 random_st log_target
    (h h1 : frames) d tr te df1 :
  target_col ≠ "target" →
  h !! te0 = Some df1 →
  load_frames target_col None (Some tr0) (Some te0) random_st log_target h
    = (h1, Ok (d, tr, te)) →
  ∃ df0 dtr dte c0 c1,
    h !! tr0 = Some df0 ∧
    Pd.getitem target_col df0 = Ok c0 ∧ Pd.getitem target_col df1 = Ok c1 ∧
    h1 !! tr = Some dtr ∧ h1 !! te = Some dte ∧
    Pd.getitem "target" dtr = Ok c0 ∧ Pd.getitem "target" dte = Ok c1.
Proof.
  intros Hne Hte0 Hr. unfold load_frames in Hr.
  apply bind_Ok in Hr as (str & h2 & (s1 & d1 & [= <-] & Hs1 & Htr & ->)%copy_Ok & Hr).
  apply bind_Ok in Hr as ([] & h3 & (a1 & v1 & v1' & b1 & d2 & Hl1 & Hg1 & [= <-] & Hset1 & Hdrop1 & ->)%rename_target_Ok & Hr).
  apply bind_Ok in Hr as (ste & h4 & (s2 & d3 & [= <-] & Hs2 & Hte & ->)%copy_Ok & Hr).
  apply bind_Ok in Hr as ([] & h5 & (a2 & v2 & v2' & b2 & d4 & Hl2 & Hg2 & [= <-] & Hset2 & Hdrop2 & ->)%rename_target_Ok & Hr).
  apply bind_Ok in Hr as (ptr & h6 & [-> _]%lift_Ok & Hr).
  apply bind_Ok in Hr as (pte & h7 & [-> _]%lift_Ok & Hr).
  apply bind_Ok in Hr as (dtr & h8 & [-> _]%load_Ok & Hr).
  apply bind_Ok in Hr as (dte & h9 & [-> _]%load_Ok & Hr).
  apply bind_Ok in Hr as (sd & h10 & [Hd ->]%new_frame_Ok & Hr).
  apply ret_Ok in Hr as [-> [= -> -> ->]].
  rewrite lookup_insert_eq in Hl1. injection Hl1 as <-.
  rewrite lookup_insert_eq in Hl2. injection Hl2 as <-.
  assert (str ≠ ste) as Hne1.
  { intros ->. apply Hte. rewrite !dom_insert. set_solver. }
  assert (sd ≠ str ∧ sd ≠ ste) as [Hn1 Hn2].
  { split; intros ->; apply Hd; rewrite !dom_insert; set_solver. }
  assert (te0 ≠ str) as Hn3.
  { intros ->. apply Htr. apply elem_of_dom. by eexists. }
  rewrite insert_insert_eq in Hs2. rewrite lookup_insert_ne in Hs2 by done.
  rewrite Hte0 in Hs2. injection Hs2 as <-.
  assert (∀ c df a b, Pd.getitem target_col df = Ok c →
            Pd.setitem "target" c df = Ok a → Pd.drop target_col a = Ok b →
            Pd.getitem "target" b = Ok c) as Hren.
  { intros c df a b _ Hset Hdrop. unfold Pd.drop in Hdrop.
    case_decide; [|done]. injection Hdrop as <-. unfold Pd.getitem. simpl.
    rewrite lookup_col_filter by done. by apply getitem_setitem in Hset. }
  exists d1, d2, d4, v1, v2. split_and!; try done.
  - rewrite lookup_insert_ne by done. rewrite insert_insert_eq.
    rewrite lookup_insert_ne by done. rewrite insert_insert_eq.
    by rewrite lookup_insert_eq.
  - rewrite lookup_insert_ne by done. rewrite insert_insert_eq.
    by rewrite lookup_insert_eq.
  - by eapply Hren.
  - by eapply Hren.
Qed.

End AutoFacts.

Lemma constructors_leave_frames_unchanged_witness :
  Examples.auto_regressor_run.1 !! 0%nat = Examples.caller_frames !! 0%nat ∧
  Examples.auto_regressor_run.1 !! 1%nat = Examples.caller_frames !! 1%nat.
Proof.
  destruct (constructors_leave_frames_unchanged
              (numeric_ops := Examples.example_numeric)
              (tts_ops := Examples.example_train_test_split)
              Examples.caller_frames ["rooms"] [] "price" None (Some 0%nat) (Some 1%nat)
              42 false (EstName "linear") "simple" false (Examples.q 1) false false true)
    as [Hreg _].
  split.
  - destruct (Examples.caller_frames !! 0%nat) as [df|] eqn:Hdf; [|by vm_compute in Hdf].
    exact (Hreg 0%nat df Hdf).
  - destruct (Examples.caller_frames !! 1%nat) as [df|] eqn:Hdf; [|by vm_compute in Hdf].
    exact (Hreg 1%nat df Hdf).
Defined.

Lemma scale_target_standardizes_witness :
  ∃ h' self sc dtr' dte',
    Examples.auto_regressor_run = (h', Ok self) ∧
    AutoRegressor.target_scaler self = Some sc ∧
    StandardScaler.mean_ sc = Some (Examples.q 20) ∧
    StandardScaler.scale_ sc = Some (Examples.q 10) ∧
    h' !! AutoRegressor.train self = Some dtr' ∧
    Pd.getitem "target" dtr' = Ok [Pd.CFloat (Some (Examples.q (-1)));
                                   Pd.CFloat (Some (Examples.q 1))] ∧
    h' !! AutoRegressor.test self = Some dte' ∧
    Pd.getitem "target" dte' = Ok [Pd.CFloat (Some (Examples.q 0));
                                   Pd.CFloat (Some (Examples.q 2))] ∧
    StandardScaler.inverse_transform sc [Some (Examples.q (-1)); Some (Examples.q 1)]
      = Ok [descale (Examples.q 20) (Examples.q 10) (Some (Examples.q (-1)));
            descale (Examples.q 20) (Examples.q 10) (Some (Examples.q 1))].
Proof.
  destruct Examples.auto_regressor_run as [h' [self|e]] eqn:Hrun;
    [|by vm_compute in Hrun].
  destruct (scale_target_standardizes _ _ _ _ _ _ _ _ _ _ _ _ _ _ _ _ _ Hrun)
    as (h1 & sc & dtr & dte & ctr & cte & vtr & vte & dtr' & dte' & Hload & Hl & Hc & Hv
        & Hl' & Hc' & Hv' & Hne & Hne' & Hsc & Htr & Hte & Hstat).
  assert (h1 = (load_frames (numeric_ops := Examples.example_numeric)
                  (tts_ops := Examples.example_train_test_split)
                  "price" None (Some 0%nat) (Some 1%nat) 42 false
                  Examples.caller_frames).1
          ∧ AutoRegressor.train self = 2%nat ∧ AutoRegressor.test self = 3%nat)
    as (-> & Etr & Ete).
  { vm_compute in Hrun. injection Hrun as _ <-. rewrite Hload. by vm_compute. }
  rewrite Etr in Hl. rewrite Ete in Hl'.
  assert (vtr = [Some (Examples.q 10); Some (Examples.q 30)]) as ->.
  { vm_compute in Hl. injection Hl as <-. vm_compute in Hc. injection Hc as <-.
    vm_compute in Hv. by injection Hv as <-. }
  assert (vte = [Some (Examples.q 20); Some (Examples.q 40)]) as ->.
  { vm_compute in Hl'. injection Hl' as <-. vm_compute in Hc'. injection Hc' as <-.
    vm_compute in Hv'. by injection Hv' as <-. }
  destruct (Hstat (Examples.q 10)) as (m & var & s & [_ Hm] & [_ Hvar] & Hs & Hs0 & Hmean
                                       & Hscale & Hgtr & Hgte & Hinv); [by left|].
  assert (m = Examples.q 20) as ->.
  { trans (m * Qc_of_nat 2 / Qc_of_nat 2).
    - field. apply (bool_decide_unpack _); vm_compute; exact I.
    - change (Qc_of_nat 2) with
        (Qc_of_nat (length (omap id [Some (Examples.q 10); Some (Examples.q 30)]))) at 1.
      rewrite Hm. apply (bool_decide_unpack _); vm_compute; exact I. }
  assert (var = Examples.q 100) as ->.
  { trans (var * Qc_of_nat 2 / Qc_of_nat 2).
    - field. apply (bool_decide_unpack _); vm_compute; exact I.
    - change (Qc_of_nat 2) with
        (Qc_of_nat (length (omap id [Some (Examples.q 10); Some (Examples.q 30)]))) at 1.
      rewrite Hvar. apply (bool_decide_unpack _); vm_compute; exact I. }
  assert (s = Examples.q 10) as ->.
  { rewrite Hs. apply (bool_decide_unpack _); vm_compute; exact I. }
  exists h', self, sc, dtr', dte'. split; [reflexivity|].
  split_and!; try done.
  - rewrite Hgtr. apply (bool_decide_unpack _); vm_compute; exact I.
  - rewrite Hgte. apply (bool_decide_unpack _); vm_compute; exact I.
  - by rewrite Hinv.
Defined.

End AutoFacts.

(** ** The store of the cross-validators *)

Module StoreFacts.
Section StoreFacts.
Context {Row Est : Type}.
Context {est_ops : Estimator Est Row} {metric_ops : Metrics} {numeric_ops : Numeric}.
Context {Self : Type}.
Implicit Types (self : Self) (h : heap Est).

Lemma get_self_Ok self h s' a :
  get_self (self, h) = (s', Ok a) → s' = (self, h) ∧ a = self.
Proof. by intros [= <- <-]. Qed.

Lemma set_self_Ok (f : Self → Self) self h s' u :
  set_self f (self, h) = (s', Ok u) → s' = (f self, h).
Proof. by intros [= <-]. Qed.

Lemma new_Ok o self h s' l :
  new o (self, h) = (s', Ok l) → (l ∉ dom h) ∧ s' = (self, <[l:=o]> h).
Proof.
  unfold new. simpl. intros [= <- <-]. split; [|done]. apply is_fresh.
Qed.

Lemma load_est_Ok l self h s' e :
  load_est l (self, h) = (s', Ok e) → s' = (self, h) ∧ h !! l = Some (OEst e).
Proof.
  unfold load_est. simpl. intros Heq.
  repeat case_match; by simplify_eq.
Qed.

Lemma load_frame_Ok l self h s' df :
  load_frame l (self, h) = (s', Ok df) → s' = (self, h) ∧ h !! l = Some (OFrame df).
Proof.
  unfold load_frame. simpl. intros Heq.
  repeat case_match; by simplify_eq.
Qed.

Lemma store_Ok l o self h s' u :
  store l o (self, h) = (s', Ok u) → s' = (self, <[l:=o]> h).
Proof. by intros [= <-]. Qed.

Lemma deepcopy_Ok l self h s' l' :
  deepcopy l (self, h) = (s', Ok l') →
  ∃ e, h !! l = Some (OEst e) ∧ (l' ∉ dom h) ∧ s' = (self, <[l':=OEst e]> h).
Proof.
  unfold deepcopy. intros (e & s1 & [-> He]%load_est_Ok & [Hl ->]%new_Ok)%bind_Ok.
  by exists e.
Qed.

Lemma fit_in_place_Ok l X y kw self h s' u :
  fit_in_place l X y kw (self, h) = (s', Ok u) →
  ∃ e e', h !! l = Some (OEst e) ∧ est_fit e X y kw = Ok e' ∧
          s' = (self, <[l:=OEst e']> h).
Proof.
  unfold fit_in_place. intros (e & s1 & [-> He]%load_est_Ok & Hr)%bind_Ok.
  apply bind_Ok in Hr as (e' & s2 & [-> Hfit]%lift_Ok & ->%store_Ok).
  by exists e, e'.
Qed.

Lemma predict_with_run l X self h :
  predict_with l X (self, h) =
    ((self, h), match h !! l with
                | Some (OEst e) => est_predict e X
                | _ => Raise AttributeError
                end).
Proof.
  unfold predict_with, mbind, M_bind, load_est. simpl.
  destruct (h !! l) as [[e|df]|]; done.
Qed.

End StoreFacts.
End StoreFacts.

Import StoreFacts.

(** ** get_metrics_summary *)

Module SummaryFacts.
Section SummaryFacts.
Context {Row Est G Custom : Type}.
Context {est_ops : Estimator Est Row} {metric_ops : Metrics} {numeric_ops : Numeric}
  {split_ops : Splitting Row G Custom}.
Implicit Types (h : heap Est).

(** [RegressorCV.get_metrics_summary] in one step. *)
Lemma cv_summary_run (self : RegressorCV.t (G := G) (Custom := Custom)) h :
  RegressorCV.get_metrics_summary (self, h) =
    match RegressorCV.cv_results_ self with
    | RegressorCV.CvDict _ _ _ => ((self, h), Raise AttributeError)
    | RegressorCV.CvFrame l =>
        match h !! l with
        | Some (OFrame df) =>
            match summary_rows df with
            | Ok s => ((self, <[fresh (dom h):=OFrame s]> h), Ok (fresh (dom h)))
            | Raise e => ((self, h), Raise e)
            end
        | _ => ((self, h), Raise AttributeError)
        end
    end.
Proof.
  unfold RegressorCV.get_metrics_summary, mbind, M_bind, get_self. simpl.
  destruct (RegressorCV.cv_results_ self) as [f r m|l]; [done|].
  unfold load_frame. simpl. by destruct (h !! l) as [[e|df]|].
Qed.

(** [RegressorTimeSeriesCV.get_metrics_summary] in one step. *)
Lemma ts_summary_run (self : RegressorTimeSeriesCV.t (Custom := Custom)) h :
  RegressorTimeSeriesCV.get_metrics_summary (self, h) =
    match RegressorTimeSeriesCV.cv_results_ self with
    | RegressorTimeSeriesCV.CvList _ => ((self, h), Raise AttributeError)
    | RegressorTimeSeriesCV.CvFrame l =>
        match h !! l with
        | Some (OFrame df) =>
            match summary_rows df with
            | Ok s =>
                match RegressorTimeSeriesCV.astype_int RegressorTimeSeriesCV.int_cols s with
                | Ok s' => ((self, <[fresh (dom h):=OFrame s']> h), Ok (fresh (dom h)))
                | Raise e => ((self, <[fresh (dom h):=OFrame s]> h), Raise e)
                end
            | Raise e => ((self, h), Raise e)
            end
        | _ => ((self, h), Raise AttributeError)
        end
    end.
Proof.
  unfold RegressorTimeSeriesCV.get_metrics_summary, mbind, M_bind, get_self. simpl.
  destruct (RegressorTimeSeriesCV.cv_results_ self) as [rs|l]; [done|].
  unfold load_frame. simpl. destruct (h !! l) as [[e|df]|]; try done.
  unfold lift. destruct (summary_rows df) as [s|e]; [|done].
  unfold new, RegressorTimeSeriesCV.cast_int_cols, mbind, M_bind, load_frame. simpl.
  rewrite lookup_insert_eq. unfold lift.
  destruct (RegressorTimeSeriesCV.astype_int _ s) as [s'|e]; [|done].
  unfold store. simpl. by rewrite insert_insert_eq.
Qed.

Lemma insert_fresh_lookup h (o o' : obj Est) l :
  h !! l = Some o → <[fresh (dom h):=o']> h !! l = Some o.
Proof.
  intros Hl. rewrite lookup_insert_ne; [done|]. intros <-.
  apply (is_fresh (dom h)). apply elem_of_dom. by eexists.
Qed.

(** C6: [get_metrics_summary], of [RegressorCV] and of
    [RegressorTimeSeriesCV], leaves the instance and every stored object as
    they were (the fold results and the out-of-fold attributes among them);
    the table it returns is a new object, and a second call returns a table
    with the same content. *)
Theorem get_metrics_summary_idempotent :
  (∀ (self self1 : RegressorCV.t (G := G) (Custom := Custom)) h h1 m,
     RegressorCV.get_metrics_summary (self, h) = ((self1, h1), Ok m) →
     self1 = self ∧ (∀ l o, h !! l = Some o → h1 !! l = Some o) ∧
     ∃ summary h2 m2,
       h1 !! m = Some (OFrame summary) ∧
       RegressorCV.get_metrics_summary (self1, h1) = ((self, h2), Ok m2) ∧
       h2 !! m2 = Some (OFrame summary) ∧
       (∀ l o, h1 !! l = Some o → h2 !! l = Some o)) ∧
  (∀ (self self1 : RegressorTimeSeriesCV.t (Custom := Custom)) h h1 m,
     RegressorTimeSeriesCV.get_metrics_summary (self, h) = ((self1, h1), Ok m) →
     self1 = self ∧ (∀ l o, h !! l = Some o → h1 !! l = Some o) ∧
     ∃ summary h2 m2,
       h1 !! m = Some (OFrame summary) ∧
       RegressorTimeSeriesCV.get_metrics_summary (self1, h1) = ((self, h2), Ok m2) ∧
       h2 !! m2 = Some (OFrame summary) ∧
       (∀ l o, h1 !! l = Some o → h2 !! l = Some o)).
Proof.
  split.
  - intros self self1 h h1 m Hr. rewrite cv_summary_run in Hr.
    destruct (RegressorCV.cv_results_ self) as [f r ms|l] eqn:Hcv; [done|].
    destruct (h !! l) as [[e|df]|] eqn:Hl; try done.
    destruct (summary_rows df) as [s|e] eqn:Hs; [|done].
    injection Hr as <- <- <-.
    split; [done|]. split; [intros l' o; apply insert_fresh_lookup|].
    exists s, (<[fresh (dom (<[fresh (dom h):=OFrame s]> h)):=OFrame s]>
                 (<[fresh (dom h):=OFrame s]> h)),
           (fresh (dom (<[fresh (dom h):=OFrame s]> h))).
    split; [by rewrite lookup_insert_eq|].
    split; [|split; [by rewrite lookup_insert_eq | intros l' o; apply insert_fresh_lookup]].
    rewrite cv_summary_run, Hcv.
    rewrite (insert_fresh_lookup h _ (OFrame s) l Hl). by rewrite Hs.
  - intros self self1 h h1 m Hr. rewrite ts_summary_run in Hr.
    destruct (RegressorTimeSeriesCV.cv_results_ self) as [rs|l] eqn:Hcv; [done|].
    destruct (h !! l) as [[e|df]|] eqn:Hl; try done.
    destruct (summary_rows df) as [s|e] eqn:Hs; [|done].
    destruct (RegressorTimeSeriesCV.astype_int _ s) as [s'|e] eqn:Hc; [|done].
    injection Hr as <- <- <-.
    split; [done|]. split; [intros l' o; apply insert_fresh_lookup|].
    exists s', (<[fresh (dom (<[fresh (dom h):=OFrame s']> h)):=OFrame s']>
                  (<[fresh (dom h):=OFrame s']> h)),
           (fresh (dom (<[fresh (dom h):=OFrame s']> h))).
    split; [by rewrite lookup_insert_eq|].
    split; [|split; [by rewrite lookup_insert_eq | intros l' o; apply insert_fresh_lookup]].
    rewrite ts_summary_run, Hcv.
    rewrite (insert_fresh_lookup h _ (OFrame s') l Hl). by rewrite Hs, Hc.
Qed.

End SummaryFacts.
End SummaryFacts.

Import SummaryFacts.

(** ** RegressorCV.fit *)

Lemma mapM_id_Some {A} (l : list (option A)) (k : list A) :
  mapM id l = Some k → l = Some <$> k.
Proof.
  intros Hm. apply mapM_Some in Hm.
  induction Hm as [|x y l k Hx _ IH]; [done|]. simpl in Hx. by subst.
Qed.

Lemma take_rows_length {A} (a : list A) ind b :
  take_rows a ind = Ok b → length b = length ind.
Proof. intros Hb%rmapM_Ok_Forall2. symmetry. by eapply Forall2_length. Qed.

(** The validation inside the metrics: the predictions are one finite value
    per test target. *)
Lemma check_reg_targets_Ok y_true y_pred t p :
  check_reg_targets y_true y_pred = Ok (t, p) →
  flatten_outputs y_pred = Ok (Some <$> p) ∧ length p = length y_true ∧
  y_true = Some <$> t ∧ y_true ≠ [].
Proof.
  unfold check_reg_targets. intros (pf & Hflat & Hr)%rbind_Ok.
  case_decide as Hlen; [|done]. destruct Hlen as [Hlen Hne].
  destruct (mapM id y_true) as [t'|] eqn:Ht; [|done].
  destruct (mapM id pf) as [p'|] eqn:Hp; [|done].
  injection Hr as <- <-. apply mapM_id_Some in Ht, Hp. subst.
  rewrite !length_fmap in Hlen. by rewrite length_fmap.
Qed.

Section metric_facts.
Context {metric_ops : Metrics}.

Lemma reg_metrics_Ok {Row Est} {est_ops : Estimator Est Row} {numeric_ops : Numeric}
    y_true y_pred m :
  _reg_metrics y_true y_pred = Ok m →
  ∃ t p, check_reg_targets y_true y_pred = Ok (t, p).
Proof.
  unfold _reg_metrics, r2_score. intros (r2 & Hr2 & _)%rbind_Ok.
  apply rbind_Ok in Hr2 as ([t p] & Hc & _). by exists t, p.
Qed.

End metric_facts.

Lemma squeeze_write oof test m pf oof' :
  flatten_outputs (A2 m) = Ok pf → length pf = length test →
  iloc_set oof test (squeeze (A2 m)) = Ok oof' →
  oof' = write_vals oof test pf.
Proof.
  unfold flatten_outputs. case_decide as Hrows; [|done]. intros [= <-] Hlen.
  destruct m as [|r1 [|r2 m]].
  - simpl. unfold iloc_set. case_decide; [|done]. simpl.
    destruct test; [|done]. by intros [= <-].
  - apply Forall_cons in Hrows as [Hr1 _].
    destruct r1 as [|x [|x' r1]]; try done. simpl in *.
    destruct test as [|i [|i' test]]; try done.
    unfold iloc_set. case_decide; [|done]. by intros [= <-].
  - assert (squeeze (A2 (r1 :: r2 :: m)) = A1 (concat (r1 :: r2 :: m))) as ->.
    { unfold squeeze. destruct r1 as [|x [|x' r1]]; by rewrite decide_True. }
    unfold iloc_set. case_decide; [|done]. case_decide; [|done].
    by intros [= <-].
Qed.

Module CVFitFacts.
Section CVFitFacts.
Context {Row Est G Custom : Type}.
Context {est_ops : Estimator Est Row} {metric_ops : Metrics} {numeric_ops : Numeric}
  {split_ops : Splitting Row G Custom}.
Implicit Types (h : heap Est) (self : RegressorCV.t (G := G) (Custom := Custom)).
Import RegressorCV.

Lemma write_oof_Ok test a self h s' u :
  write_oof test a (self, h) = (s', Ok u) →
  ∃ oof oof', oof_train_ self = Some oof ∧ iloc_set oof test a = Ok oof' ∧
              s' = (set_oof_train (Some oof') self, h).
Proof.
  unfold write_oof. intros (self1 & s1 & [-> ->]%get_self_Ok & Hr)%bind_Ok.
  apply bind_Ok in Hr as (oof & s2 & [-> Hoof]%lift_Ok & Hr).
  apply bind_Ok in Hr as (oof' & s3 & [-> Hset]%lift_Ok & ->%set_self_Ok).
  destruct (oof_train_ self) as [o|] eqn:Ho; [|done]. injection Hoof as ->.
  by exists oof, oof'.
Qed.

Lemma append_results_Ok k reg ms self h s' u :
  append_results k reg ms (self, h) = (s', Ok u) →
  ∃ f r m, cv_results_ self = CvDict f r m ∧
           s' = (set_cv_results (CvDict (f ++ [k]) (r ++ [reg]) (m ++ [ms])) self, h).
Proof.
  unfold append_results. intros (self1 & s1 & [-> ->]%get_self_Ok & Hr)%bind_Ok.
  destruct (cv_results_ self) as [f r m|l]; [|done].
  apply set_self_Ok in Hr as ->. by exists f, r, m.
Qed.

Lemma verbose_block_Ok self (y_train y_test : list float)
    (s s' : state Est (@t G Custom)) u :
  ((if verbose self
    then if n_bins_stratify self is Some _
         then if groups self is Some _ then raise UnboundLocalError else mret ()
         else lift (pd_cut y_train 10);; lift (pd_cut y_test 10);; mret ()
    else mret ()) : M (state Est (@t G Custom)) unit) s = (s', Ok u) → s' = s.
Proof.
  destruct (verbose self); [|by intros [= <-]].
  destruct (n_bins_stratify self); [destruct (groups self); [done | by intros [= <-]]|].
  intros (? & s1 & [-> _]%lift_Ok & Hr)%bind_Ok.
  apply bind_Ok in Hr as (? & s2 & [-> _]%lift_Ok & Hr).
  by apply ret_Ok in Hr as [-> _].
Qed.

(** One iteration of the loop of [fit]. *)
Lemma fit_fold_Ok X y kw k train test self h self' h' f r m oof e0 :
  cv_results_ self = CvDict f r m → oof_train_ self = Some oof →
  h !! base_reg self = Some (OEst e0) →
  fit_fold X y kw (k, (train, test)) (self, h) = ((self', h'), Ok ()) →
  ∃ out,
    fold_fitted X y kw e0 h' (train, test) out ∧
    (fo_reg out ∉ dom h) ∧ h' = <[fo_reg out:=OEst (fo_est out)]> h ∧
    cv_results_ self' = CvDict (f ++ [k]) (r ++ [fo_reg out]) (m ++ [fo_metrics out]) ∧
    oof_train_ self' = Some (write_vals oof test (Some <$> fo_pred out)) ∧
    config self' = config self.
Proof.
  intros Hcv Hoof Hbase Hr. unfold fit_fold in Hr.
  apply bind_Ok in Hr as (self1 & s1 & [-> ->]%get_self_Ok & Hr).
  apply bind_Ok in Hr as (X_train & s2 & [-> HXtr]%lift_Ok & Hr).
  apply bind_Ok in Hr as (X_test & s3 & [-> HXte]%lift_Ok & Hr).
  apply bind_Ok in Hr as (y_train & s4 & [-> Hytr]%lift_Ok & Hr).
  apply bind_Ok in Hr as (y_test & s5 & [-> Hyte]%lift_Ok & Hr).
  apply bind_Ok in Hr as ([] & s6 & ->%verbose_block_Ok & Hr).
  apply bind_Ok in Hr as (reg & s7 & (e & He & Hfresh & ->)%deepcopy_Ok & Hr).
  rewrite Hbase in He. injection He as <-.
  apply bind_Ok in Hr as ([] & s8 & (e1 & e2 & He1 & Hfit & ->)%fit_in_place_Ok & Hr).
  rewrite lookup_insert_eq in He1. injection He1 as <-.
  rewrite insert_insert_eq in Hr.
  apply bind_Ok in Hr as ([ms y_pred] & s9 & Hmet & Hr).
  unfold _get_reg_metrics in Hmet.
  apply bind_Ok in Hmet as (y_pred' & s10 & Hpred & Hmet).
  rewrite predict_with_run, lookup_insert_eq in Hpred. injection Hpred as <- Hpred.
  apply bind_Ok in Hmet as (ms' & s11 & [-> Hms]%lift_Ok & [-> [= <- <-]]%ret_Ok).
  destruct (reg_metrics_Ok _ _ _ Hms) as (t & p & Hcheck).
  apply check_reg_targets_Ok in Hcheck as (Hflat & Hlen & Hyt & Hne).
  pose proof (take_rows_length _ _ _ Hyte) as Hlen'.
  apply bind_Ok in Hr as ([] & s12 & Hw1 & Hr).
  apply bind_Ok in Hr as ([] & s13 & Hw2 & Hr).
  assert (s13 = (set_oof_train (Some (write_vals oof test (Some <$> p))) self,
                 <[reg:=OEst e2]> h)) as ->.
  { destruct y_pred as [x|v|mm]; simpl in Hflat; [done| |].
    - injection Hflat as ->.
      apply write_oof_Ok in Hw1 as (o & o' & Ho & Hset & ->).
      apply ret_Ok in Hw2 as [-> _].
      rewrite Hoof in Ho. injection Ho as <-.
      unfold iloc_set in Hset. case_decide; [|done]. case_decide; [|done].
      by injection Hset as <-.
    - apply ret_Ok in Hw1 as [-> _].
      apply write_oof_Ok in Hw2 as (o & o' & Ho & Hset & ->).
      rewrite Hoof in Ho. injection Ho as <-.
      assert (length (Some <$> p) = length test) as Hl
        by (rewrite length_fmap; lia).
      by rewrite (squeeze_write _ _ _ _ _ Hflat Hl Hset). }
  apply append_results_Ok in Hr as (f' & r' & m' & Hcv' & [= -> ->]).
  simpl in Hcv'. rewrite Hcv in Hcv'. injection Hcv' as <- <- <-.
  exists {| fo_reg := reg; fo_est := e2; fo_pred := p; fo_metrics := ms |}.
  simpl. split_and!; try done.
  exists X_train, X_test, y_train, y_test, y_pred. simpl.
  split_and!; try done.
  - by rewrite lookup_insert_eq.
  - lia.
Qed.

Lemma fold_fitted_mono X y kw e0 h h' fold out :
  h ⊆ h' → fold_fitted X y kw e0 h fold out → fold_fitted X y kw e0 h' fold out.
Proof.
  intros Hsub (X_train & X_test & y_train & y_test & y_pred & H).
  exists X_train, X_test, y_train, y_test, y_pred.
  destruct_and!. split_and!; try done. by eapply lookup_weaken.
Qed.

(** The loop of [fit]: every fold leaves a fitted clone at a new location,
    nothing else in the store changes, and the predictions are written into
    the out-of-fold vector fold by fold. *)
Lemma fit_loop X y kw e0 folds :
  ∀ k0 self h self' h' f r m oof,
    cv_results_ self = CvDict f r m → oof_train_ self = Some oof →
    h !! base_reg self = Some (OEst e0) →
    forM (zip (seq k0 (length folds)) folds) (fit_fold X y kw) (self, h)
      = ((self', h'), Ok ()) →
    ∃ outs,
      Forall2 (fold_fitted X y kw e0 h') folds outs ∧
      Forall (λ out, fo_reg out ∉ dom h) outs ∧ NoDup (fo_reg <$> outs) ∧
      h ⊆ h' ∧
      cv_results_ self' = CvDict (f ++ seq k0 (length folds)) (r ++ (fo_reg <$> outs))
                            (m ++ (fo_metrics <$> outs)) ∧
      oof_train_ self' = Some (oof_after oof folds outs) ∧
      config self' = config self.
Proof.
  induction folds as [|[train test] folds IH];
    intros k0 self h self' h' f r m oof Hcv Hoof Hbase Hr.
  - apply ret_Ok in Hr as [[= -> ->] _]. exists []. simpl.
    rewrite !app_nil_r. split_and!; try done; constructor.
  - simpl in Hr. apply bind_Ok in Hr as ([] & [self1 h1] & Hstep & Hr).
    destruct (fit_fold_Ok _ _ _ _ _ _ _ _ _ _ _ _ _ _ _ Hcv Hoof Hbase Hstep)
      as (out & Hout & Hfresh & -> & Hcv1 & Hoof1 & Hcfg1).
    assert (base_reg self1 = base_reg self) as Hb by (by injection Hcfg1).
    assert (fo_reg out ≠ base_reg self) as Hne.
    { intros Heq. apply Hfresh. rewrite Heq. apply elem_of_dom. by eexists. }
    assert (<[fo_reg out:=OEst (fo_est out)]> h !! base_reg self1 = Some (OEst e0))
      as Hbase1.
    { rewrite Hb. by rewrite lookup_insert_ne. }
    destruct (IH (S k0) self1 _ self' h' _ _ _ _ Hcv1 Hoof1 Hbase1 Hr) as
      (outs & Hfolds & Hnew & Hnd & Hsub & Hcv' & Hoof' & Hcfg').
    exists (out :: outs). simpl.
    assert (h ⊆ <[fo_reg out:=OEst (fo_est out)]> h) as Hsub0.
    { apply insert_subseteq. by apply not_elem_of_dom. }
    split_and!.
    + constructor; [|done]. by eapply fold_fitted_mono.
    + constructor; [done|]. eapply Forall_impl; [exact Hnew|]. simpl.
      intros o Ho Hin. apply Ho. rewrite dom_insert. set_solver.
    + constructor; [|done]. intros Hin. apply list_elem_of_fmap in Hin as (o & Heq & Ho).
      rewrite Forall_forall in Hnew. apply (Hnew _ Ho). rewrite <-Heq.
      rewrite dom_insert. set_solver.
    + by etrans.
    + rewrite Hcv'. by rewrite <-!app_assoc.
    + rewrite Hoof'. done.
    + by rewrite Hcfg'.
Qed.

Lemma convert_report_Ok self h s' u f r ms :
  cv_results_ self = CvDict f r ms →
  _convert_report_to_df (self, h) = (s', Ok u) →
  ∃ l df, (l ∉ dom h) ∧ s' = (set_cv_results (CvFrame l) self, <[l:=OFrame df]> h) ∧
          Pd.getitem "reg" df = Ok (Pd.CRef <$> r).
Proof.
  intros Hcv Hr. unfold _convert_report_to_df in Hr.
  apply bind_Ok in Hr as (self1 & s1 & [-> ->]%get_self_Ok & Hr).
  rewrite Hcv in Hr.
  apply bind_Ok in Hr as (df & s2 & [-> Hdf]%lift_Ok & Hr).
  apply bind_Ok in Hr as (dm & s3 & [-> Hdm]%lift_Ok & Hr).
  apply bind_Ok in Hr as (df2 & s4 & [-> Hdf2]%lift_Ok & Hr).
  apply bind_Ok in Hr as (df3 & s5 & [-> Hdf3]%lift_Ok & Hr).
  apply bind_Ok in Hr as (l & s6 & [Hl ->]%new_Ok & ->%set_self_Ok).
  exists l, df3. split; [done|]. split; [done|].
  unfold Pd.from_columns in Hdf. case_decide; [|done]. injection Hdf as <-.
  unfold metrics_frame, Pd.from_columns in Hdm. case_decide; [|done].
  injection Hdm as <-.
  unfold Pd.concat_columns in Hdf2. case_decide; [|done]. injection Hdf2 as <-.
  unfold Pd.drop in Hdf3. case_decide; [|done]. injection Hdf3 as <-.
  reflexivity.
Qed.

(** What a completed [fit] of a fresh instance leaves behind. *)
Lemma fit_spec X y kw self h self' h' e0 :
  cv_results_ self = CvDict [] [] [] →
  h !! base_reg self = Some (OEst e0) →
  fit X y kw (self, h) = ((self', h'), Ok ()) →
  ∃ folds outs l df q,
    kf_split self X y = Ok folds ∧
    Forall2 (fold_fitted X y kw e0 h') folds outs ∧
    Forall (λ out, fo_reg out ∉ dom h) outs ∧ NoDup (fo_reg <$> outs) ∧
    h ⊆ h' ∧
    cv_results_ self' = CvFrame l ∧ h' !! l = Some (OFrame df) ∧
    Pd.getitem "reg" df = Ok (Pd.CRef <$> (fo_reg <$> outs)) ∧
    oof_train_ self' = Some (Some <$> q) ∧ length q = length y ∧
    Some <$> q = oof_after (replicate (length y) NaN) folds outs ∧
    config self' = config self.
Proof.
  intros Hcv Hbase Hr. unfold fit in Hr.
  apply bind_Ok in Hr as ([] & s1 & ->%set_self_Ok & Hr).
  apply bind_Ok in Hr as (self1 & s2 & [-> ->]%get_self_Ok & Hr).
  apply bind_Ok in Hr as (folds & s3 & [-> Hsplit]%lift_Ok & Hr).
  apply bind_Ok in Hr as ([] & [self2 h2] & Hloop & Hr).
  apply (fit_loop _ _ _ e0 _ 0%nat _ _ _ _ [] [] [] (replicate (length y) NaN))
    in Hloop as (outs & Hfolds & Hnew & Hnd & Hsub & Hcv2 & Hoof2 & Hcfg2);
    [|done..].
  apply bind_Ok in Hr as ([] & s4 & Hconv & Hr).
  apply (convert_report_Ok _ _ _ _ _ _ _ Hcv2) in Hconv as (l & df & Hl & -> & Hreg).
  apply bind_Ok in Hr as (self3 & s5 & [-> ->]%get_self_Ok & Hr).
  apply bind_Ok in Hr as (oof & s6 & [-> Hoof]%lift_Ok & Hr).
  simpl in Hoof. rewrite Hoof2 in Hoof. injection Hoof as <-.
  apply bind_Ok in Hr as (score & s7 & [-> Hscore]%lift_Ok & Hr).
  apply bind_Ok in Hr as (mape & s8 & [-> _]%lift_Ok & Hr).
  apply bind_Ok in Hr as (rmse & s9 & [-> _]%lift_Ok & Hr).
  apply bind_Ok in Hr as ([] & s10 & ->%set_self_Ok & Hr).
  apply bind_Ok in Hr as (m & [self4 h4] & Hsum & Hr).
  apply set_self_Ok in Hr as [= -> ->].
  rewrite cv_summary_run in Hsum. simpl in Hsum.
  rewrite lookup_insert_eq in Hsum.
  destruct (summary_rows df) as [sm|e]; [|done]. injection Hsum as <- <- <-.
  unfold r2_score in Hscore. apply rbind_Ok in Hscore as ([t p] & Hcheck & _).
  apply check_reg_targets_Ok in Hcheck as (Hflat & Hlen & _ & _).
  simpl in Hflat. injection Hflat as Hflat.
  assert (h2 ⊆ <[fresh (dom (<[l:=OFrame df]> h2)):=OFrame sm]> (<[l:=OFrame df]> h2))
    as Hsub2.
  { etrans; [apply insert_subseteq; by apply not_elem_of_dom|].
    apply insert_subseteq. apply not_elem_of_dom. apply is_fresh. }
  exists folds, outs, l, df, p. simpl. split_and!; try done.
  - eapply Forall2_impl; [exact Hfolds|]. intros fold out.
    by apply fold_fitted_mono.
  - by etrans.
  - apply insert_fresh_lookup. by rewrite lookup_insert_eq.
  - by rewrite Hoof2, Hflat.
Qed.

End CVFitFacts.
End CVFitFacts.

Import CVFitFacts.

(** ** Writing into the out-of-fold vector *)

Lemma write_vals_length s pos v : length (write_vals s pos v) = length s.
Proof.
  unfold write_vals. revert s v. induction pos as [|i pos IH]; intros s [|x v]; try done.
  simpl. rewrite IH. by rewrite length_insert.
Qed.

Lemma write_vals_other s pos v i :
  i ∉ pos → write_vals s pos v !! i = s !! i.
Proof.
  unfold write_vals. revert s v. induction pos as [|i0 pos IH]; intros s [|x v] Hi; try done.
  simpl. apply not_elem_of_cons in Hi as [Hne Hi]. rewrite IH by done.
  by rewrite list_lookup_insert_ne.
Qed.

Lemma write_vals_at s pos v p i x :
  NoDup pos → pos !! p = Some i → v !! p = Some x → (i < length s)%nat →
  write_vals s pos v !! i = Some x.
Proof.
  revert s v p. induction pos as [|i0 pos IH]; intros s [|x0 v] p Hnd Hp Hv Hi; try done.
  apply NoDup_cons in Hnd as [Hnotin Hnd].
  change (write_vals s (i0 :: pos) (x0 :: v)) with (write_vals (<[i0:=x0]> s) pos v).
  destruct p as [|p]; simpl in *.
  - injection Hp as ->. injection Hv as ->.
    rewrite write_vals_other by done. by rewrite list_lookup_insert_eq.
  - eapply IH; eauto. by rewrite length_insert.
Qed.

Lemma elem_of_concat {A} (x : A) (ls : list (list A)) :
  x ∈ concat ls ↔ ∃ l, x ∈ l ∧ l ∈ ls.
Proof.
  induction ls as [|l0 ls IH]; simpl.
  - split; [by intros ?%elem_of_nil | by intros (l & _ & ?%elem_of_nil)].
  - rewrite elem_of_app, IH. split.
    + intros [Hx | (l & Hx & Hl)]; [exists l0 | exists l]; split; try done;
        [left | by right].
    + intros (l & Hx & [-> | Hl]%elem_of_cons); [by left | right; by exists l].
Qed.

Lemma NoDup_concat_lookup {A} (ls : list (list A)) k k' p p' l l' x :
  NoDup (concat ls) →
  ls !! k = Some l → l !! p = Some x → ls !! k' = Some l' → l' !! p' = Some x →
  k = k' ∧ p = p'.
Proof.
  revert k k'. induction ls as [|l0 ls IH]; intros k k' Hnd Hk Hp Hk' Hp'; [done|].
  simpl in Hnd. apply NoDup_app in Hnd as (Hnd0 & Hdisj & Hnd).
  assert (∀ j m y, ls !! j = Some m → y ∈ m → y ∈ concat ls) as Hin.
  { intros j m y Hj Hy. apply elem_of_concat. exists m. split; [done|].
    apply list_elem_of_lookup. by exists j. }
  destruct k as [|k], k' as [|k']; simpl in *.
  - injection Hk as <-. injection Hk' as <-. split; [done|].
    exact (NoDup_lookup _ _ _ _ Hnd0 Hp Hp').
  - injection Hk as <-. exfalso. eapply Hdisj.
    + apply list_elem_of_lookup. by exists p.
    + eapply Hin; [done|]. apply list_elem_of_lookup. by exists p'.
  - injection Hk' as <-. exfalso. eapply Hdisj.
    + apply list_elem_of_lookup. by exists p'.
    + eapply Hin; [done|]. apply list_elem_of_lookup. by exists p.
  - destruct (IH k k') as [-> ->]; done.
Qed.

Module OofFacts.
Section OofFacts.
Context {Row Est G Custom : Type}.
Context {est_ops : Estimator Est Row} {metric_ops : Metrics} {numeric_ops : Numeric}
  {split_ops : Splitting Row G Custom}.
Implicit Types (h : heap Est) (self : RegressorCV.t (G := G) (Custom := Custom)).
Implicit Types (folds : list (list nat * list nat)) (outs : list (@fold_out Est)).
Import RegressorCV.

Lemma oof_after_other oof folds outs i :
  i ∉ concat (snd <$> folds) → oof_after oof folds outs !! i = oof !! i.
Proof.
  revert oof outs. induction folds as [|[tr te] folds IH]; intros oof [|out outs] Hi;
    try done.
  simpl in Hi. apply not_elem_of_app in Hi as [Hte Hi].
  change (oof_after oof ((tr, te) :: folds) (out :: outs)) with
    (oof_after (write_vals oof te (Some <$> fo_pred out)) folds outs).
  rewrite IH by done. by apply write_vals_other.
Qed.

Lemma oof_after_length oof folds outs :
  length (oof_after oof folds outs) = length oof.
Proof.
  revert oof outs. induction folds as [|[tr te] folds IH]; intros oof [|out outs];
    try done.
  change (oof_after oof ((tr, te) :: folds) (out :: outs)) with
    (oof_after (write_vals oof te (Some <$> fo_pred out)) folds outs).
  by rewrite IH, write_vals_length.
Qed.

Lemma oof_after_at oof folds outs k tr te out p i v :
  NoDup (concat (snd <$> folds)) →
  folds !! k = Some (tr, te) → outs !! k = Some out →
  te !! p = Some i → fo_pred out !! p = Some v → (i < length oof)%nat →
  oof_after oof folds outs !! i = Some (Some v).
Proof.
  revert oof outs k. induction folds as [|[tr0 te0] folds IH];
    intros oof [|out0 outs] k Hnd Hk Hout Hp Hv Hi; try done.
  simpl in Hnd. apply NoDup_app in Hnd as (Hnd0 & Hdisj & Hnd).
  change (oof_after oof ((tr0, te0) :: folds) (out0 :: outs)) with
    (oof_after (write_vals oof te0 (Some <$> fo_pred out0)) folds outs).
  destruct k as [|k]; simpl in *.
  - injection Hk as -> ->. injection Hout as ->.
    rewrite oof_after_other.
    + eapply write_vals_at; eauto. by rewrite list_lookup_fmap, Hv.
    + apply Hdisj. apply list_elem_of_lookup. by exists p.
  - eapply IH; eauto. by rewrite write_vals_length.
Qed.

(** C1: when the test sets of the folds partition the sample positions,
    after [fit] completes the out-of-fold vector has one entry per sample,
    none missing; the entry of a sample is the prediction made for it by the
    clone fitted in the one fold, at the one position, whose test set holds
    the sample; the test sets together cover every position and do not
    overlap. *)
Theorem oof_written_once_per_sample X y kw self h self' h' e0 folds :
  cv_results_ self = CvDict [] [] [] →
  h !! base_reg self = Some (OEst e0) →
  fit X y kw (self, h) = ((self', h'), Ok ()) →
  kf_split self X y = Ok folds →
  folds_partition (length y) folds →
  ∃ outs oof,
    Forall2 (fold_fitted X y kw e0 h') folds outs ∧
    oof_train_ self' = Some oof ∧ length oof = length y ∧
    (∀ i, (i < length y)%nat →
       ∃ k p tr te out v,
         folds !! k = Some (tr, te) ∧ te !! p = Some i ∧
         outs !! k = Some out ∧ fo_pred out !! p = Some v ∧
         oof !! i = Some (Fin v) ∧
         ∀ k' p' tr' te', folds !! k' = Some (tr', te') → te' !! p' = Some i →
                          k' = k ∧ p' = p) ∧
    (∀ i, (i < length y)%nat ↔ ∃ te, te ∈ (snd <$> folds) ∧ i ∈ te) ∧
    NoDup (concat (snd <$> folds)).
Proof.
  intros Hcv Hbase Hfit Hsplit Hpart.
  destruct (fit_spec _ _ _ _ _ _ _ _ Hcv Hbase Hfit) as
    (folds' & outs & l & df & q & Hsplit' & Hfolds & Hnew & Hndr & Hsub & Hcv' & Hl &
     Hreg & Hoof & Hlen & Hq & Hcfg).
  rewrite Hsplit in Hsplit'. injection Hsplit' as <-.
  unfold folds_partition in Hpart.
  assert (NoDup (concat (snd <$> folds))) as Hnd.
  { rewrite Hpart. apply NoDup_seq. }
  assert (∀ i, (i < length y)%nat ↔ i ∈ concat (snd <$> folds)) as Hcover.
  { intros i. rewrite Hpart, elem_of_seq. lia. }
  exists outs, (Some <$> q). split_and!; try done.
  - by rewrite length_fmap.
  - intros i Hi. apply Hcover in Hi as Hin.
    apply elem_of_concat in Hin as (te & Hite & Hte).
    apply list_elem_of_lookup in Hte as [k Hk].
    apply list_elem_of_lookup in Hite as [p Hp].
    rewrite list_lookup_fmap in Hk.
    destruct (folds !! k) as [[tr te']|] eqn:Hfold; [|done].
    simpl in Hk. injection Hk as ->.
    destruct (Forall2_lookup_l _ _ _ _ _ Hfolds Hfold) as (out & Hout & Hfitted).
    destruct Hfitted as (? & ? & ? & ? & ? & ? & ? & ? & ? & ? & ? & ? & ? & Hlp & ?).
    simpl in Hlp.
    destruct (lookup_lt_is_Some_2 (fo_pred out) p) as [v Hv].
    { rewrite Hlp. by eapply lookup_lt_Some. }
    exists k, p, tr, te, out, v. split_and!; try done.
    + rewrite Hq. eapply oof_after_at; eauto. by rewrite length_replicate.
    + intros k' p' tr' te' Hk' Hp'.
      eapply (NoDup_concat_lookup (snd <$> folds) k' k p' p te' te i); try done.
      * by rewrite list_lookup_fmap, Hk'.
      * by rewrite list_lookup_fmap, Hfold.
  - intros i. rewrite Hcover, elem_of_concat.
    split; intros (te & Ha & Hb); by exists te.
Qed.

End OofFacts.
End OofFacts.

(** ** The median across folds *)





Module PredictFacts.
Section PredictFacts.
Context {Row Est G Custom : Type}.
Context {est_ops : Estimator Est Row} {metric_ops : Metrics} {numeric_ops : Numeric}
  {split_ops : Splitting Row G Custom}.
Implicit Types (h : heap Est) (self : RegressorCV.t (G := G) (Custom := Custom)).
Implicit Types (folds : list (list nat * list nat)) (outs : list (@fold_out Est)).
Import RegressorCV.



End PredictFacts.
End PredictFacts.

(** ** RegressorTimeSeriesCV *)

Module TSFitFacts.
Section TSFitFacts.
Context {Row Est G Custom : Type}.
Context {est_ops : Estimator Est Row} {metric_ops : Metrics} {numeric_ops : Numeric}
  {split_ops : Splitting Row G Custom}.
Implicit Types (h : heap Est) (self : RegressorTimeSeriesCV.t (Custom := Custom)).
Implicit Types (folds : list (list nat * list nat)) (outs : list (@fold_out Est)).
Import RegressorTimeSeriesCV.

Lemma ts_fold_fitted_mono X y sw ev e0 h h' fold out :
  h ⊆ h' → fold_fitted X y sw ev e0 h fold out → fold_fitted X y sw ev e0 h' fold out.
Proof.
  intros Hsub (X_train & X_test & y_train & y_test & swt & y_pred & Hf).
  exists X_train, X_test, y_train, y_test, swt, y_pred.
  destruct_and!. split_and!; try done. by eapply lookup_weaken.
Qed.

(** One iteration of the loop of [fit]. *)
Lemma ts_fit_fold_Ok X y sw prev k train test self h self' h' rs e0 locals :
  cv_results_ self = CvList rs →
  h !! base_reg self = Some (OEst e0) →
  fit_fold X y sw prev (k, (train, test)) (self, h) = ((self', h'), Ok locals) →
  ∃ out rec,
    fold_fitted X y sw (catboost_use_eval_set self) e0 h' (train, test) out ∧
    (fo_reg out ∉ dom h) ∧ h' = <[fo_reg out:=OEst (fo_est out)]> h ∧
    cv_results_ self' = CvList (rs ++ [rec]) ∧ reg rec = fo_reg out ∧
    fold rec = k ∧ metrics rec = fo_metrics out ∧
    config self' = config self ∧ is_Some locals.
Proof.
  intros Hcv Hbase Hr. unfold fit_fold in Hr.
  apply bind_Ok in Hr as (self1 & s1 & [-> ->]%get_self_Ok & Hr).
  apply bind_Ok in Hr as (X_train & s2 & [-> HXtr]%lift_Ok & Hr).
  apply bind_Ok in Hr as (X_test & s3 & [-> HXte]%lift_Ok & Hr).
  apply bind_Ok in Hr as (y_train & s4 & [-> Hytr]%lift_Ok & Hr).
  apply bind_Ok in Hr as (y_test & s5 & [-> Hyte]%lift_Ok & Hr).
  apply bind_Ok in Hr as (swt & s6 & [-> Hsw]%lift_Ok & Hr).
  apply bind_Ok in Hr as (r & s7 & (e & He & Hfresh & ->)%deepcopy_Ok & Hr).
  rewrite Hbase in He. injection He as <-.
  apply bind_Ok in Hr as ([] & s8 & (e1 & e2 & He1 & Hfit & ->)%fit_in_place_Ok & Hr).
  rewrite lookup_insert_eq in He1. injection He1 as <-.
  rewrite insert_insert_eq in Hr.
  apply bind_Ok in Hr as ([ms y_pred] & s9 & Hmet & Hr).
  unfold _get_reg_metrics in Hmet.
  apply bind_Ok in Hmet as (y_pred' & s10 & Hpred & Hmet).
  rewrite predict_with_run, lookup_insert_eq in Hpred. injection Hpred as <- Hpred.
  apply bind_Ok in Hmet as (ms' & s11 & [-> Hms]%lift_Ok & [-> [= <- <-]]%ret_Ok).
  destruct (reg_metrics_Ok _ _ _ Hms) as (t & p & Hcheck).
  apply check_reg_targets_Ok in Hcheck as (Hflat & _).
  apply bind_Ok in Hr as (trs & s12 & [-> _]%lift_Ok & Hr).
  apply bind_Ok in Hr as (tre & s13 & [-> _]%lift_Ok & Hr).
  apply bind_Ok in Hr as (tes & s14 & [-> _]%lift_Ok & Hr).
  apply bind_Ok in Hr as (tee & s15 & [-> _]%lift_Ok & Hr).
  apply bind_Ok in Hr as (self2 & s16 & [-> ->]%get_self_Ok & Hr).
  rewrite Hcv in Hr.
  apply bind_Ok in Hr as ([] & s17 & ->%set_self_Ok & [[= -> ->] ->]%ret_Ok).
  exists {| fo_reg := r; fo_est := e2; fo_pred := p; fo_metrics := ms |}.
  eexists. simpl. split_and!; try done.
  exists X_train, X_test, y_train, y_test, swt, y_pred. simpl.
  split_and!; try done. by rewrite lookup_insert_eq.
Qed.

(** The loop of [fit]. *)
Lemma ts_fit_loop X y sw e0 folds :
  ∀ k0 prev self h self' h' rs locals,
    cv_results_ self = CvList rs →
    h !! base_reg self = Some (OEst e0) →
    foldM (fit_fold X y sw) prev (zip (seq k0 (length folds)) folds) (self, h)
      = ((self', h'), Ok locals) →
    ∃ outs recs,
      Forall2 (fold_fitted X y sw (catboost_use_eval_set self) e0 h') folds outs ∧
      Forall (λ out, fo_reg out ∉ dom h) outs ∧ NoDup (fo_reg <$> outs) ∧
      h ⊆ h' ∧
      cv_results_ self' = CvList (rs ++ recs) ∧ reg <$> recs = fo_reg <$> outs ∧
      config self' = config self.
Proof.
  induction folds as [|[train test] folds IH];
    intros k0 prev self h self' h' rs locals Hcv Hbase Hr.
  - apply ret_Ok in Hr as [[= -> ->] _]. exists [], []. simpl.
    rewrite app_nil_r. split_and!; try done; constructor.
  - change (zip (seq k0 (length ((train, test) :: folds))) ((train, test) :: folds))
      with ((k0, (train, test)) :: zip (seq (S k0) (length folds)) folds) in Hr.
    cbn [foldM] in Hr.
    apply bind_Ok in Hr as (locals1 & [self1 h1] & Hstep & Hr).
    destruct (ts_fit_fold_Ok _ _ _ _ _ _ _ _ _ _ _ _ _ _ Hcv Hbase Hstep)
      as (out & rec & Hout & Hfresh & -> & Hcv1 & Hrec & _ & _ & Hcfg1 & _).
    assert (base_reg self1 = base_reg self) as Hb by (by injection Hcfg1).
    assert (catboost_use_eval_set self1 = catboost_use_eval_set self) as Hev
      by (by injection Hcfg1).
    assert (fo_reg out ≠ base_reg self) as Hne.
    { intros Heq. apply Hfresh. rewrite Heq. apply elem_of_dom. by eexists. }
    assert (<[fo_reg out:=OEst (fo_est out)]> h !! base_reg self1 = Some (OEst e0))
      as Hbase1.
    { rewrite Hb. by rewrite lookup_insert_ne. }
    destruct (IH (S k0) _ self1 _ self' h' _ _ Hcv1 Hbase1 Hr) as
      (outs & recs & Hfolds & Hnew & Hnd & Hsub & Hcv' & Hrecs & Hcfg').
    exists (out :: outs), (rec :: recs).
    assert (h ⊆ <[fo_reg out:=OEst (fo_est out)]> h) as Hsub0.
    { apply insert_subseteq. by apply not_elem_of_dom. }
    split_and!.
    + constructor; [by eapply ts_fold_fitted_mono|]. by rewrite <-Hev.
    + constructor; [done|]. eapply Forall_impl; [exact Hnew|]. simpl.
      intros o Ho Hin. apply Ho. rewrite dom_insert. set_solver.
    + constructor; [|done]. intros Hin. apply list_elem_of_fmap in Hin as (o & Heq & Ho).
      rewrite Forall_forall in Hnew. apply (Hnew _ Ho). rewrite <-Heq.
      rewrite dom_insert. set_solver.
    + by etrans.
    + rewrite Hcv'. by rewrite <-app_assoc.
    + csimpl. by rewrite Hrec, Hrecs.
    + by rewrite Hcfg'.
Qed.

Lemma ts_convert_report_Ok self h s' u rs :
  cv_results_ self = CvList rs →
  _convert_report_to_df (self, h) = (s', Ok u) →
  ∃ l df, (l ∉ dom h) ∧ s' = (set_cv_results (CvFrame l) self, <[l:=OFrame df]> h) ∧
          Pd.getitem "reg" df = Ok (Pd.CRef ∘ reg <$> rs).
Proof.
  intros Hcv Hr. unfold _convert_report_to_df in Hr.
  apply bind_Ok in Hr as (self1 & s1 & [-> ->]%get_self_Ok & Hr).
  rewrite Hcv in Hr. destruct rs as [|r0 rs]; [done|].
  apply bind_Ok in Hr as (df & s2 & [-> Hdf]%lift_Ok & Hr).
  apply bind_Ok in Hr as (dm & s3 & [-> Hdm]%lift_Ok & Hr).
  apply bind_Ok in Hr as (df2 & s4 & [-> Hdf2]%lift_Ok & Hr).
  apply bind_Ok in Hr as (df3 & s5 & [-> Hdf3]%lift_Ok & Hr).
  apply bind_Ok in Hr as (l & s6 & [Hl ->]%new_Ok & ->%set_self_Ok).
  exists l, df3. split; [done|]. split; [done|].
  unfold Pd.from_columns in Hdf. case_decide; [|done]. injection Hdf as <-.
  unfold metrics_frame, Pd.from_columns in Hdm. case_decide; [|done].
  injection Hdm as <-.
  unfold Pd.concat_columns in Hdf2. case_decide; [|done]. injection Hdf2 as <-.
  unfold Pd.drop in Hdf3. case_decide; [|done]. injection Hdf3 as <-.
  reflexivity.
Qed.

(** C7: [fit] fits, for every fold, a clone of the base estimator (a new
    object, in the state of the base estimator before the call) on the
    training window; after the folds it fits the base estimator object
    itself, in place, on all the data; nothing else that existed before
    changes; and [predict] returns what that refitted base estimator
    predicts. *)
Theorem fit_refits_base_and_predict_delegates X y sw self h self' h' e0 :
  cv_results_ self = CvList [] →
  h !! base_reg self = Some (OEst e0) →
  fit (G := G) X y sw (self, h) = ((self', h'), Ok ()) →
  ∃ folds outs e1,
    split (_tss self) X None (None : option (list G)) = Ok folds ∧
    Forall2 (fold_fitted X y sw (catboost_use_eval_set self) e0 h') folds outs ∧
    Forall (λ out, fo_reg out ∉ dom h) outs ∧ NoDup (fo_reg <$> outs) ∧
    base_reg self' = base_reg self ∧
    est_fit e0 X y (full_fit_kwargs self X y sw) = Ok e1 ∧
    h' !! base_reg self = Some (OEst e1) ∧
    (∀ l o, h !! l = Some o → l ≠ base_reg self → h' !! l = Some o) ∧
    ∀ Xn, predict Xn (self', h') = ((self', h'), est_predict e1 Xn).
Proof.
  intros Hcv Hbase Hr. unfold fit in Hr.
  apply bind_Ok in Hr as (self1 & s1 & [-> ->]%get_self_Ok & Hr).
  apply bind_Ok in Hr as (folds & s2 & [-> Hsplit]%lift_Ok & Hr).
  apply bind_Ok in Hr as (locals & [self2 h2] & Hloop & Hr).
  apply (ts_fit_loop _ _ _ e0 _ 0%nat _ _ _ _ _ [] _ Hcv Hbase) in Hloop
    as (outs & recs & Hfolds & Hnew & Hnd & Hsub & Hcv2 & Hrecs & Hcfg2).
  apply bind_Ok in Hr as ([y_test y_pred] & s3 & [-> _]%lift_Ok & Hr).
  apply bind_Ok in Hr as ([] & s4 & ->%set_self_Ok & Hr).
  apply bind_Ok in Hr as ([] & s5 & (e & e1 & He & Hfit & ->)%fit_in_place_Ok & Hr).
  rewrite (lookup_weaken _ _ _ _ Hbase Hsub) in He. injection He as <-.
  apply bind_Ok in Hr as ([] & s6 & Hconv & Hr).
  apply (ts_convert_report_Ok (set_last_fold y_test y_pred self2) _ _ _ _ Hcv2)
    in Hconv as (l & df & Hl & -> & Hreg).
  apply bind_Ok in Hr as (m & [self3 h3] & Hsum & Hr).
  apply set_self_Ok in Hr as [= -> ->].
  rewrite ts_summary_run in Hsum. simpl in Hsum.
  rewrite lookup_insert_eq in Hsum.
  destruct (summary_rows df) as [sm|e]; [|done].
  destruct (astype_int int_cols sm) as [sm'|e]; [|done].
  injection Hsum as <- <- <-.
  assert (base_reg self2 = base_reg self) as Hb by (by injection Hcfg2).
  set (h3 := <[base_reg self:=OEst e1]> h2) in *.
  set (h4 := <[l:=OFrame df]> h3) in *.
  assert (h3 ⊆ <[fresh (dom h4):=OFrame sm']> h4) as Hsub3.
  { etrans; [apply (insert_subseteq h3 l (OFrame df)); by apply not_elem_of_dom|].
    apply insert_subseteq. apply not_elem_of_dom. apply is_fresh. }
  assert (h3 !! base_reg self = Some (OEst e1)) as Hbase3.
  { unfold h3. by rewrite lookup_insert_eq. }
  assert (∀ l' o, h2 !! l' = Some o → l' ≠ base_reg self → h3 !! l' = Some o) as Hkeep.
  { intros l' o Hl' Hne. unfold h3. by rewrite lookup_insert_ne. }
  exists folds, outs, e1. simpl. split_and!; try done.
  - clear -Hfolds Hnew Hsub3 Hkeep Hbase.
    induction Hfolds as [|fold out folds outs Hf _ IH]; [constructor|].
    apply Forall_cons in Hnew as [Hfresh Hnew].
    constructor; [|by apply IH].
    destruct Hf as (X_train & X_test & y_train & y_test & swt & y_pred & Hf).
    exists X_train, X_test, y_train, y_test, swt, y_pred.
    destruct_and!. split_and!; try done.
    eapply lookup_weaken; [|exact Hsub3]. apply Hkeep; [done|].
    intros Heq. apply Hfresh. rewrite Heq. apply elem_of_dom. by eexists.
  - by eapply lookup_weaken.
  - intros l' o Hl' Hne. eapply lookup_weaken; [|exact Hsub3].
    apply Hkeep; [|done]. by eapply lookup_weaken.
  - intros Xn. unfold predict.
    unfold mbind, M_bind, get_self. simpl. rewrite predict_with_run. simpl.
    rewrite Hb. by rewrite (lookup_weaken _ _ _ _ Hbase3 Hsub3).
Qed.

End TSFitFacts.
End TSFitFacts.

(** ** The theorems at concrete instances *)

Module Witnesses.
Import Examples.

Lemma oof_written_once_per_sample_witness :
  ∃ self' h' oof,
    cv_run = ((self', h'), Ok ()) ∧
    RegressorCV.oof_train_ self' = Some oof ∧ length oof = 6%nat ∧
    ∀ i, (i < 6)%nat → ∃ v, oof !! i = Some (Fin v).
Proof.
  destruct cv_run as [[self' h'] [[]|e]] eqn:Hrun; [|by vm_compute in Hrun].
  destruct (OofFacts.oof_written_once_per_sample
              (est_ops := mean_regressor) (metric_ops := example_metrics)
              (numeric_ops := example_numeric) (split_ops := example_splitting)
              cv_X cv_y no_kwargs cv_instance cv_store self' h' None
              [([1; 2; 4; 5], [0; 3]); ([0; 2; 3; 5], [1; 4]); ([0; 1; 3; 4], [2; 5])]%nat)
    as (outs & oof & Hfolds & Hoof & Hlen & Hwritten & Hcover & Hnd).
  - reflexivity.
  - reflexivity.
  - exact Hrun.
  - apply (bool_decide_unpack _); vm_compute; exact I.
  - unfold RegressorCV.folds_partition.
    apply (bool_decide_unpack _); vm_compute; exact I.
  - exists self', h', oof. split; [reflexivity|]. split; [exact Hoof|].
    split; [exact Hlen|]. intros i Hi.
    destruct (Hwritten i Hi) as (k & p & tr & te & out & v & Hw).
    exists v. apply Hw.
Defined.


(** On the example the three folds predict 11/2, 5 and 3/2 for a new
    sample: [predict] returns their median 5, not their mean 4. *)
Example predict_returns_median_not_mean :
  (RegressorCV.predict (est_ops := mean_regressor) [q 7] cv_run.1).2 = Ok (A1 [Fin (q 5)]) ∧
  Np.mean [q 11 / q 2; q 5; q 3 / q 2] = Fin (q 4).
Proof. split; apply (bool_decide_unpack _); vm_compute; exact I. Qed.

Lemma get_metrics_summary_idempotent_witness :
  ∃ self1 h1 m summary h2 m2,
    RegressorCV.get_metrics_summary (numeric_ops := example_numeric)
      (cv_run.1.1, cv_run.1.2) = ((self1, h1), Ok m) ∧
    self1 = cv_run.1.1 ∧ h1 !! m = Some (OFrame summary) ∧
    RegressorCV.get_metrics_summary (numeric_ops := example_numeric) (self1, h1)
      = ((cv_run.1.1, h2), Ok m2) ∧
    h2 !! m2 = Some (OFrame summary).
Proof.
  destruct (RegressorCV.get_metrics_summary (numeric_ops := example_numeric)
              (cv_run.1.1, cv_run.1.2)) as [[self1 h1] [m|e]] eqn:Hrun;
    [|by vm_compute in Hrun].
  destruct (SummaryFacts.get_metrics_summary_idempotent
              (Est := option Qc) (G := unit) (Custom := unit)
              (numeric_ops := example_numeric)) as [Hcv _].
  destruct (Hcv _ _ _ _ _ Hrun) as (Hself & Hkeep & summary & h2 & m2 & H1 & H2 & H3 & _).
  exists self1, h1, m, summary, h2, m2. split; [reflexivity|].
  split; [exact Hself|]. split; [exact H1|]. split; [exact H2 | exact H3].
Defined.

Lemma fit_refits_base_and_predict_delegates_witness :
  ∃ self' h' e1,
    ts_run = ((self', h'), Ok ()) ∧
    h' !! 0%nat = Some (OEst e1) ∧
    ∀ Xn, RegressorTimeSeriesCV.predict (est_ops := mean_regressor) Xn (self', h') =
            ((self', h'), est_predict (Estimator := mean_regressor) e1 Xn).
Proof.
  destruct ts_run as [[self' h'] [[]|e]] eqn:Hrun; [|by vm_compute in Hrun].
  destruct (TSFitFacts.fit_refits_base_and_predict_delegates
              (est_ops := mean_regressor) (metric_ops := example_metrics)
              (numeric_ops := example_numeric) (split_ops := example_splitting)
              cv_X cv_y None ts_instance cv_store self' h' None)
    as (folds & outs & e1 & Hsplit & Hfolds & Hnew & Hnd & Hbase & Hfit & Hl & Hkeep & Hp).
  - reflexivity.
  - reflexivity.
  - exact Hrun.
  - exists self', h', e1. split; [reflexivity|]. split; [exact Hl | exact Hp].
Defined.

End Witnesses.

(** * Further properties of the code *)

Import StoreFacts.

(** ** Invariants of method calls *)

Lemma preserves_bind {S A B} (P : S → Prop) (m : M S A) (k : A → M S B) Q R :
  preserves P m Q → (∀ a, Q a → preserves P (k a) R) → preserves P (m ≫= k) R.
Proof.
  intros Hm Hk s Hs. destruct (Hm s Hs) as [Hs1 Ha].
  unfold mbind, M_bind. destruct (m s) as [s1 [a|e]]; simpl in *; [|done].
  by apply Hk; [apply Ha|].
Qed.

Lemma preserves_weaken {S A} (P : S → Prop) (m : M S A) (Q Q' : A → Prop) :
  preserves P m Q → (∀ a, Q a → Q' a) → preserves P m Q'.
Proof. intros Hm HQ s Hs. destruct (Hm s Hs) as [? Ha]. split; [done|]. eauto. Qed.

Lemma preserves_ret {S A} (P : S → Prop) (a : A) (Q : A → Prop) :
  Q a → preserves P (mret a) Q.
Proof. intros Ha s Hs. split; [done|]. by intros ? [= <-]. Qed.

Lemma preserves_lift {S A} (P : S → Prop) (r : result A) :
  preserves P (lift r) (λ a, r = Ok a).
Proof. intros s Hs. by split. Qed.

Lemma preserves_raise {S A} (P : S → Prop) (e : exn) (Q : A → Prop) :
  preserves P (raise e) Q.
Proof. intros s Hs. by split. Qed.

Lemma preserves_forM {S A} (P : S → Prop) (l : list A) (body : A → M S unit) :
  (∀ a, preserves P (body a) (λ _, True)) → preserves P (forM l body) (λ _, True).
Proof.
  intros Hbody. induction l as [|a l IH]; simpl.
  - by apply preserves_ret.
  - eapply preserves_bind; [apply Hbody|]. by intros _ _.
Qed.

Lemma preserves_foldM {S A B} (P : S → Prop) (l : list A) (body : B → A → M S B) b :
  (∀ b a, preserves P (body b a) (λ _, True)) →
  preserves P (foldM body b l) (λ _, True).
Proof.
  intros Hbody. revert b. induction l as [|a l IH]; intros b; simpl.
  - by apply preserves_ret.
  - eapply preserves_bind; [apply Hbody|]. intros b' _. apply IH.
Qed.

(** ** What a call of [fit] never touches *)

Section store_invariants.
Context {Row Est : Type}.
Context {est_ops : Estimator Est Row} {metric_ops : Metrics} {numeric_ops : Numeric}.
Context {Self : Type}.
Variable h0 : heap Est.
Variable I : Self → Prop.

Local Abbreviation P := (store_inv h0 I).

Lemma preserves_get_self : preserves P get_self I.
Proof. intros [self h] [Hh HI]. split; [done|]. by intros ? [= <-]. Qed.

Lemma preserves_set_self (f : Self → Self) :
  (∀ self, I self → I (f self)) → preserves P (set_self f) (λ _, True).
Proof. intros Hf [self h] [Hh HI]. split; [|done]. split; [done|]. by apply Hf. Qed.

Lemma preserves_new (o : obj Est) : preserves P (new o) (λ l, l ∉ dom h0).
Proof.
  intros [self h] [Hh HI]. unfold new. simpl.
  assert (fresh (dom h) ∉ dom h0) as Hfresh.
  { intros Hin. apply (is_fresh (dom h)). by apply (subseteq_dom _ _ Hh). }
  split; [|by intros ? [= <-]]. split; [|done].
  etrans; [exact Hh|]. apply insert_subseteq. apply not_elem_of_dom. apply is_fresh.
Qed.

Lemma preserves_load_est (l : loc) : preserves P (load_est l) (λ _, True).
Proof. by intros [self h] HP. Qed.

Lemma preserves_load_frame (l : loc) : preserves P (load_frame l) (λ _, True).
Proof. by intros [self h] HP. Qed.

Lemma preserves_store (l : loc) (o : obj Est) :
  l ∉ dom h0 → preserves P (store l o) (λ _, True).
Proof.
  intros Hl [self h] [Hh HI]. split; [|done]. split; [|done]. simpl.
  apply map_subseteq_spec. intros i x Hi.
  rewrite lookup_insert_ne.
  - by eapply lookup_weaken.
  - intros <-. apply Hl. apply elem_of_dom. by eexists.
Qed.

Lemma preserves_deepcopy (l : loc) : preserves P (deepcopy l) (λ l', l' ∉ dom h0).
Proof.
  unfold deepcopy. eapply preserves_bind; [apply preserves_load_est|].
  intros e _. apply preserves_new.
Qed.

Lemma preserves_fit_in_place (l : loc) X y (kw : fit_kwargs Row) :
  l ∉ dom h0 → preserves P (fit_in_place l X y kw) (λ _, True).
Proof.
  intros Hl. unfold fit_in_place.
  eapply preserves_bind; [apply preserves_load_est|]. intros e _.
  eapply preserves_bind; [apply preserves_lift|]. intros e' _.
  by apply preserves_store.
Qed.

Lemma preserves_predict_with (l : loc) X : preserves P (predict_with l X) (λ _, True).
Proof.
  unfold predict_with.
  eapply preserves_bind; [apply preserves_load_est|]. intros e _.
  eapply preserves_weaken; [apply preserves_lift|done].
Qed.

Lemma preserves_get_reg_metrics (reg : loc) X y :
  preserves P (_get_reg_metrics reg X y) (λ _, True).
Proof.
  unfold _get_reg_metrics.
  eapply preserves_bind; [apply preserves_predict_with|]. intros y_pred _.
  eapply preserves_bind; [apply preserves_lift|]. intros m _.
  by apply preserves_ret.
Qed.

End store_invariants.

Module CVInvariants.
Section CVInvariants.
Context {Row Est G Custom : Type}.
Context {est_ops : Estimator Est Row} {metric_ops : Metrics} {numeric_ops : Numeric}
  {split_ops : Splitting Row G Custom}.
Implicit Types (h : heap Est) (self : RegressorCV.t (G := G) (Custom := Custom)).
Import RegressorCV.

Variable h0 : heap Est.
Variable I : RegressorCV.t (G := G) (Custom := Custom) → Prop.
(** [D] holds as soon as an instance that satisfies [I] can hold the dict
    of fold results. *)
Variable D : Prop.
Hypothesis I_dict : ∀ self f r m, I self → cv_results_ self = CvDict f r m → D.
Hypothesis I_oof_train : ∀ self v, I self → I (set_oof_train v self).
Hypothesis I_oof_metrics : ∀ self a b c, I self → I (set_oof_metrics a b c self).
Hypothesis I_metrics : ∀ self m, I self → I (set_metrics m self).
Hypothesis I_cv_results : ∀ self r', D → I self → I (set_cv_results r' self).

Local Abbreviation P := (store_inv h0 I).

Lemma preserves_set_cv_results r' :
  D → preserves P (set_self (set_cv_results r')) (λ _, D).
Proof.
  intros HD [self h] [Hh HI]. split; [|done]. split; [done|]. by apply I_cv_results.
Qed.

Lemma preserves_write_oof test a : preserves P (write_oof test a) (λ _, True).
Proof.
  unfold write_oof.
  eapply preserves_bind; [apply preserves_get_self|]. intros self HI.
  eapply preserves_bind; [apply preserves_lift|]. intros oof _.
  eapply preserves_bind; [apply preserves_lift|]. intros oof' _.
  apply preserves_set_self. intros. by apply I_oof_train.
Qed.

Lemma preserves_append_results k reg ms :
  preserves P (append_results k reg ms) (λ _, D).
Proof.
  unfold append_results.
  eapply preserves_bind; [apply preserves_get_self|]. intros self HI.
  destruct (cv_results_ self) as [f r m|l] eqn:Hcv; [|apply preserves_raise].
  apply preserves_set_cv_results. by eapply I_dict.
Qed.

Lemma preserves_convert_report : preserves P _convert_report_to_df (λ _, D).
Proof.
  unfold _convert_report_to_df.
  eapply preserves_bind; [apply preserves_get_self|]. intros self HI.
  destruct (cv_results_ self) as [f r m|l] eqn:Hcv; [|apply preserves_raise].
  eapply preserves_bind; [apply preserves_lift|]. intros df _.
  eapply preserves_bind; [apply preserves_lift|]. intros dm _.
  eapply preserves_bind; [apply preserves_lift|]. intros df2 _.
  eapply preserves_bind; [apply preserves_lift|]. intros df3 _.
  eapply preserves_bind; [apply (preserves_new h0 I)|]. intros l _.
  apply preserves_set_cv_results. by eapply I_dict.
Qed.

Lemma preserves_get_metrics_summary :
  preserves P get_metrics_summary (λ l, l ∉ dom h0).
Proof.
  unfold get_metrics_summary.
  eapply preserves_bind; [apply preserves_get_self|]. intros self HI.
  destruct (cv_results_ self) as [f r m|l] eqn:Hcv; [apply preserves_raise|].
  eapply preserves_bind; [apply preserves_load_frame|]. intros df _.
  eapply preserves_bind; [apply preserves_lift|]. intros sm _.
  apply preserves_new.
Qed.

Lemma preserves_fit_fold X y kw it : preserves P (fit_fold X y kw it) (λ _, D).
Proof.
  destruct it as [fold_n [train_index test_index]]. unfold fit_fold.
  eapply preserves_bind; [apply preserves_get_self|]. intros self HI.
  eapply preserves_bind; [apply preserves_lift|]. intros X_train _.
  eapply preserves_bind; [apply preserves_lift|]. intros X_test _.
  eapply preserves_bind; [apply preserves_lift|]. intros y_train _.
  eapply preserves_bind; [apply preserves_lift|]. intros y_test _.
  eapply preserves_bind.
  { instantiate (1 := λ _, True).
    destruct (verbose self); [|by apply preserves_ret].
    destruct (n_bins_stratify self);
      [destruct (groups self); [apply preserves_raise | by apply preserves_ret]|].
    eapply preserves_bind; [apply preserves_lift|]. intros ? _.
    eapply preserves_bind; [apply preserves_lift|]. intros ? _.
    by apply preserves_ret. }
  intros _ _.
  eapply preserves_bind; [apply (preserves_deepcopy h0 I)|]. intros reg Hreg.
  eapply preserves_bind; [by apply (preserves_fit_in_place h0 I)|]. intros _ _.
  eapply preserves_bind; [apply (preserves_get_reg_metrics h0 I)|].
  intros [metrics y_pred] _.
  eapply preserves_bind.
  { instantiate (1 := λ _, True).
    destruct y_pred; try by apply preserves_ret. apply preserves_write_oof. }
  intros _ _.
  eapply preserves_bind.
  { instantiate (1 := λ _, True).
    destruct y_pred; try by apply preserves_ret. apply preserves_write_oof. }
  intros _ _.
  apply preserves_append_results.
Qed.

(** [fit]: the store keeps extending [h0], the instance keeps satisfying
    [I], and [fit] returns only if the instance held the dict of fold
    results along the way. *)
Lemma preserves_fit X y kw : preserves P (fit X y kw) (λ _, D).
Proof.
  unfold fit.
  eapply preserves_bind.
  { apply preserves_set_self. intros. by apply I_oof_train. }
  intros _ _.
  eapply preserves_bind; [apply preserves_get_self|]. intros self HI.
  eapply preserves_bind; [apply preserves_lift|]. intros folds _.
  eapply preserves_bind.
  { apply preserves_forM. intros it.
    eapply preserves_weaken; [apply preserves_fit_fold|done]. }
  intros _ _.
  eapply preserves_bind; [apply preserves_convert_report|]. intros ? HD. simpl in HD.
  eapply preserves_bind; [apply preserves_get_self|]. intros self1 HI1.
  eapply preserves_bind; [apply preserves_lift|]. intros oof _.
  eapply preserves_bind; [apply preserves_lift|]. intros score _.
  eapply preserves_bind; [apply preserves_lift|]. intros mape _.
  eapply preserves_bind; [apply preserves_lift|]. intros rmse _.
  eapply preserves_bind.
  { apply preserves_set_self. intros. by apply I_oof_metrics. }
  intros _ _.
  eapply preserves_bind; [apply preserves_get_metrics_summary|]. intros m _.
  eapply preserves_weaken.
  { apply preserves_set_self. intros. by apply I_metrics. }
  done.
Qed.

End CVInvariants.
End CVInvariants.

Module CVStoreFacts.
Section CVStoreFacts.
Context {Row Est G Custom : Type}.
Context {est_ops : Estimator Est Row} {metric_ops : Metrics} {numeric_ops : Numeric}
  {split_ops : Splitting Row G Custom}.
Implicit Types (h : heap Est) (self : RegressorCV.t (G := G) (Custom := Custom)).
Import RegressorCV.

(** X1: [RegressorCV.fit], whether it returns or raises, leaves every object
    that existed before the call as it was -- the base estimator among them,
    which is never fitted itself -- and never changes the constructor
    arguments of the instance. *)
Theorem fit_leaves_existing_objects X y kw self h :
  (∀ l o, h !! l = Some o → (fit X y kw (self, h)).1.2 !! l = Some o) ∧
  config (fit X y kw (self, h)).1.1 = config self.
Proof.
  destruct (CVInvariants.preserves_fit h (λ s, config s = config self) True)
    with (X := X) (y := y) (kw := kw) (s := (self, h)) as [[Hh Hc] _]; try done.
  split; [|done]. intros l o Hl. by eapply lookup_weaken.
Qed.

(** [predict] in one step: it asks the estimators listed in the frame of
    fold results, in order, and leaves the state as it is. *)
Lemma predict_run_frame Xn self h :
  predict Xn (self, h) =
    ((self, h),
     match cv_results_ self with
     | CvDict _ _ _ => Raise AttributeError
     | CvFrame l =>
         match h !! l with
         | Some (OFrame df) =>
             regs ← Pd.getitem "reg" df;
             y_preds ← rmapM (λ c,
               match c with
               | Pd.CRef reg =>
                   match h !! reg with
                   | Some (OEst e) => est_predict e Xn
                   | _ => Raise AttributeError
                   end
               | _ => Raise AttributeError
               end) regs;
             median_axis0 y_preds
         | _ => Raise AttributeError
         end
     end).
Proof.
  unfold predict, mbind at 1, M_bind at 1, get_self. simpl.
  destruct (cv_results_ self) as [f r m|l]; [done|].
  unfold mbind at 1, M_bind at 1, load_frame. simpl.
  destruct (h !! l) as [[e|df]|]; try done.
  unfold mbind at 1, M_bind at 1, lift.
  destruct (Pd.getitem "reg" df) as [regs|e]; [|done]. simpl.
  assert (foldr (λ c rest,
            match c with
            | Pd.CRef reg => p ← predict_with reg Xn; ps ← rest; mret (p :: ps)
            | _ => raise AttributeError
            end) (mret []) regs (self, h) =
          ((self, h), rmapM (λ c,
               match c with
               | Pd.CRef reg =>
                   match h !! reg with
                   | Some (OEst e) => est_predict e Xn
                   | _ => Raise AttributeError
                   end
               | _ => Raise AttributeError
               end) regs)) as Hcollect.
  { induction regs as [|c regs IH]; [done|]. simpl.
    destruct c as [| | |reg|]; try done.
    unfold mbind at 1, M_bind at 1. rewrite predict_with_run.
    destruct (match h !! reg with Some (OEst e) => est_predict e Xn
              | _ => Raise AttributeError end) as [p|e]; [|done]. simpl.
    unfold mbind at 1, M_bind at 1. rewrite IH.
    by destruct (rmapM _ regs). }
  unfold mbind at 1, M_bind at 1. rewrite Hcollect.
  by destruct (rmapM _ regs).
Qed.

Lemma rmapM_mono {A B} (f g : A → result B) (l : list A) k :
  (∀ a b, f a = Ok b → g a = Ok b) → rmapM f l = Ok k → rmapM g l = Ok k.
Proof.
  intros Hfg. rewrite !rmapM_Ok_Forall2. intros Hf.
  eapply Forall2_impl; [exact Hf|]. eauto.
Qed.

Lemma predict_mono Xn self self' h h' r :
  cv_results_ self' = cv_results_ self → h ⊆ h' →
  predict Xn (self, h) = ((self, h), Ok r) →
  predict Xn (self', h') = ((self', h'), Ok r).
Proof.
  intros Hcv Hsub. rewrite !predict_run_frame, Hcv. intros [= Hr]. f_equal.
  destruct (cv_results_ self) as [f rr m|l]; [done|].
  destruct (h !! l) as [[e|df]|] eqn:Hl; try done.
  rewrite (lookup_weaken _ _ _ _ Hl Hsub).
  apply rbind_Ok in Hr as (regs & -> & Hr). simpl.
  apply rbind_Ok in Hr as (ys & Hys & Hr).
  erewrite rmapM_mono; [exact Hr| |exact Hys].
  intros c b. simpl. destruct c as [| | |reg|]; try done.
  destruct (h !! reg) as [[e|df']|] eqn:Hreg; try done.
  by rewrite (lookup_weaken _ _ _ _ Hreg Hsub).
Qed.

(** X2: [fit] cannot be called twice: on an instance whose fold results are
    already a frame it always raises.  The first fit survives the failed
    call: the frame of fold results and every stored object are unchanged,
    and [predict] still returns what it returned before. *)
Theorem refit_raises_and_keeps_first_fit X y kw self h l :
  cv_results_ self = CvFrame l →
  ∃ self' h' e,
    fit X y kw (self, h) = ((self', h'), Raise e) ∧
    cv_results_ self' = CvFrame l ∧
    (∀ l o, h !! l = Some o → h' !! l = Some o) ∧
    ∀ Xn r, predict Xn (self, h) = ((self, h), Ok r) →
            predict Xn (self', h') = ((self', h'), Ok r).
Proof.
  intros Hcv.
  destruct (CVInvariants.preserves_fit h (λ s, cv_results_ s = CvFrame l) False)
    with (X := X) (y := y) (kw := kw) (s := (self, h)) as [[Hh Hc] Hret];
    try done.
  { intros s f r m Hs Hd. by rewrite Hs in Hd. }
  destruct (fit X y kw (self, h)) as [[self' h'] [[]|e]] eqn:Hfit; simpl in *.
  { by destruct (Hret ()). }
  exists self', h', e. split_and!; try done.
  - intros l' o Hl. by eapply lookup_weaken.
  - intros Xn r Hp. eapply predict_mono; [|done..]. by rewrite Hc, Hcv.
Qed.

End CVStoreFacts.
End CVStoreFacts.

Import StoreFacts.

Lemma preserves_foldM_until {S A B} (P : S → Prop) (D : Prop) (l : list A)
    (body : B → A → M S B) b :
  (∀ b a, preserves P (body b a) (λ _, D)) →
  preserves P (foldM body b l) (λ r, r = b ∨ D).
Proof.
  intros Hbody. revert b. induction l as [|a l IH]; intros b; simpl.
  - apply preserves_ret. by left.
  - eapply preserves_bind; [apply Hbody|]. intros b' HD.
    eapply preserves_weaken; [apply IH|]. intros; by right.
Qed.

Module TSInvariants.
Section TSInvariants.
Context {Row Est G Custom : Type}.
Context {est_ops : Estimator Est Row} {metric_ops : Metrics} {numeric_ops : Numeric}
  {split_ops : Splitting Row G Custom}.
Implicit Types (h : heap Est) (self : RegressorTimeSeriesCV.t (Custom := Custom)).
Import RegressorTimeSeriesCV.

Variable h0 : heap Est.
Variable I : RegressorTimeSeriesCV.t (Custom := Custom) → Prop.
(** [D] holds as soon as an instance that satisfies [I] can hold the list
    of fold results. *)
Variable D : Prop.
Hypothesis I_list : ∀ self rs, I self → cv_results_ self = CvList rs → D.
Hypothesis I_base : ∀ self, D → I self → base_reg self ∉ dom h0.
Hypothesis I_last_fold : ∀ self a b, I self → I (set_last_fold a b self).
Hypothesis I_metrics : ∀ self m, I self → I (set_metrics m self).
Hypothesis I_cv_results : ∀ self r', D → I self → I (set_cv_results r' self).

Local Abbreviation P := (store_inv h0 I).

Lemma ts_preserves_set_cv_results r' :
  D → preserves P (set_self (set_cv_results r')) (λ _, D).
Proof.
  intros HD [self h] [Hh HI]. split; [|done]. split; [done|]. by apply I_cv_results.
Qed.

Lemma ts_preserves_convert_report : preserves P _convert_report_to_df (λ _, D).
Proof.
  unfold _convert_report_to_df.
  eapply preserves_bind; [apply preserves_get_self|]. intros self HI.
  destruct (cv_results_ self) as [[|r0 rs]|l] eqn:Hcv; try apply preserves_raise.
  eapply preserves_bind; [apply preserves_lift|]. intros df _.
  eapply preserves_bind; [apply preserves_lift|]. intros dm _.
  eapply preserves_bind; [apply preserves_lift|]. intros df2 _.
  eapply preserves_bind; [apply preserves_lift|]. intros df3 _.
  eapply preserves_bind; [apply (preserves_new h0 I)|]. intros l _.
  apply ts_preserves_set_cv_results. by eapply I_list.
Qed.

Lemma ts_preserves_get_metrics_summary :
  preserves P get_metrics_summary (λ l, l ∉ dom h0).
Proof.
  unfold get_metrics_summary.
  eapply preserves_bind; [apply preserves_get_self|]. intros self HI.
  destruct (cv_results_ self) as [rs|l] eqn:Hcv; [apply preserves_raise|].
  eapply preserves_bind; [apply preserves_load_frame|]. intros df _.
  eapply preserves_bind; [apply preserves_lift|]. intros sm _.
  eapply preserves_bind; [apply (preserves_new h0 I)|]. intros m Hm.
  eapply preserves_bind.
  { instantiate (1 := λ _, True). unfold cast_int_cols.
    eapply preserves_bind; [apply preserves_load_frame|]. intros df' _.
    eapply preserves_bind; [apply preserves_lift|]. intros df'' _.
    by apply preserves_store. }
  intros _ _. by apply preserves_ret.
Qed.

Lemma ts_preserves_fit_fold X y sw prev it :
  preserves P (fit_fold X y sw prev it) (λ _, D).
Proof.
  destruct it as [fold_n [train_index test_index]]. unfold fit_fold.
  eapply preserves_bind; [apply preserves_get_self|]. intros self HI.
  eapply preserves_bind; [apply preserves_lift|]. intros X_train _.
  eapply preserves_bind; [apply preserves_lift|]. intros X_test _.
  eapply preserves_bind; [apply preserves_lift|]. intros y_train _.
  eapply preserves_bind; [apply preserves_lift|]. intros y_test _.
  eapply preserves_bind; [apply preserves_lift|]. intros swt _.
  eapply preserves_bind; [apply (preserves_deepcopy h0 I)|]. intros reg Hreg.
  eapply preserves_bind; [by apply (preserves_fit_in_place h0 I)|]. intros _ _.
  eapply preserves_bind; [apply (preserves_get_reg_metrics h0 I)|].
  intros [metrics y_pred] _.
  eapply preserves_bind; [apply preserves_lift|]. intros trs _.
  eapply preserves_bind; [apply preserves_lift|]. intros tre _.
  eapply preserves_bind; [apply preserves_lift|]. intros tes _.
  eapply preserves_bind; [apply preserves_lift|]. intros tee _.
  eapply preserves_bind; [apply preserves_get_self|]. intros self1 HI1.
  destruct (cv_results_ self1) as [rs|l] eqn:Hcv.
  - eapply preserves_bind; [apply ts_preserves_set_cv_results; by eapply I_list|].
    intros ? HD. by apply preserves_ret.
  - eapply preserves_bind; [apply (preserves_raise _ _ (λ _, D))|]. intros ? HD.
    by apply preserves_ret.
Qed.

Lemma ts_preserves_fit X y sw : preserves P (fit X y sw) (λ _, D).
Proof.
  unfold fit.
  eapply preserves_bind; [apply preserves_get_self|]. intros self HI.
  eapply preserves_bind; [apply preserves_lift|]. intros folds _.
  eapply preserves_bind.
  { apply preserves_foldM_until. intros. apply ts_preserves_fit_fold. }
  intros locals Hlocals.
  eapply preserves_bind; [apply preserves_lift|]. intros [y_test y_pred] Hl.
  assert D as HD.
  { destruct Hlocals as [->|?]; [done|done]. }
  eapply preserves_bind.
  { apply preserves_set_self. intros. by apply I_last_fold. }
  intros _ _.
  eapply preserves_bind.
  { apply (preserves_fit_in_place h0 I). by apply I_base. }
  intros _ _.
  eapply preserves_bind; [apply ts_preserves_convert_report|]. intros ? _.
  eapply preserves_bind; [apply ts_preserves_get_metrics_summary|]. intros m _.
  eapply preserves_weaken.
  { apply preserves_set_self. intros. by apply I_metrics. }
  done.
Qed.

End TSInvariants.
End TSInvariants.

Module TSStoreFacts.
Section TSStoreFacts.
Context {Row Est G Custom : Type}.
Context {est_ops : Estimator Est Row} {metric_ops : Metrics} {numeric_ops : Numeric}
  {split_ops : Splitting Row G Custom}.
Implicit Types (h : heap Est) (self : RegressorTimeSeriesCV.t (Custom := Custom)).
Import RegressorTimeSeriesCV.

(** X3: [RegressorTimeSeriesCV.fit], whether it returns or raises, changes no
    object that existed before the call other than the base estimator, and
    never changes the constructor arguments of the instance. *)
Theorem ts_fit_only_touches_base_estimator X y sw self h :
  (∀ l o, h !! l = Some o → l ≠ base_reg self →
          (fit (G := G) X y sw (self, h)).1.2 !! l = Some o) ∧
  config (fit (G := G) X y sw (self, h)).1.1 = config self.
Proof.
  destruct (TSInvariants.ts_preserves_fit (G := G) (delete (base_reg self) h)
              (λ s, config s = config self) True)
    with (X := X) (y := y) (sw := sw) (s := (self, h)) as [[Hh Hc] _]; try done.
  - intros s _ Hs. rewrite dom_delete.
    unfold config in Hs.
    assert (base_reg s = base_reg self) as -> by congruence.
    intros [_ Hn]%elem_of_difference. apply Hn. by apply elem_of_singleton.
  - split; [|done]. apply delete_subseteq.
  - split; [|done]. intros l o Hl Hne. eapply lookup_weaken; [|exact Hh].
    by rewrite lookup_delete_ne.
Qed.

(** X4: [fit] cannot be called twice: on an instance whose fold results are
    already a frame it always raises, before the base estimator is fitted
    again.  Every stored object is unchanged, the base estimator included,
    so [predict] still returns what it returned before. *)
Theorem ts_refit_raises_and_keeps_first_fit X y sw self h l :
  cv_results_ self = CvFrame l →
  ∃ self' h' e,
    fit (G := G) X y sw (self, h) = ((self', h'), Raise e) ∧
    cv_results_ self' = CvFrame l ∧ base_reg self' = base_reg self ∧
    (∀ l o, h !! l = Some o → h' !! l = Some o) ∧
    ∀ Xn r, predict Xn (self, h) = ((self, h), Ok r) →
            predict Xn (self', h') = ((self', h'), Ok r).
Proof.
  intros Hcv.
  destruct (TSInvariants.ts_preserves_fit (G := G) h
              (λ s, cv_results_ s = CvFrame l ∧ base_reg s = base_reg self) False)
    with (X := X) (y := y) (sw := sw) (s := (self, h)) as [[Hh [Hc Hb]] Hret];
    try done.
  { intros s rs [Hs _] Hd. by rewrite Hs in Hd. }
  destruct (fit X y sw (self, h)) as [[self' h'] [[]|e]] eqn:Hfit; simpl in *.
  { by destruct (Hret ()). }
  exists self', h', e. split_and!; try done.
  - intros l' o Hl. by eapply lookup_weaken.
  - intros Xn r. unfold predict, mbind, M_bind, get_self. simpl.
    rewrite !predict_with_run, Hb. intros [= Hr]. f_equal.
    destruct (h !! base_reg self) as [[e0|df]|] eqn:Hbase; try done.
    by rewrite (lookup_weaken _ _ _ _ Hbase Hh).
Qed.

End TSStoreFacts.
End TSStoreFacts.

Import StoreFacts SummaryFacts.

(** ** The attributes a completed fit leaves on the instance *)

Lemma finite_values_floats (xs : list float) :
  Pd.finite_values (Pd.CFloat <$> xs) = Ok (omap id xs).
Proof.
  unfold Pd.finite_values.
  assert (rmapM Pd.to_float (Pd.CFloat <$> xs) = Ok xs) as ->; [|done].
  induction xs as [|x xs IH]; [done|]. csimpl. by rewrite IH.
Qed.

Section summary_facts.
Context {numeric_ops : Numeric}.

Lemma col_mean_floats (xs : list float) :
  col_mean (Pd.CFloat <$> xs) = Ok (Pd.CFloat (Np.mean (omap id xs))).
Proof. unfold col_mean. by rewrite finite_values_floats. Qed.

Lemma col_std_floats (xs : list float) :
  col_std (Pd.CFloat <$> xs) = Ok (Pd.CFloat (sample_std (omap id xs))).
Proof. unfold col_std. by rewrite finite_values_floats. Qed.

Lemma summary_column_eq (xs : list float) :
  summary_column xs =
    ((Pd.CFloat <$> xs) ++ [Pd.CFloat (Np.mean (omap id xs))]) ++
    [Pd.CFloat (sample_std (omap id xs))].
Proof. unfold summary_column. by rewrite <-app_assoc. Qed.

(** The summary of a frame of fold results that holds the fold numbers, the
    estimators and the three metric columns. *)
Lemma summary_rows_metrics (idx : list Pd.cell) (folds regs : list Pd.cell)
    (r2 rmse mape : list float) :
  summary_rows
    {| Pd.df_index := idx;
       Pd.df_columns := [("fold", folds); ("reg", regs);
                         ("r2_score", Pd.CFloat <$> r2);
                         ("rmse", Pd.CFloat <$> rmse);
                         ("mape", Pd.CFloat <$> mape)] |} =
  Ok {| Pd.df_index := folds ++ [Pd.CStr "mean"; Pd.CStr "std"];
        Pd.df_columns := [("r2_score", summary_column r2);
                          ("rmse", summary_column rmse);
                          ("mape", summary_column mape)] |}.
Proof.
  unfold summary_rows.
  unfold Pd.drop. cbn [Pd.column_names Pd.df_columns fmap list_fmap fst].
  rewrite decide_True by set_solver.
  cbn [mbind result_bind Pd.df_columns Pd.df_index].
  assert (filter (λ c : string * list Pd.cell, c.1 ≠ "reg")
            [("fold", folds); ("reg", regs); ("r2_score", Pd.CFloat <$> r2);
             ("rmse", Pd.CFloat <$> rmse); ("mape", Pd.CFloat <$> mape)] =
          [("fold", folds); ("r2_score", Pd.CFloat <$> r2);
           ("rmse", Pd.CFloat <$> rmse); ("mape", Pd.CFloat <$> mape)]) as ->
    by reflexivity.
  unfold Pd.set_index, Pd.getitem. cbn [Pd.df_columns Pd.lookup_col fst snd].
  rewrite decide_True by done. cbn [of_option mbind result_bind].
  assert (filter (λ c : string * list Pd.cell, c.1 ≠ "fold")
            [("fold", folds); ("r2_score", Pd.CFloat <$> r2);
             ("rmse", Pd.CFloat <$> rmse); ("mape", Pd.CFloat <$> mape)] =
          [("r2_score", Pd.CFloat <$> r2);
           ("rmse", Pd.CFloat <$> rmse); ("mape", Pd.CFloat <$> mape)]) as ->
    by reflexivity.
  unfold reduce_columns. cbn [Pd.df_columns rmapM fst snd].
  rewrite !col_mean_floats, !col_std_floats. cbn [mbind result_bind].
  unfold _append_df, Pd.concat_rows.
  cbn [Pd.df_index Pd.df_columns Pd.column_names fmap list_fmap fst snd].
  rewrite !summary_column_eq, <-app_assoc. reflexivity.
Qed.

Lemma summary_rows_cv_frame (regs : list loc) (ms : list metrics_triple) :
  length regs = length ms →
  summary_rows (cv_results_frame regs ms) = Ok (cv_summary_frame ms).
Proof.
  intros Hlen. unfold cv_results_frame, cv_summary_frame. rewrite Hlen.
  rewrite <-(summary_rows_metrics (Pd.RangeIndex (length ms)) _ (Pd.CRef <$> regs)).
  by rewrite <-!list_fmap_compose.
Qed.

End summary_facts.

Module CVReportFacts.
Section CVReportFacts.
Context {Row Est G Custom : Type}.
Context {est_ops : Estimator Est Row} {metric_ops : Metrics} {numeric_ops : Numeric}
  {split_ops : Splitting Row G Custom}.
Implicit Types (h : heap Est) (self : RegressorCV.t (G := G) (Custom := Custom)).
Import RegressorCV CVFitFacts.

(** The frame [_convert_report_to_df] makes of the dict of fold results. *)
Lemma convert_report_frame self h s' u k r ms :
  cv_results_ self = CvDict (seq 0 k) r ms →
  _convert_report_to_df (self, h) = (s', Ok u) →
  length r = k ∧ length ms = k ∧
  ∃ l, (l ∉ dom h) ∧
       s' = (set_cv_results (CvFrame l) self, <[l:=OFrame (cv_results_frame r ms)]> h).
Proof.
  intros Hcv Hr. unfold _convert_report_to_df in Hr.
  apply bind_Ok in Hr as (self1 & s1 & [-> ->]%get_self_Ok & Hr).
  rewrite Hcv in Hr.
  apply bind_Ok in Hr as (df & s2 & [-> Hdf]%lift_Ok & Hr).
  apply bind_Ok in Hr as (dm & s3 & [-> Hdm]%lift_Ok & Hr).
  apply bind_Ok in Hr as (df2 & s4 & [-> Hdf2]%lift_Ok & Hr).
  apply bind_Ok in Hr as (df3 & s5 & [-> Hdf3]%lift_Ok & Hr).
  apply bind_Ok in Hr as (l & s6 & [Hl ->]%new_Ok & ->%set_self_Ok).
  unfold Pd.from_columns in Hdf. case_decide as Hlen; [|done]. injection Hdf as <-.
  unfold metrics_frame, Pd.from_columns in Hdm. case_decide; [|done].
  injection Hdm as <-.
  unfold Pd.concat_columns in Hdf2. case_decide; [|done]. injection Hdf2 as <-.
  unfold Pd.drop in Hdf3. case_decide; [|done]. injection Hdf3 as <-.
  apply Forall_cons in Hlen as [_ Hlen]. apply Forall_cons in Hlen as [Hlr Hlen].
  apply Forall_cons in Hlen as [Hlm _].
  change (length (Pd.CRef <$> r) =
          length ((λ i : nat, Pd.CInt (Z.of_nat i)) <$> seq 0 k)) in Hlr.
  change (length (tuple_cell <$> ms) =
          length ((λ i : nat, Pd.CInt (Z.of_nat i)) <$> seq 0 k)) in Hlm.
  rewrite !length_fmap in Hlr. rewrite !length_fmap in Hlm.
  rewrite length_seq in Hlr. rewrite length_seq in Hlm.
  split; [done|]. split; [done|]. exists l. split; [done|].
  do 3 f_equal. unfold cv_results_frame. cbn. rewrite !length_fmap, length_seq.
  rewrite Hlr. reflexivity.
Qed.

(** What a completed [fit] of a fresh instance records: the frame of fold
    results, the out-of-fold metrics and the summary. *)
Lemma fit_records X y kw self h self' h' e0 :
  cv_results_ self = CvDict [] [] [] →
  h !! base_reg self = Some (OEst e0) →
  fit X y kw (self, h) = ((self', h'), Ok ()) →
  ∃ folds outs l m oof score mape rmse,
    kf_split self X y = Ok folds ∧
    Forall2 (fold_fitted X y kw e0 h') folds outs ∧
    cv_results_ self' = CvFrame l ∧
    h' !! l = Some (OFrame (cv_results_frame (fo_reg <$> outs) (fo_metrics <$> outs))) ∧
    metrics_ self' = Some m ∧
    h' !! m = Some (OFrame (cv_summary_frame (fo_metrics <$> outs))) ∧
    (l ∉ dom h) ∧ (m ∉ dom h) ∧ l ≠ m ∧
    oof_train_ self' = Some oof ∧
    r2_score y (A1 oof) = Ok score ∧ oof_score_ self' = Some score ∧
    mean_absolute_percentage_error y (A1 oof) = Ok mape ∧ oof_mape_ self' = Some mape ∧
    root_mean_squared_error y (A1 oof) = Ok rmse ∧ oof_rmse_ self' = Some rmse.
Proof.
  intros Hcv Hbase Hr. unfold fit in Hr.
  apply bind_Ok in Hr as ([] & s1 & ->%set_self_Ok & Hr).
  apply bind_Ok in Hr as (self1 & s2 & [-> ->]%get_self_Ok & Hr).
  apply bind_Ok in Hr as (folds & s3 & [-> Hsplit]%lift_Ok & Hr).
  apply bind_Ok in Hr as ([] & [self2 h2] & Hloop & Hr).
  apply (fit_loop _ _ _ e0 _ 0%nat _ _ _ _ [] [] [] (replicate (length y) NaN))
    in Hloop as (outs & Hfolds & Hnew & Hnd & Hsub & Hcv2 & Hoof2 & Hcfg2);
    [|done..].
  apply bind_Ok in Hr as ([] & s4 & Hconv & Hr).
  simpl in Hcv2.
  apply (convert_report_frame _ _ _ _ _ _ _ Hcv2) in Hconv as (Hlr & Hlm & l & Hl & ->).
  apply bind_Ok in Hr as (self3 & s5 & [-> ->]%get_self_Ok & Hr).
  apply bind_Ok in Hr as (oof & s6 & [-> Hoof]%lift_Ok & Hr).
  simpl in Hoof. rewrite Hoof2 in Hoof. injection Hoof as <-.
  apply bind_Ok in Hr as (score & s7 & [-> Hscore]%lift_Ok & Hr).
  apply bind_Ok in Hr as (mape & s8 & [-> Hmape]%lift_Ok & Hr).
  apply bind_Ok in Hr as (rmse & s9 & [-> Hrmse]%lift_Ok & Hr).
  apply bind_Ok in Hr as ([] & s10 & ->%set_self_Ok & Hr).
  apply bind_Ok in Hr as (m & [self4 h4] & Hsum & Hr).
  apply set_self_Ok in Hr as [= -> ->].
  rewrite cv_summary_run in Hsum. simpl in Hsum.
  rewrite lookup_insert_eq in Hsum.
  rewrite summary_rows_cv_frame in Hsum by (rewrite !length_fmap; lia).
  injection Hsum as <- <- <-.
  set (h3 := <[l:=OFrame (cv_results_frame (fo_reg <$> outs) (fo_metrics <$> outs))]> h2).
  assert (fresh (dom h3) ∉ dom h3) as Hfresh by apply is_fresh.
  assert (fresh (dom h3) ≠ l) as Hne.
  { intros Heq. apply Hfresh. rewrite Heq. unfold h3. rewrite dom_insert.
    apply elem_of_union_l. by apply elem_of_singleton. }
  assert (h2 ⊆ <[fresh (dom h3):=OFrame (cv_summary_frame (fo_metrics <$> outs))]> h3)
    as Hsub2.
  { etrans; [apply (insert_subseteq h2 l); by apply not_elem_of_dom|].
    apply insert_subseteq. by apply not_elem_of_dom. }
  exists folds, outs, l, (fresh (dom h3)),
    (oof_after (replicate (length y) NaN) folds outs), score, mape, rmse.
  simpl. split_and!; try done.
  - eapply Forall2_impl; [exact Hfolds|]. intros fold out.
    apply fold_fitted_mono. exact Hsub2.
  - rewrite lookup_insert_ne; [|exact Hne]. unfold h3. by rewrite lookup_insert_eq.
  - by rewrite lookup_insert_eq.
  - intros Hin. apply Hl. by apply (subseteq_dom _ _ Hsub).
  - intros Hin. apply Hfresh. apply (subseteq_dom h2 h3).
    + apply insert_subseteq. by apply not_elem_of_dom.
    + by apply (subseteq_dom _ _ Hsub).
Qed.

(** X5: After a completed [fit], [cv_results_] is a table with one row per fold
    -- the fold number, the clone fitted in that fold, and the R2, RMSE and
    MAPE of that clone on the fold's test rows -- and [metrics_] is another
    table: the fold metrics indexed by fold, followed by a row ['mean'] and a
    row ['std'] holding the mean and the sample standard deviation of every
    metric over the folds.  The out-of-fold scores are the metrics of the
    whole target vector against the assembled out-of-fold vector. *)
Theorem fit_tabulates_fold_metrics X y kw self h self' h' e0 :
  cv_results_ self = CvDict [] [] [] →
  h !! base_reg self = Some (OEst e0) →
  fit X y kw (self, h) = ((self', h'), Ok ()) →
  ∃ folds outs l m oof score mape rmse,
    kf_split self X y = Ok folds ∧
    Forall2 (fold_fitted X y kw e0 h') folds outs ∧
    cv_results_ self' = CvFrame l ∧
    h' !! l = Some (OFrame (cv_results_frame (fo_reg <$> outs) (fo_metrics <$> outs))) ∧
    metrics_ self' = Some m ∧ m ≠ l ∧
    h' !! m = Some (OFrame (cv_summary_frame (fo_metrics <$> outs))) ∧
    oof_train_ self' = Some oof ∧
    r2_score y (A1 oof) = Ok score ∧ oof_score_ self' = Some score ∧
    mean_absolute_percentage_error y (A1 oof) = Ok mape ∧ oof_mape_ self' = Some mape ∧
    root_mean_squared_error y (A1 oof) = Ok rmse ∧ oof_rmse_ self' = Some rmse.
Proof.
  intros Hcv Hbase Hfit.
  destruct (fit_records _ _ _ _ _ _ _ _ Hcv Hbase Hfit) as
    (folds & outs & l & m & oof & score & mape & rmse & Hr).
  exists folds, outs, l, m, oof, score, mape, rmse.
  destruct_and!. by split_and!.
Qed.

End CVReportFacts.
End CVReportFacts.

Module KNNMoreFacts.
Import KNNRegressor NpFacts KNNFacts.

Section predict_more.
Context {X : Type} (check_array : X → result X).

(** X6: Asking for the match index does not change the prediction: when
    [predict(X, return_match_index=True)] returns, its first component is
    what [predict(X)] returns, and its third component is the index array
    of the neighbour query. *)
Theorem match_index_flag_keeps_prediction (self : t X) x (pred_calc : string)
    y_pred nearest neigh_ind :
  predict check_array self x true pred_calc = Ok (PredMatch y_pred nearest neigh_ind) →
  predict check_array self x false pred_calc = Ok (Pred y_pred) ∧
  ∃ x' neigh_dist,
    check_array x = Ok x' ∧ kneighbors self x' = Ok (neigh_dist, neigh_ind).
Proof.
  unfold predict. intros Hr.
  apply rbind_Ok in Hr as (x' & Hx & Hr). rewrite Hx. cbn [mbind result_bind].
  apply rbind_Ok in Hr as ([dist ind] & Hk & Hr). rewrite Hk. cbn [mbind result_bind].
  destruct (as_2d (_y self)) as [ncols rows].
  apply rbind_Ok in Hr as (yp & -> & Hr). cbn [mbind result_bind].
  apply rbind_Ok in Hr as (yp' & -> & Hr). cbn [mbind result_bind].
  apply rbind_Ok in Hr as (d & _ & Hr).
  apply rbind_Ok in Hr as (mi & _ & Hr).
  apply rbind_Ok in Hr as (ne & _ & Hr).
  apply rbind_Ok in Hr as (yp'' & -> & [= <- <- <-]).
  split; [done|]. by exists x', dist.
Qed.


Lemma sum_cons (a : Qc) (l : list Qc) : Np.sum (a :: l) = a + Np.sum l.
Proof. done. Qed.








End predict_more.
End KNNMoreFacts.

(** ** Python strings *)

Module StrFacts.
Import Str.

Lemma prefix_nil (s : string) : String.prefix EmptyString s = true.
Proof. by destruct s. Qed.

Lemma prefix_app (p s : string) : String.prefix p (p +:+ s) = true.
Proof.
  induction p as [|c p IH]; [apply prefix_nil|]. simpl.
  destruct (Ascii.ascii_dec c c); [done | congruence].
Qed.

Lemma prefix_length (p s : string) :
  String.prefix p s = true → (String.length p ≤ String.length s)%nat.
Proof.
  revert s. induction p as [|c p IH]; intros s; [simpl; lia|].
  destruct s as [|c' s]; [done|]. simpl.
  destruct (Ascii.ascii_dec c c'); [|done].
  intros Hp%IH. lia.
Qed.

Lemma prefix_substring (p s : string) :
  String.prefix p (String.substring 0 (String.length p) s) = String.prefix p s.
Proof.
  revert s. induction p as [|c p IH]; intros s; [by rewrite !prefix_nil|].
  destruct s as [|c' s]; [done|]. simpl.
  destruct (Ascii.ascii_dec c c'); [|done].
  apply IH.
Qed.

Lemma substring_length n (s : string) :
  (String.length (String.substring 0 n s) ≤ n)%nat.
Proof.
  revert s. induction n as [|n IH]; intros [|c s]; simpl; try lia.
  specialize (IH s). lia.
Qed.

Lemma contains_short (p s : string) :
  (String.length s < String.length p)%nat → contains p s = false.
Proof.
  revert p. induction s as [|c s IH]; intros p Hlen.
  - destruct p; [simpl in Hlen; lia | done].
  - cbn [contains]. rewrite IH by (simpl in Hlen; lia).
    destruct (String.prefix p (String c s)) eqn:Hp; [|done].
    apply prefix_length in Hp. lia.
Qed.

(** [prefix in name[:len(prefix)]] holds exactly when [name] starts with
    [prefix]. *)
Lemma contains_slice (p s : string) :
  contains p (slice_to (String.length p) s) = String.prefix p s.
Proof.
  unfold slice_to. rewrite <-(prefix_substring p s).
  pose proof (substring_length (String.length p) s) as Hlen.
  destruct (String.substring 0 (String.length p) s) as [|c t] eqn:Hs.
  - simpl. by rewrite orb_false_r.
  - cbn [contains]. rewrite (contains_short p t) by (simpl in Hlen; lia).
    by rewrite orb_false_r.
Qed.

Lemma replace_go_skip (old new a s : string) :
  replace_go old new (String.length a) (a +:+ s) = replace_go old new 0 s.
Proof.
  induction a as [|c a IH]; simpl; [|done].
  destruct s; done.
Qed.

Lemma replace_go_absent (old new s : string) :
  contains old s = false → replace_go old new 0 s = s.
Proof.
  induction s as [|c s IH]; [done|]. cbn [contains replace_go].
  intros [Hp Hs]%orb_false_iff. rewrite Hp. f_equal. by apply IH.
Qed.

(** Replacing a prefix that does not occur again. *)
Lemma replace_prefix (old new rest : string) :
  old ≠ EmptyString → contains old rest = false →
  replace old new (old +:+ rest) = new +:+ rest.
Proof.
  intros Hne Hrest. unfold replace. rewrite decide_False by done.
  destruct old as [|c old]; [done|].
  change (String c old +:+ rest) with (String c (old +:+ rest)).
  cbn [replace_go].
  change (String c (old +:+ rest)) with (String c old +:+ rest).
  rewrite prefix_app. f_equal.
  replace (String.length (String c old) - 1)%nat with (String.length old)
    by (simpl; lia).
  rewrite replace_go_skip. by apply replace_go_absent.
Qed.

Lemma prefix_app_l (p q s : string) :
  String.prefix (p +:+ q) s = true → String.prefix p s = true.
Proof.
  revert s. induction p as [|a p IH]; intros s; [by rewrite prefix_nil|].
  destruct s as [|b s]; [done|]. simpl.
  destruct (Ascii.ascii_dec a b); [|done]. apply IH.
Qed.

Lemma contains_app_l (p q s : string) :
  p ≠ EmptyString → contains p s = false → contains (p +:+ q) s = false.
Proof.
  intros Hne. induction s as [|c s IH].
  - destruct p; done.
  - cbn [contains]. intros [Hp Hs]%orb_false_iff. rewrite IH by done.
    rewrite orb_false_r.
    destruct (String.prefix (p +:+ q) (String c s)) eqn:Hpq; [|done].
    apply prefix_app_l in Hpq. congruence.
Qed.

End StrFacts.

(** ** The renaming of the one-hot output names *)

Module RenameFacts.
Import Str StrFacts.

(** One pass of the outer loop on one name. *)
Lemma foldl_rename_prefix (l : list (nat * string)) (names : list string) :
  foldl (λ names ic, rename_prefix ic.1 ic.2 names) names l =
  (λ name, foldl (λ name (ic : nat * string),
              let prefix := "x" +:+ pretty ic.1 in
              if contains prefix (slice_to (String.length prefix) name)
              then replace prefix ic.2 name
              else name) name l) <$> names.
Proof.
  revert names. induction l as [|[i cat] l IH]; intros names; simpl.
  - by rewrite list_fmap_id.
  - rewrite IH. unfold rename_prefix. by rewrite <-list_fmap_compose.
Qed.

(** The names are renamed one by one: their number and their positions are
    kept. *)
Lemma rename_one_hot_map (cat_cols names : list string) :
  rename_one_hot cat_cols names = rename_name cat_cols <$> names.
Proof. apply foldl_rename_prefix. Qed.

Lemma foldl_no_match (l : list (nat * string)) (name : string) :
  Forall (λ ic : nat * string, String.prefix ("x" +:+ pretty ic.1) name = false) l →
  foldl (λ name (ic : nat * string),
           let prefix := "x" +:+ pretty ic.1 in
           if contains prefix (slice_to (String.length prefix) name)
           then replace prefix ic.2 name
           else name) name l = name.
Proof.
  induction 1 as [|[i cat] l Hi _ IH]; [done|]. simpl in *.
  by rewrite contains_slice, Hi.
Qed.

Lemma enumerate_split {A} (l : list A) (i : nat) (a : A) :
  l !! i = Some a →
  enumerate l = zip (seq 0 i) (take i l) ++ (i, a) :: zip (seq (S i) (length l - S i)) (drop (S i) l).
Proof.
  intros Hi. unfold enumerate.
  pose proof (lookup_lt_Some _ _ _ Hi) as Hlt.
  rewrite <-(take_drop_middle l i a Hi) at 2.
  replace (length l) with (i + S (length l - S i))%nat by lia.
  rewrite seq_app. simpl.
  rewrite zip_with_app by (rewrite length_seq, length_take; lia).
  simpl. do 4 f_equal. lia.
Qed.

(** The first column whose prefix a name starts with claims the name: no
    earlier prefix matches it, the prefix does not occur again in the rest
    of the name, and no later prefix matches the renamed name. *)
Lemma rename_name_first_match (cat_cols : list string) (i : nat) (cat rest : string) :
  cat_cols !! i = Some cat →
  (∀ i', (i' < i)%nat →
     String.prefix ("x" +:+ pretty i') (("x" +:+ pretty i) +:+ rest) = false) →
  contains ("x" +:+ pretty i) rest = false →
  (∀ i', (i < i' < length cat_cols)%nat →
     String.prefix ("x" +:+ pretty i') (cat +:+ rest) = false) →
  rename_name cat_cols (("x" +:+ pretty i) +:+ rest) = cat +:+ rest.
Proof.
  intros Hi Hbefore Hrest Hafter. unfold rename_name.
  rewrite (enumerate_split _ _ _ Hi), foldl_app.
  rewrite (foldl_no_match (zip (seq 0 i) (take i cat_cols))).
  2:{ apply Forall_forall. intros [i' c'] Hin. simpl.
      apply list_elem_of_lookup in Hin as [k Hk].
      apply lookup_zip_with_Some in Hk as (? & ? & [= <- <-] & Hk1 & Hk2).
      apply lookup_seq in Hk1 as [-> Hlt]. by apply Hbefore. }
  cbn [foldl fst snd]. rewrite contains_slice, prefix_app.
  rewrite replace_prefix by done.
  apply foldl_no_match.
  apply Forall_forall. intros [i' c'] Hin. simpl.
  apply list_elem_of_lookup in Hin as [k Hk].
  apply lookup_zip_with_Some in Hk as (? & ? & [= <- <-] & Hk1 & Hk2).
  apply lookup_seq in Hk1 as [-> Hlt]. apply Hafter.
  pose proof (lookup_lt_Some _ _ _ Hi). lia.
Qed.

End RenameFacts.

Module OutputNamesFacts.
Import Str StrFacts RenameFacts.

Lemma append_cons (c : Ascii.ascii) (s t : string) :
  String c s +:+ t = String c (s +:+ t).
Proof. done. Qed.

Lemma append_nil_l (t : string) : EmptyString +:+ t = t.
Proof. done. Qed.

Lemma prefix_x_other (cat q r : string) :
  String.prefix "x" cat = false → String.prefix "x" r = false →
  String.prefix ("x" +:+ q) (cat +:+ r) = false.
Proof.
  intros Hcat Hr. rewrite append_cons, append_nil_l.
  destruct cat as [|a cat]; rewrite ?append_cons, ?append_nil_l.
  - destruct r as [|b r]; [done|]. cbn [String.prefix] in *.
    destruct (Ascii.ascii_dec _ b); [by rewrite prefix_nil in Hr | done].
  - cbn [String.prefix] in *. destruct (Ascii.ascii_dec _ a); [|done].
    by rewrite prefix_nil in Hcat.
Qed.

Lemma contains_x_digits (q s : string) :
  contains "x" s = false → contains ("x" +:+ q) s = false.
Proof. by apply contains_app_l. Qed.

(** With at most ten categorical columns no prefix [x0] .. [x9] is the
    start of another. *)
Lemma single_digit_prefixes (i i' : nat) (rest : string) :
  (i < 10)%nat → (i' < i)%nat →
  String.prefix ("x" +:+ pretty i') (("x" +:+ pretty i) +:+ "_" +:+ rest) = false.
Proof.
  intros Hi Hi'.
  do 10 (destruct i as [|i];
         [do 10 (destruct i' as [|i']; [by (lia || vm_compute)|]); lia|]).
  lia.
Qed.

(** The run of [_proc_output_names] on a fitted model. *)
Lemma proc_output_names_run (cat_cols names nums : list string) ft st :
  one_hot_feature_names_out ft = Ok names → imputer_feature_names_in ft = Ok nums →
  (cat_out ← one_hot_output_names cat_cols (Some ft);
   num_output_names (Some ft) cat_out) st =
    ({| cat_out_names_ := Some (rename_one_hot cat_cols names);
        num_out_names_ := Some nums |},
     Ok (rename_one_hot cat_cols names ++ nums)).
Proof.
  intros Hnames Hnums.
  unfold one_hot_output_names, num_output_names, mbind, M_bind, lift, modify, mret, M_ret.
  simpl. rewrite Hnames. simpl. by rewrite Hnums.
Qed.

(** X9: With at most ten categorical columns, none named with a leading [x],
    [_proc_output_names] gives every one-hot output name [x<i>_<category>]
    the name [<column i>_<category>], at the same position, provided the
    category does not contain the letter [x]; the output names are the
    renamed one-hot names, as many as before, followed by the numeric input
    names. *)
Theorem proc_output_names_renames_one_hot_names (cat_cols names nums : list string)
    (ft : fitted_names) (st : out_names) :
  one_hot_feature_names_out ft = Ok names →
  imputer_feature_names_in ft = Ok nums →
  (length cat_cols ≤ 10)%nat →
  Forall (λ c, String.prefix "x" c = false) cat_cols →
  ∃ out,
    length out = length names ∧
    (∀ j i cat v,
       names !! j = Some (("x" +:+ pretty i) +:+ "_" +:+ v) →
       cat_cols !! i = Some cat → contains "x" v = false →
       out !! j = Some (cat +:+ "_" +:+ v)) ∧
    (∀ self : AutoRegressor.t,
       AutoRegressor.cat_cols self = cat_cols →
       AutoRegressor.use_catboost_native_cat_features self = false →
       AutoRegressorReports._proc_output_names self (Some ft) st =
         ({| cat_out_names_ := Some out; num_out_names_ := Some nums |},
          Ok (out ++ nums))) ∧
    (∀ self : AutoClassifier.t,
       AutoClassifier.cat_cols self = cat_cols →
       AutoClassifierReports._proc_output_names self (Some ft) st =
         ({| cat_out_names_ := Some out; num_out_names_ := Some nums |},
          Ok (out ++ nums))).
Proof.
  intros Hnames Hnums Hlen Hx. exists (rename_one_hot cat_cols names).
  split_and!.
  - by rewrite rename_one_hot_map, length_fmap.
  - intros j i cat v Hj Hi Hv.
    rewrite rename_one_hot_map, list_lookup_fmap, Hj. simpl. f_equal.
    pose proof (lookup_lt_Some _ _ _ Hi) as Hlt.
    assert (contains "x" ("_" +:+ v) = false) as Hv'.
    { rewrite append_cons, append_nil_l. cbn [contains String.prefix]. rewrite Hv.
      by destruct (Ascii.ascii_dec _ _). }
    apply rename_name_first_match; [done|..].
    + intros i' Hi'. apply single_digit_prefixes; lia.
    + by apply contains_x_digits.
    + intros i' _. apply prefix_x_other.
      * rewrite Forall_forall in Hx. apply Hx. by eapply list_elem_of_lookup_2.
      * by destruct v.
  - intros self Hcols Hnative. unfold AutoRegressorReports._proc_output_names.
    rewrite Hnative, Hcols. by apply proc_output_names_run.
  - intros self Hcols. unfold AutoClassifierReports._proc_output_names.
    rewrite Hcols. by apply proc_output_names_run.
Qed.

End OutputNamesFacts.

(** ** The reporting methods of AutoRegressor and AutoClassifier *)

Module AutoReportFacts.
Section AutoReportFacts.
Context {numeric_ops : Numeric} {tts_ops : TrainTestSplit}.
Context {metric_ops : Metrics} {sort_ops : Sorting} {stat_ops : Stats}.
Context {Fitted : Type} {pipeline_ops : PipelineOps Fitted}.
Import AutoFacts.

Lemma lookup_col_filter_self name cols :
  Pd.lookup_col name (filter (λ c : string * list Pd.cell, c.1 ≠ name) cols) = None.
Proof.
  induction cols as [|c cols IH]; [done|].
  rewrite filter_cons. destruct (decide (c.1 ≠ name)) as [Hc|Hc]; simpl; [|done].
  by rewrite decide_False.
Qed.

Lemma lookup_col_None name cols :
  name ∉ cols.*1 → Pd.lookup_col name cols = None.
Proof.
  induction cols as [|c cols IH]; [done|]. simpl. intros Hn.
  rewrite not_elem_of_cons in Hn. destruct Hn as [Hne Hn].
  rewrite decide_False by done. by apply IH.
Qed.

Lemma iloc_lookup_col pos df df' name :
  Pd.iloc pos df = Ok df' →
  Pd.lookup_col name (Pd.df_columns df) = None →
  Pd.lookup_col name (Pd.df_columns df') = None.
Proof.
  unfold Pd.iloc. intros (idx & _ & (cols & Hcols & [= <-])%rbind_Ok)%rbind_Ok. simpl.
  apply rmapM_Ok_Forall2 in Hcols.
  induction Hcols as [|c c' l l' Hc _ IH]; [done|].
  apply rbind_Ok in Hc as (v & _ & [= <-]). simpl.
  case_decide; [done|]. exact IH.
Qed.

(** Renaming a target column that is already called ['target'] leaves the
    frame without it. *)
Lemma rename_target_dropped l f (h h' : frames) u :
  rename_target l "target" f h = (h', Ok u) →
  ∃ df2, h' = <[l:=df2]> h ∧ Pd.lookup_col "target" (Pd.df_columns df2) = None.
Proof.
  intros (df & v & v' & df1 & df2 & _ & _ & _ & _ & Hdrop & ->)%rename_target_Ok.
  exists df2. split; [done|]. unfold Pd.drop in Hdrop.
  case_decide; [|done]. injection Hdrop as <-. simpl. apply lookup_col_filter_self.
Qed.

Lemma load_frames_target_dropped data train test random_st log_target
    (h h1 : frames) d tr te :
  load_frames "target" data train test random_st log_target h = (h1, Ok (d, tr, te)) →
  ∃ dtr dte,
    h1 !! tr = Some dtr ∧ h1 !! te = Some dte ∧
    Pd.lookup_col "target" (Pd.df_columns dtr) = None ∧
    Pd.lookup_col "target" (Pd.df_columns dte) = None.
Proof.
  unfold load_frames. destruct data as [src|]; intros Hr.
  - apply bind_Ok in Hr as (sd & h2 & _ & Hr).
    apply bind_Ok in Hr as ([] & h3 & (df2 & -> & Hnone)%rename_target_dropped & Hr).
    apply bind_Ok in Hr as (df & h4 & [-> Hdf]%load_Ok & Hr).
    rewrite lookup_insert_eq in Hdf. injection Hdf as <-.
    apply bind_Ok in Hr as ([ptr pte] & h5 & [-> _]%lift_Ok & Hr).
    apply bind_Ok in Hr as (dtr & h6 & [-> Hdtr]%lift_Ok & Hr).
    apply bind_Ok in Hr as (dte & h7 & [-> Hdte]%lift_Ok & Hr).
    apply bind_Ok in Hr as (str & h8 & [Htr ->]%new_frame_Ok & Hr).
    apply bind_Ok in Hr as (ste & h9 & [Hte ->]%new_frame_Ok & Hr).
    apply ret_Ok in Hr as [-> [= -> -> ->]].
    assert (str ≠ ste) as Hne.
    { intros ->. apply Hte. rewrite dom_insert. set_solver. }
    exists dtr, dte. split_and!.
    + rewrite lookup_insert_ne by done. by rewrite lookup_insert_eq.
    + by rewrite lookup_insert_eq.
    + by eapply iloc_lookup_col.
    + by eapply iloc_lookup_col.
  - apply bind_Ok in Hr as (str & h2 & (s1 & d1 & _ & _ & Htr & ->)%copy_Ok & Hr).
    apply bind_Ok in Hr as ([] & h3 & (dtr & -> & Hntr)%rename_target_dropped & Hr).
    apply bind_Ok in Hr as (ste & h4 & (s2 & d3 & _ & _ & Hte & ->)%copy_Ok & Hr).
    apply bind_Ok in Hr as ([] & h5 & (dte & -> & Hnte)%rename_target_dropped & Hr).
    apply bind_Ok in Hr as (ptr & h6 & [-> _]%lift_Ok & Hr).
    apply bind_Ok in Hr as (pte & h7 & [-> _]%lift_Ok & Hr).
    apply bind_Ok in Hr as (dtr0 & h8 & [-> _]%load_Ok & Hr).
    apply bind_Ok in Hr as (dte0 & h9 & [-> _]%load_Ok & Hr).
    apply bind_Ok in Hr as (sd & h10 & [Hd ->]%new_frame_Ok & Hr).
    apply ret_Ok in Hr as [-> [= -> -> ->]].
    assert (str ≠ ste) as Hne.
    { intros ->. apply Hte. rewrite !dom_insert. set_solver. }
    assert (sd ≠ str ∧ sd ≠ ste) as [Hn1 Hn2].
    { split; intros ->; apply Hd; rewrite !dom_insert; set_solver. }
    exists dtr, dte. split_and!; try done.
    + rewrite lookup_insert_ne by done. rewrite lookup_insert_ne by done.
      rewrite lookup_insert_ne by done. by rewrite lookup_insert_eq.
    + rewrite lookup_insert_ne by done. by rewrite lookup_insert_eq.
Qed.

(** X12: A data set whose target column is already called ['target'] loses it
    in the constructor of [AutoClassifier]: the instance's training and test
    frames have no ['target'] column, and [fit_report] raises
    [AttributeError] before anything is fitted. *)
Theorem classifier_target_named_target_is_dropped (h h' : frames)
    (self : AutoClassifier.t) (num_cols cat_cols : list string)
    (data train test : option loc) (random_st : Z) (log_target : bool)
    (estimator : estimator_param) (imputer_strategy : string) :
  AutoClassifier.__init__ num_cols cat_cols "target" data train test random_st
    log_target estimator imputer_strategy h = (h', Ok self) →
  ∃ dtr dte,
    h' !! AutoClassifier.train self = Some dtr ∧
    h' !! AutoClassifier.test self = Some dte ∧
    Pd.getitem "target" dtr = Raise KeyError ∧
    Pd.getitem "target" dte = Raise KeyError ∧
    ∀ st : report_state Fitted,
      AutoClassifierMethods.fit_report h' self st = (st, Raise AttributeError).
Proof.
  unfold AutoClassifier.__init__. intros Hr.
  apply bind_Ok in Hr as ([[d tr] te] & h1 & Hload & Hr).
  apply bind_Ok in Hr as ([nt prep] & h3 & [-> Hprep]%lift_Ok & Hr).
  apply ret_Ok in Hr as [-> ->]. simpl.
  destruct (load_frames_target_dropped _ _ _ _ _ _ _ _ _ _ Hload)
    as (dtr & dte & Htr & Hte & Hntr & Hnte).
  exists dtr, dte. split_and!; try done.
  - unfold Pd.getitem. by rewrite Hntr.
  - unfold Pd.getitem. by rewrite Hnte.
  - intros st. unfold AutoClassifierMethods.fit_report, mbind, M_bind, lift. simpl.
    rewrite Htr. simpl. unfold getattr. by rewrite Hntr.
Qed.

(** X13: A data set whose target column is already called ['target'] loses it
    in the constructor of [AutoRegressor]: with [scale_target=True] the
    constructor itself does not return; otherwise the instance's training
    and test frames have no ['target'] column, and [fit_report] raises
    [AttributeError] before anything is fitted. *)
Theorem regressor_target_named_target_is_dropped (h h' : frames)
    (self : AutoRegressor.t) (num_cols cat_cols : list string)
    (data train test : option loc) (random_st : Z) (log_target : bool)
    (estimator : estimator_param) (imputer_strategy : string)
    (use_catboost_native_cat_features : bool) (ohe_min_freq : Qc)
    (scale_numeric_data scale_categoric_data scale_target : bool) :
  AutoRegressor.__init__ num_cols cat_cols "target" data train test random_st
    log_target estimator imputer_strategy use_catboost_native_cat_features
    ohe_min_freq scale_numeric_data scale_categoric_data scale_target h = (h', Ok self) →
  scale_target = false ∧
  ∃ dtr dte,
    h' !! AutoRegressor.train self = Some dtr ∧
    h' !! AutoRegressor.test self = Some dte ∧
    Pd.getitem "target" dtr = Raise KeyError ∧
    Pd.getitem "target" dte = Raise KeyError ∧
    ∀ st : report_state Fitted,
      AutoRegressorMethods.fit_report h' self st = (st, Raise AttributeError).
Proof.
  unfold AutoRegressor.__init__. intros Hr.
  apply bind_Ok in Hr as ([[d tr] te] & h1 & Hload & Hr).
  apply bind_Ok in Hr as (osc & h2 & Hscale & Hr).
  apply bind_Ok in Hr as ([nt prep] & h3 & [-> Hprep]%lift_Ok & Hr).
  apply ret_Ok in Hr as [-> ->]. simpl.
  destruct (load_frames_target_dropped _ _ _ _ _ _ _ _ _ _ Hload)
    as (dtr & dte & Htr & Hte & Hntr & Hnte).
  unfold scale_targets in Hscale. destruct scale_target.
  { apply bind_Ok in Hscale as (sc & h4 & Hsc & _).
    apply scale_column_Ok in Hsc as (df & c & ? & ? & ? & Hl & Hc & _).
    rewrite Htr in Hl. injection Hl as <-.
    unfold Pd.getitem in Hc. by rewrite Hntr in Hc. }
  apply ret_Ok in Hscale as [-> ->]. split; [done|].
  exists dtr, dte. split_and!; try done.
  - unfold Pd.getitem. by rewrite Hntr.
  - unfold Pd.getitem. by rewrite Hnte.
  - intros st. unfold AutoRegressorMethods.fit_report, mbind, M_bind, lift. simpl.
    rewrite Htr. simpl. unfold getattr. by rewrite Hntr.
Qed.

End AutoReportFacts.
End AutoReportFacts.

(** ** [test_binary_column] *)

Module BinaryTestFacts.
Section BinaryTestFacts.
Context {numeric_ops : Numeric} {tts_ops : TrainTestSplit} {stat_ops : Stats}.
Import AutoFacts AutoReportFacts.

(** With [train] and [test] given, [self.data] is the concatenation of the
    caller's frames as they are, a third object of the store. *)
Lemma load_frames_data_concat target_col tr0 te0 random_st log_target
    (h h1 : frames) d tr te df0 df1 :
  h !! tr0 = Some df0 → h !! te0 = Some df1 →
  load_frames target_col None (Some tr0) (Some te0) random_st log_target h
    = (h1, Ok (d, tr, te)) →
  h1 !! d = Some (Pd.concat_rows df0 df1) ∧ d ≠ tr ∧ d ≠ te.
Proof.
  intros Htr0 Hte0 Hr. unfold load_frames in Hr.
  apply bind_Ok in Hr as (str & h2 & (s1 & d1 & [= <-] & Hs1 & Htr & ->)%copy_Ok & Hr).
  apply bind_Ok in Hr as ([] & h3 & (? & ? & ? & ? & d2 & _ & _ & _ & _ & _ & ->)%rename_target_Ok & Hr).
  apply bind_Ok in Hr as (ste & h4 & (s2 & d3 & [= <-] & Hs2 & Hte & ->)%copy_Ok & Hr).
  apply bind_Ok in Hr as ([] & h5 & (? & ? & ? & ? & d4 & _ & _ & _ & _ & _ & ->)%rename_target_Ok & Hr).
  apply bind_Ok in Hr as (ptr & h6 & [-> Hptr]%lift_Ok & Hr).
  apply bind_Ok in Hr as (pte & h7 & [-> Hpte]%lift_Ok & Hr).
  simpl in Hptr, Hpte. injection Hptr as <-. injection Hpte as <-.
  apply bind_Ok in Hr as (dtr & h8 & [-> Hdtr]%load_Ok & Hr).
  apply bind_Ok in Hr as (dte & h9 & [-> Hdte]%load_Ok & Hr).
  apply bind_Ok in Hr as (sd & h10 & [Hd ->]%new_frame_Ok & Hr).
  apply ret_Ok in Hr as [-> [= -> -> ->]].
  assert (sd ≠ str ∧ sd ≠ ste) as [Hn1 Hn2].
  { split; intros ->; apply Hd; rewrite !dom_insert; set_solver. }
  assert (tr0 ≠ str ∧ te0 ≠ str) as [Hn3 Hn4].
  { split; intros ->; apply Htr; apply elem_of_dom; by eexists. }
  assert (tr0 ≠ ste ∧ te0 ≠ ste) as [Hn5 Hn6].
  { assert (tr0 ∈ dom h ∧ te0 ∈ dom h) as [Hi1 Hi2]
      by (split; apply elem_of_dom; by eexists).
    split; intros ->; apply Hte; rewrite !dom_insert; set_solver. }
  rewrite !lookup_insert_ne in Hdtr by done. rewrite !lookup_insert_ne in Hdte by done.
  rewrite Htr0 in Hdtr. rewrite Hte0 in Hdte. injection Hdtr as <-. injection Hdte as <-.
  split; [by rewrite lookup_insert_eq | done].
Qed.

Lemma lookup_col_fmap name (k : string → list Pd.cell) (names : list string) :
  name ∉ names → Pd.lookup_col name ((λ n, (n, k n)) <$> names) = None.
Proof.
  induction names as [|n names IH]; [done|]. simpl. intros Hn.
  rewrite not_elem_of_cons in Hn. destruct Hn as [Hne Hn].
  rewrite decide_False by done. by apply IH.
Qed.

(** A column that neither frame has is not in their concatenation. *)
Lemma getitem_concat_rows name a b :
  name ∉ Pd.column_names a → name ∉ Pd.column_names b →
  Pd.getitem name (Pd.concat_rows a b) = Raise KeyError.
Proof.
  intros Ha Hb. unfold Pd.getitem, Pd.concat_rows. simpl.
  rewrite lookup_col_fmap; [done|].
  rewrite not_elem_of_app. split; [done|].
  rewrite list_elem_of_filter. tauto.
Qed.

Lemma test_binary_column_no_target (h : frames) d df binary_column :
  h !! d = Some df → Pd.getitem "target" df = Raise KeyError →
  test_binary_column d binary_column h = (h, Raise KeyError).
Proof.
  intros Hd Ht. unfold test_binary_column, mbind, M_bind, load, lift.
  rewrite Hd. simpl.
  unfold Pd.getitem in *.
  destruct (Pd.lookup_col binary_column (Pd.df_columns df)) as [col|]; simpl; [|done].
  by rewrite Ht.
Qed.

(** X14: An [AutoClassifier] built from separate [train] and [test] frames
    keeps as [self.data] the caller's frames put together, where the target
    still has its own name: unless the caller's frames have a column
    ['target'], [test_binary_column] raises [KeyError] for every column. *)
Theorem classifier_test_binary_column_needs_data (h h' : frames)
    (self : AutoClassifier.t) (num_cols cat_cols : list string) (target_col : string)
    (tr0 te0 : loc) (df0 df1 : Pd.DataFrame) (random_st : Z) (log_target : bool)
    (estimator : estimator_param) (imputer_strategy : string) :
  h !! tr0 = Some df0 → h !! te0 = Some df1 →
  "target" ∉ Pd.column_names df0 → "target" ∉ Pd.column_names df1 →
  AutoClassifier.__init__ num_cols cat_cols target_col None (Some tr0) (Some te0)
    random_st log_target estimator imputer_strategy h = (h', Ok self) →
  h' !! AutoClassifier.data self = Some (Pd.concat_rows df0 df1) ∧
  ∀ binary_column,
    test_binary_column (AutoClassifier.data self) binary_column h' = (h', Raise KeyError).
Proof.
  intros Htr0 Hte0 Hn0 Hn1. unfold AutoClassifier.__init__. intros Hr.
  apply bind_Ok in Hr as ([[d tr] te] & h1 & Hload & Hr).
  apply bind_Ok in Hr as ([nt prep] & h3 & [-> Hprep]%lift_Ok & Hr).
  apply ret_Ok in Hr as [-> ->]. simpl.
  destruct (load_frames_data_concat _ _ _ _ _ _ _ _ _ _ _ _ Htr0 Hte0 Hload)
    as (Hd & _ & _).
  split; [done|]. intros binary_column.
  eapply test_binary_column_no_target; [done|]. by apply getitem_concat_rows.
Qed.

(** X15: An [AutoRegressor] built from separate [train] and [test] frames keeps
    as [self.data] the caller's frames put together, whatever the scaling
    of the target: unless the caller's frames have a column ['target'],
    [test_binary_column] raises [KeyError] for every column. *)
Theorem regressor_test_binary_column_needs_data (h h' : frames)
    (self : AutoRegressor.t) (num_cols cat_cols : list string) (target_col : string)
    (tr0 te0 : loc) (df0 df1 : Pd.DataFrame) (random_st : Z) (log_target : bool)
    (estimator : estimator_param) (imputer_strategy : string)
    (use_catboost_native_cat_features : bool) (ohe_min_freq : Qc)
    (scale_numeric_data scale_categoric_data scale_target : bool) :
  h !! tr0 = Some df0 → h !! te0 = Some df1 →
  "target" ∉ Pd.column_names df0 → "target" ∉ Pd.column_names df1 →
  AutoRegressor.__init__ num_cols cat_cols target_col None (Some tr0) (Some te0)
    random_st log_target estimator imputer_strategy use_catboost_native_cat_features
    ohe_min_freq scale_numeric_data scale_categoric_data scale_target h = (h', Ok self) →
  h' !! AutoRegressor.data self = Some (Pd.concat_rows df0 df1) ∧
  ∀ binary_column,
    test_binary_column (AutoRegressor.data self) binary_column h' = (h', Raise KeyError).
Proof.
  intros Htr0 Hte0 Hn0 Hn1. unfold AutoRegressor.__init__. intros Hr.
  apply bind_Ok in Hr as ([[d tr] te] & h1 & Hload & Hr).
  apply bind_Ok in Hr as (osc & h2 & Hscale & Hr).
  apply bind_Ok in Hr as ([nt prep] & h3 & [-> Hprep]%lift_Ok & Hr).
  apply ret_Ok in Hr as [-> ->]. simpl.
  destruct (load_frames_data_concat _ _ _ _ _ _ _ _ _ _ _ _ Htr0 Hte0 Hload)
    as (Hd & Hdtr & Hdte).
  assert (h2 !! d = Some (Pd.concat_rows df0 df1)) as Hd2.
  { unfold scale_targets in Hscale. destruct scale_target.
    - apply bind_Ok in Hscale as (sc & h4 & Hsc & Hscale).
      apply bind_Ok in Hscale as (sc' & h5 & Hsc' & Hscale).
      apply ret_Ok in Hscale as [-> _].
      apply scale_column_Ok in Hsc as (? & ? & ? & ? & ? & _ & _ & _ & _ & _ & ->).
      apply scale_column_Ok in Hsc' as (? & ? & ? & ? & ? & _ & _ & _ & _ & _ & ->).
      by rewrite !lookup_insert_ne by done.
    - by apply ret_Ok in Hscale as [-> _]. }
  split; [done|]. intros binary_column.
  eapply test_binary_column_no_target; [done|]. by apply getitem_concat_rows.
Qed.

End BinaryTestFacts.
End BinaryTestFacts.

(** ** [get_coefficients] *)

Module CoefficientFacts.
Section CoefficientFacts.
Context {numeric_ops : Numeric} {tts_ops : TrainTestSplit} {sort_ops : Sorting}.

Lemma bind_raise_not_Ok {S A C} (m : M S A) (e : exn) (s s' : S) (c : C) :
  (m ≫= λ _, raise (A := C) e) s ≠ (s', Ok c).
Proof.
  unfold mbind, M_bind, raise. by destruct (m s) as [s1 [a|e']].
Qed.

Lemma bind_raise_Raise {S A C} (m : M S A) (e : exn) (s : S) :
  ∃ s' e', (m ≫= λ _, raise (A := C) e) s = (s', Raise e').
Proof.
  unfold mbind, M_bind, raise. destruct (m s) as [s1 [a|e']]; by eexists _, _.
Qed.

(** X16: [AutoClassifier.get_coefficients] never returns a table.  With the
    names ['linear'] and ['random_forest'] it raises: the instance has no
    attribute [clf], and [self.estimator] is still the name, a string
    without [feature_importances_].  With ['catboost'], the constructor has
    replaced the name by the estimator object, no branch is taken and the
    result is [None]. *)
Theorem classifier_get_coefficients_never_returns_table (h h' : frames)
    (self : AutoClassifier.t) (num_cols cat_cols : list string) (target_col : string)
    (data train test : option loc) (random_st : Z) (log_target : bool)
    (estimator : estimator_param) (imputer_strategy : string)
    (fitted : option fitted_names) (feature_importances_ : result (list float))
    (st : out_names) :
  AutoClassifier.__init__ num_cols cat_cols target_col data train test random_st
    log_target estimator imputer_strategy h = (h', Ok self) →
  (∀ st' r,
     AutoClassifierMethods.get_coefficients self fitted feature_importances_ st
       = (st', Ok r) → r = None ∧ st' = st) ∧
  (estimator = EstName "linear" ∨ estimator = EstName "random_forest" →
   ∃ st' e,
     AutoClassifierMethods.get_coefficients self fitted feature_importances_ st
       = (st', Raise e)) ∧
  (estimator = EstName "catboost" →
   AutoClassifierMethods.get_coefficients self fitted feature_importances_ st
     = (st, Ok None)).
Proof.
  unfold AutoClassifier.__init__. intros Hr.
  apply bind_Ok in Hr as ([[d tr] te] & h1 & Hload & Hr).
  apply bind_Ok in Hr as ([nt prep] & h3 & [-> Hprep]%lift_Ok & Hr).
  apply ret_Ok in Hr as [-> ->].
  unfold AutoClassifierMethods.get_coefficients. simpl. split_and!.
  - intros st' r.
    destruct estimator as [s|l]; simpl.
    + destruct (decide (s = "catboost")) as [->|Hs]; simpl.
      { by intros [= <- <-]. }
      unfold AutoClassifierMethods.estimator_is.
      destruct (bool_decide (s = "linear")).
      { intros Hc. by apply bind_raise_not_Ok in Hc. }
      destruct (bool_decide (s = "random_forest") || bool_decide (s = "catboost")).
      * intros Hc. apply bind_Ok in Hc as (names & st1 & _ & Hc).
        by apply bind_Ok in Hc as (imp & st2 & [_ Himp]%lift_Ok & _).
      * by intros [= <- <-].
    + by intros [= <- <-].
  - intros [-> | ->]; simpl.
    + apply bind_raise_Raise.
    + unfold mbind, M_bind, lift.
      destruct (AutoClassifierReports._proc_output_names _ _ _) as [st1 [names|e]];
        by eexists _, _.
  - by intros ->.
Qed.

(** X17: [AutoRegressor.get_coefficients] on a linear model always raises, the
    class having no attribute [clf]; with an estimator object it returns
    [None] and sets nothing.  A table is returned only for the names
    ['random_forest'] and ['catboost'], with as many importances as output
    names. *)
Theorem regressor_get_coefficients_only_for_importances (self : AutoRegressor.t)
    (fitted : option fitted_names) (feature_importances_ : result (list float))
    (st : out_names) :
  (AutoRegressor.estimator self = EstName "linear" →
   ∃ st' e,
     AutoRegressorMethods.get_coefficients self fitted feature_importances_ st
       = (st', Raise e)) ∧
  (∀ l, AutoRegressor.estimator self = EstObject l →
     AutoRegressorMethods.get_coefficients self fitted feature_importances_ st
       = (st, Ok None)) ∧
  (∀ st' t,
     AutoRegressorMethods.get_coefficients self fitted feature_importances_ st
       = (st', Ok (Some t)) →
     (AutoRegressor.estimator self = EstName "random_forest" ∨
      AutoRegressor.estimator self = EstName "catboost") ∧
     ∃ names importance,
       AutoRegressorReports._proc_output_names self fitted st = (st', Ok names) ∧
       feature_importances_ = Ok importance ∧
       length names = length importance ∧
       Pd.iloc (argsort_descending importance)
         {| Pd.df_index := Pd.RangeIndex (length names);
            Pd.df_columns := [("features", Pd.CStr <$> names);
                              ("importance", Pd.CFloat <$> importance)] |} = Ok t).
Proof.
  unfold AutoRegressorMethods.get_coefficients. split_and!.
  - intros ->. simpl. apply bind_raise_Raise.
  - by intros l ->.
  - intros st' t.
    destruct (AutoRegressor.estimator self) as [s|l]; simpl; [|done].
    destruct (bool_decide (s = "linear")).
    { intros Hc. by apply bind_raise_not_Ok in Hc. }
    destruct (bool_decide (s = "random_forest")) eqn:Hrf;
      [|destruct (bool_decide (s = "catboost")) eqn:Hcb]; simpl; [| |done].
    all: intros Hc; apply bind_Ok in Hc as (names & st1 & Hnames & Hc);
      apply bind_Ok in Hc as (imp & st2 & [-> Himp]%lift_Ok & Hc);
      apply bind_Ok in Hc as (t0 & st3 & [-> Ht0]%lift_Ok & Hc);
      apply bind_Ok in Hc as (t1 & st4 & [-> Ht1]%lift_Ok & Hc);
      apply ret_Ok in Hc as [-> [= <-]];
      unfold Pd.from_columns in Ht0; simpl in Ht0;
      case_decide as Hlen; [|done]; injection Ht0 as <-;
      apply Forall_cons in Hlen as [_ [Hlen _]%Forall_cons]; simpl in Hlen;
      rewrite !length_fmap in Hlen.
    + split; [left; f_equal; by apply bool_decide_eq_true in Hrf|].
      exists names, imp. rewrite length_fmap in Ht1. by rewrite Hlen.
    + split; [right; f_equal; by apply bool_decide_eq_true in Hcb|].
      exists names, imp. rewrite length_fmap in Ht1. by rewrite Hlen.
Qed.

End CoefficientFacts.
End CoefficientFacts.

Module OutputNamesMoreFacts.
Section OutputNamesMoreFacts.
Context {numeric_ops : Numeric} {tts_ops : TrainTestSplit}.
Import Str StrFacts RenameFacts OutputNamesFacts.

Lemma pretty_digit (d : nat) :
  (d < 10)%nat → ∃ c, pretty d = String c "" ∧ String.prefix "x" (String c "") = false.
Proof.
  intros Hd. do 10 (destruct d as [|d]; [eexists; split; reflexivity|]). lia.
Qed.

Lemma two_digit_name (d : nat) (rest : string) :
  (d < 10)%nat →
  ("x" +:+ pretty (10 + d)%nat) +:+ rest = ("x" +:+ pretty 1%nat) +:+ (pretty d +:+ rest).
Proof.
  intros Hd. do 10 (destruct d as [|d]; [reflexivity|]). lia.
Qed.

Lemma digit_no_x (d : nat) (s : string) :
  (d < 10)%nat → contains "x" s = false →
  contains "x" (pretty d +:+ s) = false ∧ String.prefix "x" (pretty d +:+ s) = false.
Proof.
  intros Hd Hs. destruct (pretty_digit d Hd) as (c & -> & Hc).
  rewrite append_cons, append_nil_l. cbn [contains String.prefix] in *.
  destruct (Ascii.ascii_dec _ c); [done|]. by rewrite Hs.
Qed.

(** X10: From the eleventh categorical column on, the prefix [x1] of the second
    column is the start of the prefixes [x10] .. [x19]: a one-hot output
    name [x1<d>_<category>] of column [10 + d] is renamed in the pass of
    column 1 and ends up as [<column 1><d>_<category>], whatever the name of
    column [10 + d]. *)
Theorem proc_output_names_two_digit_prefix (cat_cols names nums : list string)
    (ft : fitted_names) (st : out_names) (cat1 : string) :
  one_hot_feature_names_out ft = Ok names →
  imputer_feature_names_in ft = Ok nums →
  Forall (λ c, String.prefix "x" c = false) cat_cols →
  cat_cols !! 1%nat = Some cat1 →
  ∃ out,
    length out = length names ∧
    (∀ j d v,
       (d < 10)%nat →
       names !! j = Some (("x" +:+ pretty (10 + d)%nat) +:+ "_" +:+ v) →
       contains "x" v = false →
       out !! j = Some (cat1 +:+ pretty d +:+ "_" +:+ v)) ∧
    (∀ self : AutoRegressor.t,
       AutoRegressor.cat_cols self = cat_cols →
       AutoRegressor.use_catboost_native_cat_features self = false →
       AutoRegressorReports._proc_output_names self (Some ft) st =
         ({| cat_out_names_ := Some out; num_out_names_ := Some nums |},
          Ok (out ++ nums))) ∧
    (∀ self : AutoClassifier.t,
       AutoClassifier.cat_cols self = cat_cols →
       AutoClassifierReports._proc_output_names self (Some ft) st =
         ({| cat_out_names_ := Some out; num_out_names_ := Some nums |},
          Ok (out ++ nums))).
Proof.
  intros Hnames Hnums Hx H1. exists (rename_one_hot cat_cols names).
  split_and!.
  - by rewrite rename_one_hot_map, length_fmap.
  - intros j d v Hd Hj Hv.
    rewrite rename_one_hot_map, list_lookup_fmap, Hj.
    change (Some (rename_name cat_cols (("x" +:+ pretty (10 + d)%nat) +:+ "_" +:+ v))
            = Some (cat1 +:+ pretty d +:+ "_" +:+ v)).
    f_equal.
    assert (String.prefix "x" cat1 = false) as Hcat1.
    { rewrite Forall_forall in Hx. apply Hx. by eapply list_elem_of_lookup_2. }
    assert (contains "x" ("_" +:+ v) = false) as Hv'.
    { rewrite append_cons, append_nil_l. cbn [contains String.prefix]. rewrite Hv.
      by destruct (Ascii.ascii_dec _ _). }
    destruct (digit_no_x d ("_" +:+ v) Hd Hv') as [Hc Hp].
    rewrite two_digit_name by done.
    apply rename_name_first_match; [done|..].
    + intros [|i'] Hi'; [reflexivity | lia].
    + by apply contains_x_digits.
    + intros i' _. by apply prefix_x_other.
  - intros self Hcols Hnative. unfold AutoRegressorReports._proc_output_names.
    rewrite Hnative, Hcols. by apply proc_output_names_run.
  - intros self Hcols. unfold AutoClassifierReports._proc_output_names.
    rewrite Hcols. by apply proc_output_names_run.
Qed.

(** X11: With [use_catboost_native_cat_features=True] and the CatBoost
    estimator, the categorical branch only imputes, the output names are the
    categorical columns followed by the numeric ones, and the positions
    given to CatBoost as [cat_features] are exactly the positions of the
    categorical columns among them. *)
Theorem native_cat_features_name_categorical_columns (h h' : frames)
    (self : AutoRegressor.t) (num_cols cat_cols : list string) (target_col : string)
    (data train test : option loc) (random_st : Z) (log_target : bool)
    (imputer_strategy : string) (ohe_min_freq : Qc)
    (scale_numeric_data scale_categoric_data scale_target : bool)
    (ft : fitted_names) (nums : list string) :
  AutoRegressor.__init__ num_cols cat_cols target_col data train test random_st
    log_target (EstName "catboost") imputer_strategy true
    ohe_min_freq scale_numeric_data scale_categoric_data scale_target h = (h', Ok self) →
  imputer_feature_names_in ft = Ok nums →
  ∃ idx,
    final_estimator (AutoRegressor.model self) = CatBoostRegressor (Some idx) ∧
    ct_cat (preprocessor (AutoRegressor.model self))
      = ([("imputer", SimpleImputer "constant")], cat_cols) ∧
    (∀ st, AutoRegressorReports._proc_output_names self (Some ft) st =
             ({| cat_out_names_ := Some cat_cols; num_out_names_ := Some nums |},
              Ok (cat_cols ++ nums))) ∧
    ∀ i, i ∈ idx ↔ ∃ c, cat_cols !! i = Some c ∧ (cat_cols ++ nums) !! i = Some c.
Proof.
  unfold AutoRegressor.__init__. intros Hr Hnums.
  apply bind_Ok in Hr as ([[d tr] te] & h1 & Hload & Hr).
  apply bind_Ok in Hr as (osc & h2 & Hscale & Hr).
  apply bind_Ok in Hr as ([nt prep] & h3 & [-> Hprep]%lift_Ok & Hr).
  apply ret_Ok in Hr as [-> ->]. simpl.
  unfold AutoRegressor.get_pipeline_preprocessor in Hprep.
  apply rbind_Ok in Hprep as (nt' & _ & [= <- <-]). simpl.
  exists (seq 0 (length cat_cols)). split_and!; try done.
  - intros st. unfold AutoRegressorReports._proc_output_names. simpl.
    unfold num_output_names, mbind, M_bind, lift, modify, mret, M_ret. simpl.
    by rewrite Hnums.
  - intros i. rewrite elem_of_seq. split.
    + intros [_ Hlt]. simpl in Hlt.
      destruct (lookup_lt_is_Some_2 cat_cols i Hlt) as [c Hc].
      exists c. split; [done|]. by apply lookup_app_l_Some.
    + intros (c & Hc & _). apply lookup_lt_Some in Hc. lia.
Qed.

End OutputNamesMoreFacts.
End OutputNamesMoreFacts.

(** ** The further theorems at concrete instances *)

Module MoreWitnesses.
Import Examples.

Lemma refit_raises_and_keeps_first_fit_witness :
  ∃ self' h' e,
    RegressorCV.fit (est_ops := mean_regressor) (metric_ops := example_metrics)
      (numeric_ops := example_numeric) (split_ops := example_splitting)
      cv_X cv_y no_kwargs (cv_run.1.1, cv_run.1.2) = ((self', h'), Raise e) ∧
    RegressorCV.cv_results_ self' = RegressorCV.CvFrame 4 ∧
    (RegressorCV.predict (est_ops := mean_regressor) [q 7] (self', h')).2
      = Ok (A1 [Fin (q 5)]).
Proof.
  destruct (CVStoreFacts.refit_raises_and_keeps_first_fit
              (est_ops := mean_regressor) (metric_ops := example_metrics)
              (numeric_ops := example_numeric) (split_ops := example_splitting)
              cv_X cv_y no_kwargs cv_run.1.1 cv_run.1.2 4%nat)
    as (self' & h' & e & Hfit & Hcv & Hkeep & Hpredict).
  - reflexivity.
  - exists self', h', e. split; [exact Hfit|]. split; [exact Hcv|].
    assert ((RegressorCV.predict (est_ops := mean_regressor) [q 7]
               (cv_run.1.1, cv_run.1.2)).2 = Ok (A1 [Fin (q 5)])) as Hr.
    { apply (bool_decide_unpack _); vm_compute; exact I. }
    rewrite (Hpredict [q 7] (A1 [Fin (q 5)])); [reflexivity|].
    rewrite CVStoreFacts.predict_run_frame in Hr |- *.
    f_equal. exact Hr.
Defined.

Lemma ts_refit_raises_and_keeps_first_fit_witness :
  ∃ self' h' e,
    RegressorTimeSeriesCV.fit (est_ops := mean_regressor) (metric_ops := example_metrics)
      (numeric_ops := example_numeric) (split_ops := example_splitting)
      cv_X cv_y None (ts_run.1.1, ts_run.1.2) = ((self', h'), Raise e) ∧
    RegressorTimeSeriesCV.cv_results_ self' = RegressorTimeSeriesCV.CvFrame 3 ∧
    h' !! 0%nat = ts_run.1.2 !! 0%nat.
Proof.
  destruct (TSStoreFacts.ts_refit_raises_and_keeps_first_fit
              (est_ops := mean_regressor) (metric_ops := example_metrics)
              (numeric_ops := example_numeric) (split_ops := example_splitting)
              cv_X cv_y None ts_run.1.1 ts_run.1.2 3%nat)
    as (self' & h' & e & Hfit & Hcv & Hbase & Hkeep & Hpredict).
  - reflexivity.
  - exists self', h', e. split; [exact Hfit|]. split; [exact Hcv|].
    destruct (ts_run.1.2 !! 0%nat) as [o|] eqn:Ho; [|by vm_compute in Ho].
    exact (Hkeep _ _ Ho).
Defined.

Lemma fit_tabulates_fold_metrics_witness :
  ∃ self' h' (outs : list (@fold_out (option Qc))) l m,
    cv_run = ((self', h'), Ok ()) ∧ length outs = 3%nat ∧
    h' !! l = Some (OFrame (cv_results_frame (fo_reg <$> outs) (fo_metrics <$> outs))) ∧
    h' !! m = Some (OFrame (cv_summary_frame (numeric_ops := example_numeric)
                              (fo_metrics <$> outs))).
Proof.
  destruct cv_run as [[self' h'] [[]|e]] eqn:Hrun; [|by vm_compute in Hrun].
  destruct (CVReportFacts.fit_tabulates_fold_metrics
              (est_ops := mean_regressor) (metric_ops := example_metrics)
              (numeric_ops := example_numeric) (split_ops := example_splitting)
              cv_X cv_y no_kwargs cv_instance cv_store self' h' None)
    as (folds & outs & l & m & oof & score & mape & rmse & Hsplit & Hfolds & Hcv & Hl
        & Hm & Hne & Hsum & _).
  - reflexivity.
  - reflexivity.
  - exact Hrun.
  - exists self', h', outs, l, m. split; [reflexivity|].
    split; [|split; [exact Hl | exact Hsum]].
    rewrite <- (Forall2_length _ _ _ Hfolds).
    assert (length <$> RegressorCV.kf_split (split_ops := example_splitting)
                         cv_instance cv_X cv_y = Ok 3%nat) as Hk by reflexivity.
    rewrite Hsplit in Hk. by injection Hk.
Defined.

Lemma match_index_flag_keeps_prediction_witness :
  KNNRegressor.predict Ok (knn KNNRegressor.WUniform [q 1; q 2; q 4]) () false "median"
    = Ok (KNNRegressor.Pred (A1 [Some (q 20)])).
Proof.
  destruct (KNNMoreFacts.match_index_flag_keeps_prediction Ok
              (knn KNNRegressor.WUniform [q 1; q 2; q 4]) () "median"
              (A1 [Some (q 20)]) [[0%nat]] [[0; 1; 2]%nat]) as [Hpred _].
  - apply (bool_decide_unpack _); vm_compute; exact I.
  - exact Hpred.
Defined.


End MoreWitnesses.

Module ReportWitnesses.
Import Examples MoreExamples.

Lemma proc_output_names_renames_one_hot_names_witness :
  ∃ self,
    (auto_classifier_run "catboost").2 = Ok self ∧
    (AutoClassifierReports._proc_output_names self (Some city_names) no_names).2
      = Ok ["city_oslo"; "city_rome"; "color_blue"; "color_red"; "rooms"].
Proof.
  destruct (OutputNamesFacts.proc_output_names_renames_one_hot_names
              ["city"; "color"] ["x0_oslo"; "x0_rome"; "x1_blue"; "x1_red"] ["rooms"]
              city_names no_names)
    as (out & Hlen & Hren & _ & Hcls).
  - reflexivity.
  - reflexivity.
  - simpl. lia.
  - repeat constructor.
  - destruct (auto_classifier_run "catboost") as [h' [self|e]] eqn:Hrun;
      [|by vm_compute in Hrun].
    exists self. split; [reflexivity|].
    rewrite (Hcls self); [|by vm_compute in Hrun; injection Hrun as _ <-].
    pose proof (Hren 0%nat 0%nat "city" "oslo" eq_refl eq_refl eq_refl) as H0.
    pose proof (Hren 1%nat 0%nat "city" "rome" eq_refl eq_refl eq_refl) as H1.
    pose proof (Hren 2%nat 1%nat "color" "blue" eq_refl eq_refl eq_refl) as H2.
    pose proof (Hren 3%nat 1%nat "color" "red" eq_refl eq_refl eq_refl) as H3.
    destruct out as [|a [|b [|c [|d [|]]]]]; try done.
    injection H0 as ->. injection H1 as ->. injection H2 as ->. injection H3 as ->.
    reflexivity.
Defined.

Lemma proc_output_names_two_digit_prefix_witness :
  ∃ out,
    out !! 0%nat = Some "b0_red" ∧ eleven_columns !! 10%nat = Some "k" ∧
    ∀ self : AutoClassifier.t,
      AutoClassifier.cat_cols self = eleven_columns →
      (AutoClassifierReports._proc_output_names self
         (Some {| one_hot_feature_names_out := Ok ["x10_red"];
                  imputer_feature_names_in := Ok [] |}) no_names).2
        = Ok (out ++ []).
Proof.
  destruct (OutputNamesMoreFacts.proc_output_names_two_digit_prefix
              eleven_columns ["x10_red"] []
              {| one_hot_feature_names_out := Ok ["x10_red"];
                 imputer_feature_names_in := Ok [] |} no_names "b")
    as (out & Hlen & Hren & _ & Hcls).
  - reflexivity.
  - reflexivity.
  - repeat constructor.
  - reflexivity.
  - exists out. split; [|split; [reflexivity|]].
    + apply (Hren 0%nat 0%nat "red"); [lia | reflexivity | reflexivity].
    + intros self Hself. by rewrite (Hcls self Hself).
Defined.

Lemma native_cat_features_name_categorical_columns_witness :
  ∃ self idx,
    (auto_regressor_city_run "catboost" true).2 = Ok self ∧
    final_estimator (AutoRegressor.model self) = CatBoostRegressor (Some idx) ∧
    (∀ i, i ∈ idx ↔ (i < 2)%nat) ∧
    (AutoRegressorReports._proc_output_names self (Some city_names) no_names).2
      = Ok ["city"; "color"; "rooms"].
Proof.
  destruct (auto_regressor_city_run "catboost" true) as [h' [self|e]] eqn:Hrun;
    [|by vm_compute in Hrun].
  destruct (OutputNamesMoreFacts.native_cat_features_name_categorical_columns
              (numeric_ops := example_numeric) (tts_ops := example_train_test_split)
              city_frames h' self ["rooms"] ["city"; "color"] "price" None
              (Some 0%nat) (Some 1%nat) 42 false "simple" (q 1) false false false
              city_names ["rooms"])
    as (idx & Hest & Hcat & Hnames & Hidx).
  - exact Hrun.
  - reflexivity.
  - exists self, idx. split; [reflexivity|]. split; [exact Hest|]. split.
    + intros i. rewrite Hidx. split.
      * intros (c & Hc & _). apply lookup_lt_Some in Hc. exact Hc.
      * intros Hi. destruct i as [|[|i]]; [by exists "city" | by exists "color" | lia].
    + by rewrite Hnames.
Defined.

Lemma classifier_target_named_target_is_dropped_witness :
  ∃ h' self,
    auto_classifier_target_run = (h', Ok self) ∧
    ∀ st, AutoClassifierMethods.fit_report (pipeline_ops := example_pipeline) h' self st
            = (st, Raise AttributeError).
Proof.
  destruct auto_classifier_target_run as [h' [self|e]] eqn:Hrun;
    [|by vm_compute in Hrun].
  destruct (AutoReportFacts.classifier_target_named_target_is_dropped
              (numeric_ops := example_numeric) (tts_ops := example_train_test_split)
              (pipeline_ops := example_pipeline)
              target_frames h' self ["rooms"] [] None (Some 0%nat) (Some 1%nat) 42 false
              (EstName "catboost") "simple")
    as (dtr & dte & _ & _ & _ & _ & Hfit).
  - exact Hrun.
  - exists h', self. split; [reflexivity | exact Hfit].
Defined.

Lemma regressor_target_named_target_is_dropped_witness :
  ∃ h' self,
    auto_regressor_target_run = (h', Ok self) ∧
    ∀ st, AutoRegressorMethods.fit_report (metric_ops := example_metrics)
            (pipeline_ops := example_pipeline) h' self st
            = (st, Raise AttributeError).
Proof.
  destruct auto_regressor_target_run as [h' [self|e]] eqn:Hrun;
    [|by vm_compute in Hrun].
  destruct (AutoReportFacts.regressor_target_named_target_is_dropped
              (numeric_ops := example_numeric) (tts_ops := example_train_test_split)
              (metric_ops := example_metrics) (pipeline_ops := example_pipeline)
              target_frames h' self ["rooms"] [] None (Some 0%nat) (Some 1%nat) 42 false
              (EstName "catboost") "simple" false (q 1) false false false)
    as (_ & dtr & dte & _ & _ & _ & _ & Hfit).
  - exact Hrun.
  - exists h', self. split; [reflexivity | exact Hfit].
Defined.

Lemma classifier_test_binary_column_needs_data_witness :
  ∃ h' self,
    auto_classifier_run "catboost" = (h', Ok self) ∧
    test_binary_column (stat_ops := example_stats) (AutoClassifier.data self) "rooms" h'
      = (h', Raise KeyError).
Proof.
  destruct (auto_classifier_run "catboost") as [h' [self|e]] eqn:Hrun;
    [|by vm_compute in Hrun].
  destruct (BinaryTestFacts.classifier_test_binary_column_needs_data
              (numeric_ops := example_numeric) (tts_ops := example_train_test_split)
              (stat_ops := example_stats)
              city_frames h' self ["rooms"] ["city"; "color"] "price" 0%nat 1%nat
              city_train city_test 42 false (EstName "catboost") "simple")
    as [_ Htest].
  - reflexivity.
  - reflexivity.
  - apply (bool_decide_unpack _); vm_compute; exact I.
  - apply (bool_decide_unpack _); vm_compute; exact I.
  - exact Hrun.
  - exists h', self. split; [reflexivity | apply Htest].
Defined.

Lemma regressor_test_binary_column_needs_data_witness :
  ∃ h' self,
    auto_regressor_city_run "linear" false = (h', Ok self) ∧
    test_binary_column (stat_ops := example_stats) (AutoRegressor.data self) "rooms" h'
      = (h', Raise KeyError).
Proof.
  destruct (auto_regressor_city_run "linear" false) as [h' [self|e]] eqn:Hrun;
    [|by vm_compute in Hrun].
  destruct (BinaryTestFacts.regressor_test_binary_column_needs_data
              (numeric_ops := example_numeric) (tts_ops := example_train_test_split)
              (stat_ops := example_stats)
              city_frames h' self ["rooms"] ["city"; "color"] "price" 0%nat 1%nat
              city_train city_test 42 false (EstName "linear") "simple"
              false (q 1) false false false)
    as [_ Htest].
  - reflexivity.
  - reflexivity.
  - apply (bool_decide_unpack _); vm_compute; exact I.
  - apply (bool_decide_unpack _); vm_compute; exact I.
  - exact Hrun.
  - exists h', self. split; [reflexivity | apply Htest].
Defined.

Lemma classifier_get_coefficients_never_returns_table_witness :
  ∃ h' self st' e,
    auto_classifier_run "random_forest" = (h', Ok self) ∧
    AutoClassifierMethods.get_coefficients (sort_ops := example_sorting) self
      (Some city_names) (Ok [Fin (q 1); Fin (q 2); Fin (q 3); Fin (q 4); Fin (q 5)])
      no_names = (st', Raise e).
Proof.
  destruct (auto_classifier_run "random_forest") as [h' [self|e]] eqn:Hrun;
    [|by vm_compute in Hrun].
  destruct (CoefficientFacts.classifier_get_coefficients_never_returns_table
              (numeric_ops := example_numeric) (tts_ops := example_train_test_split)
              (sort_ops := example_sorting)
              city_frames h' self ["rooms"] ["city"; "color"] "price" None
              (Some 0%nat) (Some 1%nat) 42 false (EstName "random_forest") "simple"
              (Some city_names) (Ok [Fin (q 1); Fin (q 2); Fin (q 3); Fin (q 4); Fin (q 5)])
              no_names)
    as (_ & Hraise & _).
  - exact Hrun.
  - destruct Hraise as (st' & e & Hc); [by right|].
    exists h', self, st', e. split; [reflexivity | exact Hc].
Defined.

End ReportWitnesses.
